(** * E-learning platform backend: access control, classroom registry and
      material catalog of [backend/server.py], embedded in Rocq.

    The MongoDB collections are insertion-ordered lists of documents, the
    request handlers are functions from a database and their inputs to a
    result, and everything the handlers draw from their environment (the
    clock, [uuid.uuid4()], the random generator, the bcrypt salt) is an
    explicit argument. *)

From Stdlib Require Import List String Ascii ZArith Bool Lia Arith.
From Stdlib Require Import Sorted Permutation.
From Stdlib Require Import Floats.
Import ListNotations.

Local Open Scope string_scope.
Local Open Scope Z_scope.
Local Open Scope list_scope.

(** ** Strings *)

(** [str.isascii()]: every character of the string is below 128. *)
Definition isascii (s : string) : bool :=
  forallb (fun c => (nat_of_ascii c <? 128)%nat) (list_ascii_of_string s).

(** [str.upper()] of a string of ASCII characters: a lowercase letter loses
    bit 5, every other character stays. Outside ASCII [str.upper()] follows
    the case mapping of the Unicode database of the interpreter, which maps
    some characters into ASCII and some to several characters; [upper] is
    [str.upper()] only on the strings that [isascii] accepts, and what is
    proved of a string a caller sends asks for [isascii] of it. *)
Definition upper_ascii (c : ascii) : ascii :=
  let n := nat_of_ascii c in
  if (andb (97 <=? n) (n <=? 122))%nat then ascii_of_nat (n - 32) else c.

Fixpoint upper (s : string) : string :=
  match s with
  | EmptyString => EmptyString
  | String c s' => String (upper_ascii c) (upper s')
  end.

(** [string.ascii_uppercase + string.digits] *)
Definition ascii_uppercase : string := "ABCDEFGHIJKLMNOPQRSTUVWXYZ".
Definition digits : string := "0123456789".
Definition code_alphabet : list ascii :=
  list_ascii_of_string (ascii_uppercase ++ digits)%string.

(** Python truthiness of a [str]: the empty string is falsy. *)
Definition truthy (s : string) : bool :=
  match s with
  | EmptyString => false
  | String _ _ => true
  end.

(** ** Errors and results *)

(** What a handler can raise: an [HTTPException] with its status code and
    detail, the [TypeError] of subscripting [None], and the driver's
    [DuplicateKeyError] when an insert violates a unique index. *)
Inductive error : Type :=
| HTTPException (status_code : nat) (detail : string)
| TypeError
| DuplicateKeyError.

Inductive result (A : Type) : Type :=
| Ok (a : A)
| Err (e : error).
Arguments Ok {A} a.
Arguments Err {A} e.

Definition bind {A B : Type} (r : result A) (k : A -> result B) : result B :=
  match r with
  | Ok a => k a
  | Err e => Err e
  end.

Notation "x <- r ;; k" := (bind r (fun x => k))
  (at level 61, r at next level, right associativity).

(** [raise HTTPException(...)] when the condition holds. *)
Definition raise_if (b : bool) (e : error) : result unit :=
  if b then Err e else Ok tt.

(** [doc = await find_one(...); if not doc: raise ...] *)
Definition or_raise {A : Type} (o : option A) (e : error) : result A :=
  match o with
  | Some a => Ok a
  | None => Err e
  end.

Definition Forbidden (e : error) : Prop :=
  exists detail, e = HTTPException 403 detail.
Definition NotFound (e : error) : Prop :=
  exists detail, e = HTTPException 404 detail.

(** ** Collections *)

Section Collection.
Context {A : Type}.

(** [find_one(query)]: the first document, in insertion order, that
    matches. *)
Definition find_one (q : A -> bool) (coll : list A) : option A :=
  find q coll.

(** [find(query)] *)
Definition find_many (q : A -> bool) (coll : list A) : list A :=
  filter q coll.

(** [count_documents(query)] *)
Definition count_documents (q : A -> bool) (coll : list A) : nat :=
  List.length (filter q coll).

(** [delete_many(query)] *)
Definition delete_many (q : A -> bool) (coll : list A) : list A :=
  filter (fun d => negb (q d)) coll.

(** [delete_one(query)]: the first match goes, the others stay. *)
Fixpoint delete_one (q : A -> bool) (coll : list A) : list A :=
  match coll with
  | [] => []
  | d :: rest => if q d then rest else d :: delete_one q rest
  end.

(** [delete_one(query).deleted_count] *)
Definition deleted_count (q : A -> bool) (coll : list A) : nat :=
  if existsb q coll then 1%nat else 0%nat.

(** [update_one(query, {"$set": ...})]: the first match is rewritten. *)
Fixpoint update_one (q : A -> bool) (set : A -> A) (coll : list A) : list A :=
  match coll with
  | [] => []
  | d :: rest => if q d then set d :: rest else d :: update_one q set rest
  end.

(** [insert_one(doc)] under the collection's unique indexes: [clash d d']
    says that [d] and [d'] agree on the key of some unique index. *)
Definition insert_one (clash : A -> A -> bool) (doc : A) (coll : list A)
  : result (list A) :=
  if existsb (clash doc) coll then Err DuplicateKeyError
  else Ok (coll ++ [doc]).

(** [.sort(key, direction)], as a stable insertion sort: [le a b] says that
    [a] may stand before [b]. *)
Fixpoint insert_sorted (le : A -> A -> bool) (x : A) (l : list A) : list A :=
  match l with
  | [] => [x]
  | y :: l' => if le x y then x :: l else y :: insert_sorted le x l'
  end.

Fixpoint sort_by (le : A -> A -> bool) (l : list A) : list A :=
  match l with
  | [] => []
  | x :: l' => insert_sorted le x (sort_by le l')
  end.

(** [.to_list(length)] *)
Definition to_list (n : nat) (l : list A) : list A := firstn n l.
End Collection.

(** ** Models *)

Definition TEACHER : string := "TEACHER".
Definition STUDENT : string := "STUDENT".

Definition TEXT : string := "TEXT".
Definition FILE : string := "FILE".
Definition VIDEO : string := "VIDEO".
Definition MODEL3D : string := "MODEL3D".

(** Seconds since the epoch; [datetime.now(timezone.utc).isoformat()] is
    kept as the instant it prints. *)
Definition timestamp : Type := Z.

(** The bcrypt digest of a password under a salt, as the pair it is computed
    from: [checkpw] accepts exactly the password that was hashed. *)
Inductive digest : Type :=
| Bcrypt (salt : string) (password : string).

Definition hash_password (salt : string) (password : string) : digest :=
  Bcrypt salt password.

Definition verify_password (password : string) (hashed : digest) : bool :=
  match hashed with
  | Bcrypt _ p => String.eqb password p
  end.

Record User : Type := mkUser {
  u_id : string;
  u_email : string;
  u_password : digest;
  u_name : string;
  u_role : string;
  u_avatar : option string;
  u_createdAt : timestamp;
  u_updatedAt : timestamp
}.

Record Classroom : Type := mkClassroom {
  c_id : string;
  c_name : string;
  c_description : option string;
  c_subject : string;
  c_code : string;
  c_coverImage : option string;
  c_isActive : bool;
  c_teacherId : string;
  c_createdAt : timestamp;
  c_updatedAt : timestamp
}.

Record Enrollment : Type := mkEnrollment {
  e_id : string;
  e_studentId : string;
  e_classroomId : string;
  e_joinedAt : timestamp
}.

Record Material : Type := mkMaterial {
  m_id : string;
  m_title : string;
  m_description : option string;
  m_type : string;
  m_content : option string;
  m_fileUrl : option string;
  m_fileName : option string;
  m_videoUrl : option string;
  m_modelUrl : option string;
  m_arEnabled : bool;
  m_modelScale : float;
  m_order : Z;
  m_isPublished : bool;
  m_classroomId : string;
  m_createdById : string;
  m_createdAt : timestamp;
  m_updatedAt : timestamp
}.

(** The database: [db.users], [db.classrooms], [db.enrollments],
    [db.materials]. *)
Record DB : Type := mkDB {
  users : list User;
  classrooms : list Classroom;
  enrollments : list Enrollment;
  materials : list Material
}.

Definition empty_db : DB := mkDB [] [] [] [].

Definition with_users (db : DB) (us : list User) : DB :=
  mkDB us (classrooms db) (enrollments db) (materials db).
Definition with_classrooms (db : DB) (cs : list Classroom) : DB :=
  mkDB (users db) cs (enrollments db) (materials db).
Definition with_enrollments (db : DB) (es : list Enrollment) : DB :=
  mkDB (users db) (classrooms db) es (materials db).
Definition with_materials (db : DB) (ms : list Material) : DB :=
  mkDB (users db) (classrooms db) (enrollments db) ms.

(** The unique indexes of [startup_db]: users by email and by id, classrooms
    by id and by code, enrollments by id and by (studentId, classroomId),
    materials by id. *)
Definition user_clash (a b : User) : bool :=
  String.eqb (u_email a) (u_email b) || String.eqb (u_id a) (u_id b).
Definition classroom_clash (a b : Classroom) : bool :=
  String.eqb (c_id a) (c_id b) || String.eqb (c_code a) (c_code b).
Definition enrollment_clash (a b : Enrollment) : bool :=
  String.eqb (e_id a) (e_id b)
  || (String.eqb (e_studentId a) (e_studentId b)
      && String.eqb (e_classroomId a) (e_classroomId b)).
Definition material_clash (a b : Material) : bool :=
  String.eqb (m_id a) (m_id b).

(** Queries *)
Definition user_by_id (id : string) (u : User) : bool := String.eqb (u_id u) id.
Definition user_by_email (email : string) (u : User) : bool :=
  String.eqb (u_email u) email.
Definition classroom_by_id (id : string) (c : Classroom) : bool :=
  String.eqb (c_id c) id.
Definition classroom_by_code (code : string) (c : Classroom) : bool :=
  String.eqb (c_code c) code.
Definition enrollment_by_classroom (cid : string) (e : Enrollment) : bool :=
  String.eqb (e_classroomId e) cid.
Definition enrollment_of (sid cid : string) (e : Enrollment) : bool :=
  String.eqb (e_studentId e) sid && String.eqb (e_classroomId e) cid.
Definition material_by_id (id : string) (m : Material) : bool :=
  String.eqb (m_id m) id.
Definition material_by_classroom (cid : string) (m : Material) : bool :=
  String.eqb (m_classroomId m) cid.
Definition published_in_classroom (cid : string) (m : Material) : bool :=
  String.eqb (m_classroomId m) cid && Bool.eqb (m_isPublished m) true.

(** Request bodies *)
Record UserCreate : Type := mkUserCreate {
  uc_email : string;
  uc_password : string;
  uc_name : string;
  uc_role : string
}.

Record UserResponse : Type := mkUserResponse {
  ur_id : string;
  ur_email : string;
  ur_name : string;
  ur_role : string;
  ur_avatar : option string;
  ur_createdAt : timestamp
}.

Record UserUpdate : Type := mkUserUpdate {
  uu_name : option string;
  uu_avatar : option string
}.

Record PasswordChange : Type := mkPasswordChange {
  pc_currentPassword : string;
  pc_newPassword : string
}.

Record ClassroomCreate : Type := mkClassroomCreate {
  cc_name : string;
  cc_description : option string;
  cc_subject : string;
  cc_coverImage : option string
}.

Record ClassroomUpdate : Type := mkClassroomUpdate {
  cu_name : option string;
  cu_description : option string;
  cu_subject : option string;
  cu_coverImage : option string;
  cu_isActive : option bool
}.

Record MaterialCreate : Type := mkMaterialCreate {
  mc_title : string;
  mc_description : option string;
  mc_type : string;
  mc_content : option string;
  mc_fileUrl : option string;
  mc_fileName : option string;
  mc_videoUrl : option string;
  mc_modelUrl : option string;
  mc_arEnabled : option bool;
  mc_modelScale : option float;
  mc_isPublished : option bool
}.

Record MaterialUpdate : Type := mkMaterialUpdate {
  mu_title : option string;
  mu_description : option string;
  mu_type : option string;
  mu_content : option string;
  mu_fileUrl : option string;
  mu_fileName : option string;
  mu_videoUrl : option string;
  mu_modelUrl : option string;
  mu_arEnabled : option bool;
  mu_modelScale : option float;
  mu_isPublished : option bool;
  mu_order : option Z
}.

(** ** [$set] documents

    An update document is the list of its field assignments, in the order
    the handler adds them; [if update_data:] asks whether it is empty. *)

Inductive user_field : Type :=
| SetUserName (v : string)
| SetUserAvatar (v : string)
| SetUserPassword (v : digest)
| SetUserUpdatedAt (v : timestamp).

Definition set_user_field (u : User) (f : user_field) : User :=
  match f with
  | SetUserName v =>
      mkUser (u_id u) (u_email u) (u_password u) v (u_role u) (u_avatar u)
             (u_createdAt u) (u_updatedAt u)
  | SetUserAvatar v =>
      mkUser (u_id u) (u_email u) (u_password u) (u_name u) (u_role u) (Some v)
             (u_createdAt u) (u_updatedAt u)
  | SetUserPassword v =>
      mkUser (u_id u) (u_email u) v (u_name u) (u_role u) (u_avatar u)
             (u_createdAt u) (u_updatedAt u)
  | SetUserUpdatedAt v =>
      mkUser (u_id u) (u_email u) (u_password u) (u_name u) (u_role u)
             (u_avatar u) (u_createdAt u) v
  end.

Inductive classroom_field : Type :=
| SetClassroomName (v : string)
| SetClassroomDescription (v : string)
| SetClassroomSubject (v : string)
| SetClassroomCoverImage (v : string)
| SetClassroomIsActive (v : bool)
| SetClassroomUpdatedAt (v : timestamp).

Definition set_classroom_field (c : Classroom) (f : classroom_field) : Classroom :=
  match f with
  | SetClassroomName v =>
      mkClassroom (c_id c) v (c_description c) (c_subject c) (c_code c)
        (c_coverImage c) (c_isActive c) (c_teacherId c) (c_createdAt c)
        (c_updatedAt c)
  | SetClassroomDescription v =>
      mkClassroom (c_id c) (c_name c) (Some v) (c_subject c) (c_code c)
        (c_coverImage c) (c_isActive c) (c_teacherId c) (c_createdAt c)
        (c_updatedAt c)
  | SetClassroomSubject v =>
      mkClassroom (c_id c) (c_name c) (c_description c) v (c_code c)
        (c_coverImage c) (c_isActive c) (c_teacherId c) (c_createdAt c)
        (c_updatedAt c)
  | SetClassroomCoverImage v =>
      mkClassroom (c_id c) (c_name c) (c_description c) (c_subject c) (c_code c)
        (Some v) (c_isActive c) (c_teacherId c) (c_createdAt c) (c_updatedAt c)
  | SetClassroomIsActive v =>
      mkClassroom (c_id c) (c_name c) (c_description c) (c_subject c) (c_code c)
        (c_coverImage c) v (c_teacherId c) (c_createdAt c) (c_updatedAt c)
  | SetClassroomUpdatedAt v =>
      mkClassroom (c_id c) (c_name c) (c_description c) (c_subject c) (c_code c)
        (c_coverImage c) (c_isActive c) (c_teacherId c) (c_createdAt c) v
  end.

Inductive material_field : Type :=
| SetTitle (v : string)
| SetDescription (v : string)
| SetType (v : string)
| SetContent (v : string)
| SetFileUrl (v : string)
| SetFileName (v : string)
| SetVideoUrl (v : string)
| SetModelUrl (v : string)
| SetArEnabled (v : bool)
| SetModelScale (v : float)
| SetIsPublished (v : bool)
| SetOrder (v : Z)
| SetUpdatedAt (v : timestamp).

Definition set_material_field (m : Material) (f : material_field) : Material :=
  match f with
  | SetTitle v =>
      mkMaterial (m_id m) v (m_description m) (m_type m) (m_content m)
        (m_fileUrl m) (m_fileName m) (m_videoUrl m) (m_modelUrl m)
        (m_arEnabled m) (m_modelScale m) (m_order m) (m_isPublished m)
        (m_classroomId m) (m_createdById m) (m_createdAt m) (m_updatedAt m)
  | SetDescription v =>
      mkMaterial (m_id m) (m_title m) (Some v) (m_type m) (m_content m)
        (m_fileUrl m) (m_fileName m) (m_videoUrl m) (m_modelUrl m)
        (m_arEnabled m) (m_modelScale m) (m_order m) (m_isPublished m)
        (m_classroomId m) (m_createdById m) (m_createdAt m) (m_updatedAt m)
  | SetType v =>
      mkMaterial (m_id m) (m_title m) (m_description m) v (m_content m)
        (m_fileUrl m) (m_fileName m) (m_videoUrl m) (m_modelUrl m)
        (m_arEnabled m) (m_modelScale m) (m_order m) (m_isPublished m)
        (m_classroomId m) (m_createdById m) (m_createdAt m) (m_updatedAt m)
  | SetContent v =>
      mkMaterial (m_id m) (m_title m) (m_description m) (m_type m) (Some v)
        (m_fileUrl m) (m_fileName m) (m_videoUrl m) (m_modelUrl m)
        (m_arEnabled m) (m_modelScale m) (m_order m) (m_isPublished m)
        (m_classroomId m) (m_createdById m) (m_createdAt m) (m_updatedAt m)
  | SetFileUrl v =>
      mkMaterial (m_id m) (m_title m) (m_description m) (m_type m) (m_content m)
        (Some v) (m_fileName m) (m_videoUrl m) (m_modelUrl m)
        (m_arEnabled m) (m_modelScale m) (m_order m) (m_isPublished m)
        (m_classroomId m) (m_createdById m) (m_createdAt m) (m_updatedAt m)
  | SetFileName v =>
      mkMaterial (m_id m) (m_title m) (m_description m) (m_type m) (m_content m)
        (m_fileUrl m) (Some v) (m_videoUrl m) (m_modelUrl m)
        (m_arEnabled m) (m_modelScale m) (m_order m) (m_isPublished m)
        (m_classroomId m) (m_createdById m) (m_createdAt m) (m_updatedAt m)
  | SetVideoUrl v =>
      mkMaterial (m_id m) (m_title m) (m_description m) (m_type m) (m_content m)
        (m_fileUrl m) (m_fileName m) (Some v) (m_modelUrl m)
        (m_arEnabled m) (m_modelScale m) (m_order m) (m_isPublished m)
        (m_classroomId m) (m_createdById m) (m_createdAt m) (m_updatedAt m)
  | SetModelUrl v =>
      mkMaterial (m_id m) (m_title m) (m_description m) (m_type m) (m_content m)
        (m_fileUrl m) (m_fileName m) (m_videoUrl m) (Some v)
        (m_arEnabled m) (m_modelScale m) (m_order m) (m_isPublished m)
        (m_classroomId m) (m_createdById m) (m_createdAt m) (m_updatedAt m)
  | SetArEnabled v =>
      mkMaterial (m_id m) (m_title m) (m_description m) (m_type m) (m_content m)
        (m_fileUrl m) (m_fileName m) (m_videoUrl m) (m_modelUrl m)
        v (m_modelScale m) (m_order m) (m_isPublished m)
        (m_classroomId m) (m_createdById m) (m_createdAt m) (m_updatedAt m)
  | SetModelScale v =>
      mkMaterial (m_id m) (m_title m) (m_description m) (m_type m) (m_content m)
        (m_fileUrl m) (m_fileName m) (m_videoUrl m) (m_modelUrl m)
        (m_arEnabled m) v (m_order m) (m_isPublished m)
        (m_classroomId m) (m_createdById m) (m_createdAt m) (m_updatedAt m)
  | SetIsPublished v =>
      mkMaterial (m_id m) (m_title m) (m_description m) (m_type m) (m_content m)
        (m_fileUrl m) (m_fileName m) (m_videoUrl m) (m_modelUrl m)
        (m_arEnabled m) (m_modelScale m) (m_order m) v
        (m_classroomId m) (m_createdById m) (m_createdAt m) (m_updatedAt m)
  | SetOrder v =>
      mkMaterial (m_id m) (m_title m) (m_description m) (m_type m) (m_content m)
        (m_fileUrl m) (m_fileName m) (m_videoUrl m) (m_modelUrl m)
        (m_arEnabled m) (m_modelScale m) v (m_isPublished m)
        (m_classroomId m) (m_createdById m) (m_createdAt m) (m_updatedAt m)
  | SetUpdatedAt v =>
      mkMaterial (m_id m) (m_title m) (m_description m) (m_type m) (m_content m)
        (m_fileUrl m) (m_fileName m) (m_videoUrl m) (m_modelUrl m)
        (m_arEnabled m) (m_modelScale m) (m_order m) (m_isPublished m)
        (m_classroomId m) (m_createdById m) (m_createdAt m) v
  end.

(** [{"$set": update_data}] applied to one document. *)
Definition apply_set {A F : Type} (set1 : A -> F -> A) (update_data : list F)
  (doc : A) : A :=
  fold_left set1 update_data doc.

(** [if value is not None: update_data[field] = value] *)
Definition provided {V F : Type} (mk : V -> F) (value : option V) : list F :=
  match value with
  | Some v => [mk v]
  | None => []
  end.

Definition is_empty {F : Type} (update_data : list F) : bool :=
  match update_data with
  | [] => true
  | _ :: _ => false
  end.

(** ** Helper functions *)

(** The random generator: the [i]-th draw of [floor(random() * 36)], which
    [random.choices] uses as an index into its population. The source's draw
    is below the population's size; the model reduces it to stay there. *)
Definition rng : Type := nat -> nat.

Definition choice (population : list ascii) (r : nat) : ascii :=
  nth (r mod List.length population) population "A"%char.

(** [random.choices(population, k=k)], reading the draws from [pos] on. *)
Definition choices (population : list ascii) (g : rng) (pos k : nat)
  : list ascii :=
  map (fun i => choice population (g i)) (seq pos k).

Definition generate_code (length : nat) (g : rng) (pos : nat) : string :=
  string_of_list_ascii (choices code_alphabet g pos length).

(** JWT: a token is a payload signed under a key, or anything else a client
    may send. Decoding checks the signature, then the expiry. *)
Record Payload : Type := mkPayload {
  p_sub : option string;
  p_email : string;
  p_role : string;
  p_exp : Z
}.

Inductive Token : Type :=
| Signed (key : string) (payload : Payload)
| Malformed (raw : string).

Inductive jwt_error : Type :=
| ExpiredSignatureError
| InvalidTokenError.

Definition JWT_EXPIRATION_HOURS : Z := 24.

Definition jwt_encode (payload : Payload) (key : string) : Token :=
  Signed key payload.

Definition jwt_decode (token : Token) (key : string) (now : timestamp)
  : Payload + jwt_error :=
  match token with
  | Malformed _ => inr InvalidTokenError
  | Signed k payload =>
      if negb (String.eqb k key) then inr InvalidTokenError
      else if p_exp payload <=? now then inr ExpiredSignatureError
      else inl payload
  end.

Definition create_token (JWT_SECRET : string) (now : timestamp)
  (user_id email role : string) : Token :=
  let payload :=
    mkPayload (Some user_id) email role (now + JWT_EXPIRATION_HOURS * 3600) in
  jwt_encode payload JWT_SECRET.

Definition get_current_user (JWT_SECRET : string) (db : DB) (token : Token)
  (now : timestamp) : result User :=
  match jwt_decode token JWT_SECRET now with
  | inr ExpiredSignatureError => Err (HTTPException 401 "Token expired")
  | inr InvalidTokenError => Err (HTTPException 401 "Invalid token")
  | inl payload =>
      user_id <- or_raise (p_sub payload) (HTTPException 401 "Invalid token") ;;
      or_raise (find_one (user_by_id user_id) (users db))
               (HTTPException 401 "User not found")
  end.

(** [doc["field"]] where [doc] may be [None]. *)
Definition subscript {A : Type} (doc : option A) : result A :=
  or_raise doc TypeError.

Definition is_some {A : Type} (o : option A) : bool :=
  match o with
  | Some _ => true
  | None => false
  end.

Definition str_in (s : string) (l : list string) : bool :=
  existsb (String.eqb s) l.

Definition user_response (u : User) : UserResponse :=
  mkUserResponse (u_id u) (u_email u) (u_name u) (u_role u) (u_avatar u)
                 (u_createdAt u).

(** ** Auth routes *)

Record AuthResponse : Type := mkAuthResponse {
  ar_user : UserResponse;
  ar_token : Token
}.

Definition register (JWT_SECRET : string) (db : DB) (data : UserCreate)
  (user_id : string) (now : timestamp) (salt : string)
  : result (DB * AuthResponse) :=
  let existing := find_one (user_by_email (uc_email data)) (users db) in
  _ <- raise_if (is_some existing)
         (HTTPException 400 "Email already registered") ;;
  _ <- raise_if (negb (str_in (uc_role data) [TEACHER; STUDENT]))
         (HTTPException 400 "Invalid role") ;;
  let user_doc :=
    mkUser user_id (uc_email data) (hash_password salt (uc_password data))
           (uc_name data) (uc_role data) None now now in
  us <- insert_one user_clash user_doc (users db) ;;
  let token := create_token JWT_SECRET now user_id (uc_email data) (uc_role data) in
  Ok (with_users db us,
      mkAuthResponse
        (mkUserResponse user_id (uc_email data) (uc_name data) (uc_role data)
                        None now)
        token).

Definition profile_update_data (data : UserUpdate) : list user_field :=
  (match uu_name data with
   | Some name => if truthy name then [SetUserName name] else []
   | None => []
   end)
  ++ provided SetUserAvatar (uu_avatar data).

Definition update_profile (db : DB) (data : UserUpdate) (user : User)
  (now : timestamp) : result (DB * UserResponse) :=
  let update_data := profile_update_data data in
  let db' :=
    if is_empty update_data then db
    else
      let update_data := update_data ++ [SetUserUpdatedAt now] in
      with_users db
        (update_one (user_by_id (u_id user))
                    (apply_set set_user_field update_data) (users db)) in
  updated_user <- subscript (find_one (user_by_id (u_id user)) (users db')) ;;
  Ok (db', user_response updated_user).

Definition change_password (db : DB) (data : PasswordChange) (user : User)
  (now : timestamp) (salt : string) : result (DB * string) :=
  _ <- raise_if (negb (verify_password (pc_currentPassword data) (u_password user)))
         (HTTPException 400 "Current password is incorrect") ;;
  let new_hash := hash_password salt (pc_newPassword data) in
  Ok (with_users db
        (update_one (user_by_id (u_id user))
           (apply_set set_user_field
              [SetUserPassword new_hash; SetUserUpdatedAt now])
           (users db)),
      "Password changed successfully").

(** ** Classroom routes *)

Record ClassroomView : Type := mkClassroomView {
  cv_classroom : Classroom;
  cv_enrollments : nat;
  cv_materials : nat;
  cv_teacher : option (string * string * string)
}.

Definition teacher_summary (db : DB) (teacherId : string)
  : option (string * string * string) :=
  match find_one (user_by_id teacherId) (users db) with
  | Some teacher => Some (u_id teacher, u_name teacher, u_email teacher)
  | None => None
  end.

(** The loop of [create_classroom]: draw a code, and draw again while a
    classroom holds it. [fuel] bounds the number of draws the model follows;
    [None] is a loop that has not ended by then. *)
Fixpoint unique_code (fuel : nat) (g : rng) (pos : nat) (cs : list Classroom)
  : option string :=
  match fuel with
  | O => None
  | S fuel' =>
      let code := generate_code 6 g pos in
      if is_some (find_one (classroom_by_code code) cs)
      then unique_code fuel' g (pos + 6) cs
      else Some code
  end.

Definition create_classroom (db : DB) (data : ClassroomCreate) (user : User)
  (classroom_id : string) (now : timestamp) (g : rng) (fuel : nat)
  : option (result (DB * ClassroomView)) :=
  if negb (String.eqb (u_role user) TEACHER)
  then Some (Err (HTTPException 403 "Only teachers can create classrooms"))
  else
    match unique_code fuel g 0 (classrooms db) with
    | None => None
    | Some code =>
        let classroom_doc :=
          mkClassroom classroom_id (cc_name data) (cc_description data)
            (cc_subject data) code (cc_coverImage data) true (u_id user)
            now now in
        Some (cs <- insert_one classroom_clash classroom_doc (classrooms db) ;;
              Ok (with_classrooms db cs,
                  mkClassroomView classroom_doc 0 0
                    (Some (u_id user, u_name user, u_email user))))
    end.

Definition get_classroom (db : DB) (id : string) (user : User)
  : result ClassroomView :=
  classroom <- or_raise (find_one (classroom_by_id id) (classrooms db))
                 (HTTPException 404 "Classroom not found") ;;
  _ <- (if String.eqb (u_role user) TEACHER
        then raise_if (negb (String.eqb (c_teacherId classroom) (u_id user)))
               (HTTPException 403 "Not authorized")
        else
          let enrollment :=
            find_one (enrollment_of (u_id user) id) (enrollments db) in
          raise_if (negb (is_some enrollment))
            (HTTPException 403 "Not enrolled in this classroom")) ;;
  Ok (mkClassroomView classroom
        (count_documents (enrollment_by_classroom id) (enrollments db))
        (count_documents (material_by_classroom id) (materials db))
        (teacher_summary db (c_teacherId classroom))).

Definition classroom_update_data (data : ClassroomUpdate)
  : list classroom_field :=
  provided SetClassroomName (cu_name data)
  ++ provided SetClassroomDescription (cu_description data)
  ++ provided SetClassroomSubject (cu_subject data)
  ++ provided SetClassroomCoverImage (cu_coverImage data)
  ++ provided SetClassroomIsActive (cu_isActive data).

Definition update_classroom (db : DB) (id : string) (data : ClassroomUpdate)
  (user : User) (now : timestamp) : result (DB * Classroom) :=
  classroom <- or_raise (find_one (classroom_by_id id) (classrooms db))
                 (HTTPException 404 "Classroom not found") ;;
  _ <- raise_if (negb (String.eqb (c_teacherId classroom) (u_id user)))
         (HTTPException 403 "Not authorized") ;;
  let update_data := classroom_update_data data in
  let db' :=
    if is_empty update_data then db
    else
      let update_data := update_data ++ [SetClassroomUpdatedAt now] in
      with_classrooms db
        (update_one (classroom_by_id id)
           (apply_set set_classroom_field update_data) (classrooms db)) in
  updated <- subscript (find_one (classroom_by_id id) (classrooms db')) ;;
  Ok (db', updated).

(** The writes of [delete_classroom], one awaited call each. *)
Inductive write : Type :=
| DeleteEnrollmentsOf (classroomId : string)
| DeleteMaterialsOf (classroomId : string)
| DeleteClassroom (id : string).

Definition apply_write (db : DB) (w : write) : DB :=
  match w with
  | DeleteEnrollmentsOf cid =>
      with_enrollments db
        (delete_many (enrollment_by_classroom cid) (enrollments db))
  | DeleteMaterialsOf cid =>
      with_materials db
        (delete_many (material_by_classroom cid) (materials db))
  | DeleteClassroom id =>
      with_classrooms db (delete_one (classroom_by_id id) (classrooms db))
  end.

Definition delete_classroom_writes (id : string) : list write :=
  [DeleteEnrollmentsOf id; DeleteMaterialsOf id; DeleteClassroom id].

Definition delete_classroom (db : DB) (id : string) (user : User)
  : result (DB * string) :=
  classroom <- or_raise (find_one (classroom_by_id id) (classrooms db))
                 (HTTPException 404 "Classroom not found") ;;
  _ <- raise_if (negb (String.eqb (c_teacherId classroom) (u_id user)))
         (HTTPException 403 "Not authorized") ;;
  Ok (fold_left apply_write (delete_classroom_writes id) db,
      "Classroom deleted").

Definition join_classroom (db : DB) (code : string) (user : User)
  (enrollment_id : string) (now : timestamp) : result (DB * Classroom) :=
  _ <- raise_if (negb (String.eqb (u_role user) STUDENT))
         (HTTPException 403 "Only students can join classrooms") ;;
  classroom <- or_raise (find_one (classroom_by_code (upper code)) (classrooms db))
                 (HTTPException 404 "Invalid classroom code") ;;
  _ <- raise_if (negb (c_isActive classroom))
         (HTTPException 400 "Classroom is not active") ;;
  let existing :=
    find_one (enrollment_of (u_id user) (c_id classroom)) (enrollments db) in
  _ <- raise_if (is_some existing)
         (HTTPException 400 "Already enrolled in this classroom") ;;
  es <- insert_one enrollment_clash
          (mkEnrollment enrollment_id (u_id user) (c_id classroom) now)
          (enrollments db) ;;
  Ok (with_enrollments db es, classroom).

Definition leave_classroom (db : DB) (id : string) (user : User)
  : result (DB * string) :=
  _ <- raise_if (negb (String.eqb (u_role user) STUDENT))
         (HTTPException 403 "Only students can leave classrooms") ;;
  let q := enrollment_of (u_id user) id in
  let remaining := delete_one q (enrollments db) in
  _ <- raise_if (Nat.eqb (deleted_count q (enrollments db)) 0)
         (HTTPException 404 "Not enrolled in this classroom") ;;
  Ok (with_enrollments db remaining, "Left classroom").

(** ** Material routes *)

Record MaterialView : Type := mkMaterialView {
  mv_material : Material;
  mv_createdBy : option (string * string)
}.

Definition creator_summary (db : DB) (createdById : string)
  : option (string * string) :=
  match find_one (user_by_id createdById) (users db) with
  | Some creator => Some (u_id creator, u_name creator)
  | None => None
  end.

Definition material_view (db : DB) (m : Material) : MaterialView :=
  mkMaterialView m (creator_summary db (m_createdById m)).

(** [sort("order", 1)] and [sort=[("order", -1)]] *)
Definition order_asc (a b : Material) : bool := m_order a <=? m_order b.
Definition order_desc (a b : Material) : bool := m_order b <=? m_order a.

Definition get_materials (db : DB) (classroomId : string) (user : User)
  : result (list MaterialView) :=
  classroom <- or_raise (find_one (classroom_by_id classroomId) (classrooms db))
                 (HTTPException 404 "Classroom not found") ;;
  _ <- (if String.eqb (u_role user) TEACHER
        then raise_if (negb (String.eqb (c_teacherId classroom) (u_id user)))
               (HTTPException 403 "Not authorized")
        else
          let enrollment :=
            find_one (enrollment_of (u_id user) classroomId) (enrollments db) in
          raise_if (negb (is_some enrollment))
            (HTTPException 403 "Not enrolled")) ;;
  let query :=
    if String.eqb (u_role user) STUDENT
    then published_in_classroom classroomId
    else material_by_classroom classroomId in
  let found :=
    to_list 100 (sort_by order_asc (find_many query (materials db))) in
  Ok (map (material_view db) found).

Definition get_material (db : DB) (id : string) (user : User)
  : result MaterialView :=
  material <- or_raise (find_one (material_by_id id) (materials db))
                (HTTPException 404 "Material not found") ;;
  let classroom :=
    find_one (classroom_by_id (m_classroomId material)) (classrooms db) in
  _ <- (if String.eqb (u_role user) TEACHER
        then
          classroom <- subscript classroom ;;
          raise_if (negb (String.eqb (c_teacherId classroom) (u_id user)))
            (HTTPException 403 "Not authorized")
        else
          let enrollment :=
            find_one (enrollment_of (u_id user) (m_classroomId material))
                     (enrollments db) in
          raise_if (negb (is_some enrollment) || negb (m_isPublished material))
            (HTTPException 403 "Not authorized")) ;;
  Ok (material_view db material).

Definition or_default {V : Type} (value : option V) (default : V) : V :=
  match value with
  | Some v => v
  | None => default
  end.

Definition create_material (db : DB) (classroomId : string)
  (data : MaterialCreate) (user : User) (material_id : string)
  (now : timestamp) : result (DB * MaterialView) :=
  classroom <- or_raise (find_one (classroom_by_id classroomId) (classrooms db))
                 (HTTPException 404 "Classroom not found") ;;
  _ <- raise_if (negb (String.eqb (c_teacherId classroom) (u_id user)))
         (HTTPException 403 "Not authorized") ;;
  _ <- raise_if (negb (str_in (mc_type data) [TEXT; FILE; VIDEO; MODEL3D]))
         (HTTPException 400 "Invalid material type") ;;
  let last_material :=
    hd_error (sort_by order_desc
                (find_many (material_by_classroom classroomId) (materials db))) in
  let next_order :=
    match last_material with
    | Some last => m_order last + 1
    | None => 1
    end in
  let material_doc :=
    mkMaterial material_id (mc_title data) (mc_description data) (mc_type data)
      (mc_content data) (mc_fileUrl data) (mc_fileName data) (mc_videoUrl data)
      (mc_modelUrl data)
      (or_default (mc_arEnabled data) true)
      (or_default (mc_modelScale data) 1%float)
      next_order
      (or_default (mc_isPublished data) true)
      classroomId (u_id user) now now in
  ms <- insert_one material_clash material_doc (materials db) ;;
  Ok (with_materials db ms,
      mkMaterialView material_doc (Some (u_id user, u_name user))).

Definition material_update_data (data : MaterialUpdate) : list material_field :=
  provided SetTitle (mu_title data)
  ++ provided SetDescription (mu_description data)
  ++ provided SetType (mu_type data)
  ++ provided SetContent (mu_content data)
  ++ provided SetFileUrl (mu_fileUrl data)
  ++ provided SetFileName (mu_fileName data)
  ++ provided SetVideoUrl (mu_videoUrl data)
  ++ provided SetModelUrl (mu_modelUrl data)
  ++ provided SetArEnabled (mu_arEnabled data)
  ++ provided SetModelScale (mu_modelScale data)
  ++ provided SetIsPublished (mu_isPublished data)
  ++ provided SetOrder (mu_order data).

Definition update_material (db : DB) (id : string) (data : MaterialUpdate)
  (user : User) (now : timestamp) : result (DB * MaterialView) :=
  material <- or_raise (find_one (material_by_id id) (materials db))
                (HTTPException 404 "Material not found") ;;
  classroom <- subscript
                 (find_one (classroom_by_id (m_classroomId material))
                           (classrooms db)) ;;
  _ <- raise_if (negb (String.eqb (c_teacherId classroom) (u_id user)))
         (HTTPException 403 "Not authorized") ;;
  let update_data := material_update_data data in
  let db' :=
    if is_empty update_data then db
    else
      let update_data := update_data ++ [SetUpdatedAt now] in
      with_materials db
        (update_one (material_by_id id)
           (apply_set set_material_field update_data) (materials db)) in
  updated <- subscript (find_one (material_by_id id) (materials db')) ;;
  Ok (db', material_view db' updated).

Definition delete_material (db : DB) (id : string) (user : User)
  : result (DB * string) :=
  material <- or_raise (find_one (material_by_id id) (materials db))
                (HTTPException 404 "Material not found") ;;
  classroom <- subscript
                 (find_one (classroom_by_id (m_classroomId material))
                           (classrooms db)) ;;
  _ <- raise_if (negb (String.eqb (c_teacherId classroom) (u_id user)))
         (HTTPException 403 "Not authorized") ;;
  Ok (with_materials db (delete_one (material_by_id id) (materials db)),
      "Material deleted").

(** [enumerate(materialIds)] *)
Definition enumerate {A : Type} (l : list A) : list (nat * A) :=
  combine (seq 0 (List.length l)) l.

(** One turn of the loop of [reorder_materials]. *)
Definition reorder_step (ms : list Material) (entry : nat * string)
  : list Material :=
  let (index, material_id) := entry in
  update_one (material_by_id material_id)
    (apply_set set_material_field [SetOrder (Z.of_nat index + 1)]) ms.

Definition reorder_materials (db : DB) (classroomId : string)
  (materialIds : list string) (user : User) : result (DB * string) :=
  classroom <- or_raise (find_one (classroom_by_id classroomId) (classrooms db))
                 (HTTPException 404 "Classroom not found") ;;
  _ <- raise_if (negb (String.eqb (c_teacherId classroom) (u_id user)))
         (HTTPException 403 "Not authorized") ;;
  Ok (with_materials db
        (fold_left reorder_step (enumerate materialIds) (materials db)),
      "Materials reordered").

(** ** The service as a transition system *)

(** A request, with what the handler draws from its environment while it
    serves it. Every route but registration first resolves the bearer token
    through [get_current_user]. *)
Inductive request : Type :=
| Register (data : UserCreate) (user_id : string) (salt : string)
| UpdateProfile (token : Token) (data : UserUpdate)
| ChangePassword (token : Token) (data : PasswordChange) (salt : string)
| CreateClassroom (token : Token) (data : ClassroomCreate)
    (classroom_id : string) (g : rng) (fuel : nat)
| UpdateClassroom (token : Token) (id : string) (data : ClassroomUpdate)
| DeleteClassroomReq (token : Token) (id : string)
| JoinClassroom (token : Token) (code : string) (enrollment_id : string)
| LeaveClassroom (token : Token) (id : string)
| CreateMaterial (token : Token) (classroomId : string) (data : MaterialCreate)
    (material_id : string)
| UpdateMaterial (token : Token) (id : string) (data : MaterialUpdate)
| DeleteMaterial (token : Token) (id : string)
| ReorderMaterials (token : Token) (classroomId : string)
    (materialIds : list string).

(** The database a handler leaves: its own on success, the old one when it
    raises (no handler writes before it raises). *)
Definition db_after {A : Type} (db : DB) (r : result (DB * A)) : DB :=
  match r with
  | Ok (db', _) => db'
  | Err _ => db
  end.

Definition as_user {A : Type} (JWT_SECRET : string) (db : DB) (token : Token)
  (now : timestamp) (handler : User -> result (DB * A)) : DB :=
  match get_current_user JWT_SECRET db token now with
  | Ok user => db_after db (handler user)
  | Err _ => db
  end.

(** The database after serving [req] at time [now]; [None] when the code
    loop of [create_classroom] has not ended within its fuel. *)
Definition serve (JWT_SECRET : string) (db : DB) (now : timestamp)
  (req : request) : option DB :=
  match req with
  | Register data user_id salt =>
      Some (db_after db (register JWT_SECRET db data user_id now salt))
  | UpdateProfile token data =>
      Some (as_user JWT_SECRET db token now
              (fun user => update_profile db data user now))
  | ChangePassword token data salt =>
      Some (as_user JWT_SECRET db token now
              (fun user => change_password db data user now salt))
  | CreateClassroom token data classroom_id g fuel =>
      match get_current_user JWT_SECRET db token now with
      | Ok user =>
          match create_classroom db data user classroom_id now g fuel with
          | Some r => Some (db_after db r)
          | None => None
          end
      | Err _ => Some db
      end
  | UpdateClassroom token id data =>
      Some (as_user JWT_SECRET db token now
              (fun user => update_classroom db id data user now))
  | DeleteClassroomReq token id =>
      Some (as_user JWT_SECRET db token now
              (fun user => delete_classroom db id user))
  | JoinClassroom token code enrollment_id =>
      Some (as_user JWT_SECRET db token now
              (fun user => join_classroom db code user enrollment_id now))
  | LeaveClassroom token id =>
      Some (as_user JWT_SECRET db token now
              (fun user => leave_classroom db id user))
  | CreateMaterial token classroomId data material_id =>
      Some (as_user JWT_SECRET db token now
              (fun user => create_material db classroomId data user material_id now))
  | UpdateMaterial token id data =>
      Some (as_user JWT_SECRET db token now
              (fun user => update_material db id data user now))
  | DeleteMaterial token id =>
      Some (as_user JWT_SECRET db token now
              (fun user => delete_material db id user))
  | ReorderMaterials token classroomId materialIds =>
      Some (as_user JWT_SECRET db token now
              (fun user => reorder_materials db classroomId materialIds user))
  end.

(** The states the service reaches from the empty database by serving
    requests one after the other. *)
Inductive reachable (JWT_SECRET : string) : DB -> Prop :=
| reach_empty : reachable JWT_SECRET empty_db
| reach_serve : forall db now req db',
    reachable JWT_SECRET db ->
    serve JWT_SECRET db now req = Some db' ->
    reachable JWT_SECRET db'.

(** ** Invariants *)

(** An uppercase letter or a digit. *)
Definition is_upper_alnum (c : ascii) : bool :=
  let n := nat_of_ascii c in
  ((65 <=? n) && (n <=? 90) || (48 <=? n) && (n <=? 57))%nat.

Definition valid_code (code : string) : Prop :=
  String.length code = 6%nat
  /\ forallb is_upper_alnum (list_ascii_of_string code) = true.

(** The identity of a classroom and the code it was given. *)
Definition id_code (c : Classroom) : string * string := (c_id c, c_code c).

(** The identity of a material and the classroom it belongs to. *)
Definition id_classroom (m : Material) : string * string :=
  (m_id m, m_classroomId m).

(** What sequential execution maintains: identifiers and codes are unique,
    codes are well formed, and a material belongs to a classroom that
    exists. *)
Record consistent (db : DB) : Prop := mkConsistent {
  classroom_ids_unique : NoDup (map c_id (classrooms db));
  codes_unique : NoDup (map c_code (classrooms db));
  codes_valid : Forall valid_code (map c_code (classrooms db));
  material_ids_unique : NoDup (map m_id (materials db));
  material_classroom_exists :
    incl (map m_classroomId (materials db)) (map c_id (classrooms db))
}.

(** The [order] values of the materials of a classroom. *)
Definition classroom_orders (db : DB) (classroomId : string) : list Z :=
  map m_order (find_many (material_by_classroom classroomId) (materials db)).

(** [1..n] *)
Definition one_to (n : nat) : list Z := map Z.of_nat (seq 1 n).

(** The orders of a classroom's [N] materials are [1..N], each once. *)
Definition dense_orders (db : DB) (classroomId : string) : Prop :=
  let orders := classroom_orders db classroomId in
  Permutation orders (one_to (List.length orders)).

(** A step keeps the code of every classroom that it keeps. *)
Definition code_kept (db db' : DB) : Prop :=
  forall c c', In c (classrooms db) -> In c' (classrooms db') ->
    c_id c' = c_id c -> c_code c' = c_code c.

(** How the classrooms of one state relate to those of the next: an
    identifier with its code is carried over, or the identifier is new. *)
Definition classrooms_evolve (cs cs' : list Classroom) : Prop :=
  forall p, In p (map id_code cs') ->
    In p (map id_code cs) \/ ~ In (fst p) (map c_id cs).

(** A step that does what consistency asks of it. *)
Definition good_step (db db' : DB) : Prop :=
  consistent db' /\ classrooms_evolve (classrooms db) (classrooms db').

(** Serving requests one after the other, each at its own time. *)
Fixpoint run (JWT_SECRET : string) (db : DB)
  (requests : list (timestamp * request)) : option DB :=
  match requests with
  | [] => Some db
  | (now, req) :: rest =>
      match serve JWT_SECRET db now req with
      | Some db' => run JWT_SECRET db' rest
      | None => None
      end
  end.

Definition db_of (o : option DB) : DB :=
  match o with
  | Some db => db
  | None => empty_db
  end.

(** ** A session of the service

    A teacher and two students register, the teacher opens a classroom and
    fills it, a student joins with the code in lowercase. *)
Module Scenario.
Definition secret : string := "elearning-secret-key-2024".

Definition tina_signup : UserCreate :=
  mkUserCreate "tina@school.org" "chalk" "Tina" TEACHER.
Definition sam_signup : UserCreate :=
  mkUserCreate "sam@school.org" "pencil" "Sam" STUDENT.
Definition bea_signup : UserCreate :=
  mkUserCreate "bea@school.org" "eraser" "Bea" STUDENT.

Definition tina : User :=
  mkUser "u-tina" "tina@school.org" (Bcrypt "s1" "chalk") "Tina" TEACHER
         None 1000 1000.
Definition sam : User :=
  mkUser "u-sam" "sam@school.org" (Bcrypt "s2" "pencil") "Sam" STUDENT
         None 1001 1001.
Definition bea : User :=
  mkUser "u-bea" "bea@school.org" (Bcrypt "s3" "eraser") "Bea" STUDENT
         None 1002 1002.

Definition token_of (u : User) : Token :=
  create_token secret (u_createdAt u) (u_id u) (u_email u) (u_role u).

(** The draws 0, 1, 2, ...: the first code is "ABCDEF". *)
Definition draws : rng := fun i => i.

Definition biology : ClassroomCreate :=
  mkClassroomCreate "Biology 101" None "Science" None.

Definition lesson (title : string) (published : option bool)
  : MaterialCreate :=
  mkMaterialCreate title None TEXT (Some "text") None None None None None None
                   published.

Definition skeleton : MaterialCreate :=
  mkMaterialCreate "Skeleton" None MODEL3D None None None None
                   (Some "skeleton.glb") None None None.

Definition signups : list (timestamp * request) :=
  [ (1000, Register tina_signup "u-tina" "s1");
    (1001, Register sam_signup "u-sam" "s2");
    (1002, Register bea_signup "u-bea" "s3") ].

Definition opening : list (timestamp * request) :=
  signups
  ++ [ (1010, CreateClassroom (token_of tina) biology "c-bio" draws 1%nat);
       (1020, JoinClassroom (token_of sam) "abcdef" "e-sam") ].

Definition teaching : list (timestamp * request) :=
  opening
  ++ [ (1030, CreateMaterial (token_of tina) "c-bio" skeleton "m-1");
       (1031, CreateMaterial (token_of tina) "c-bio"
                (lesson "Draft" (Some false)) "m-2");
       (1032, CreateMaterial (token_of tina) "c-bio"
                (lesson "Cells" None) "m-3") ].

Definition founding : list (timestamp * request) :=
  signups
  ++ [ (1010, CreateClassroom (token_of tina) biology "c-bio" draws 1%nat) ].

Definition registered : DB := db_of (run secret empty_db signups).
Definition founded : DB := db_of (run secret empty_db founding).
Definition opened : DB := db_of (run secret empty_db opening).
Definition taught : DB := db_of (run secret empty_db teaching).

(** The second material, the unpublished one. *)
Definition draft : Material :=
  mkMaterial "m-2" "Draft" None TEXT (Some "text") None None None None
             true 1%float 2 false "c-bio" "u-tina" 1031 1031.

Definition bio : Classroom :=
  mkClassroom "c-bio" "Biology 101" None "Science" "ABCDEF" None true
              "u-tina" 1010 1010.

(** The teacher opens a second classroom with the same generator: its
    first draw is the code of the first classroom, its second is not. *)
Definition chemistry : ClassroomCreate :=
  mkClassroomCreate "Chemistry 101" None "Science" None.
Definition expanding : list (timestamp * request) :=
  teaching
  ++ [ (1060, CreateClassroom (token_of tina) chemistry "c-chem" draws 5%nat) ].
Definition expanded : DB := db_of (run secret empty_db expanding).

(** The teacher deletes the second of the three materials. *)
Definition pruning : list (timestamp * request) :=
  teaching ++ [ (1040, DeleteMaterial (token_of tina) "m-2") ].
Definition pruned : DB := db_of (run secret empty_db pruning).




(** A database in which the classroom is gone and its materials and
    enrollments are not: a state no sequence of requests produces, the one
    an interrupted or overtaken cascade leaves. *)
Definition orphaned : DB := with_classrooms taught [].

(** The teacher moves the first material of three to position 7. *)
Definition moved_away : MaterialUpdate :=
  mkMaterialUpdate None None None None None None None None None None None
                   (Some 7).

Definition first_material : Material :=
  mkMaterial "m-1" "Skeleton" None MODEL3D None None None None
             (Some "skeleton.glb") true 1%float 1 true "c-bio" "u-tina"
             1030 1030.
End Scenario.

(** The first position at which [id] stands in [l]. *)
Fixpoint index_of (id : string) (l : list string) : nat :=
  match l with
  | [] => O
  | x :: l' => if String.eqb x id then O else S (index_of id l')
  end.

(** ** The other routes *)

Record UserLogin : Type := mkUserLogin {
  ul_email : string;
  ul_password : string
}.

Definition login (JWT_SECRET : string) (db : DB) (data : UserLogin)
  (now : timestamp) : result AuthResponse :=
  user <- or_raise (find_one (user_by_email (ul_email data)) (users db))
            (HTTPException 401 "Invalid credentials") ;;
  _ <- raise_if (negb (verify_password (ul_password data) (u_password user)))
         (HTTPException 401 "Invalid credentials") ;;
  let token :=
    create_token JWT_SECRET now (u_id user) (u_email user) (u_role user) in
  Ok (mkAuthResponse (user_response user) token).

Definition get_profile (user : User) : UserResponse := user_response user.

Definition classroom_by_teacher (teacherId : string) (c : Classroom) : bool :=
  String.eqb (c_teacherId c) teacherId.
Definition enrollment_by_student (sid : string) (e : Enrollment) : bool :=
  String.eqb (e_studentId e) sid.
(** [{"id": {"$in": classroom_ids}}] *)
Definition classroom_id_in (classroom_ids : list string) (c : Classroom)
  : bool :=
  str_in (c_id c) classroom_ids.

Definition classroom_view (db : DB) (c : Classroom) : ClassroomView :=
  mkClassroomView c
    (count_documents (enrollment_by_classroom (c_id c)) (enrollments db))
    (count_documents (material_by_classroom (c_id c)) (materials db))
    (teacher_summary db (c_teacherId c)).

Definition get_classrooms (db : DB) (user : User) : list ClassroomView :=
  let found :=
    if String.eqb (u_role user) TEACHER
    then to_list 100 (find_many (classroom_by_teacher (u_id user))
                                (classrooms db))
    else
      let enrolled :=
        to_list 100 (find_many (enrollment_by_student (u_id user))
                               (enrollments db)) in
      let classroom_ids := map e_classroomId enrolled in
      to_list 100 (find_many (classroom_id_in classroom_ids) (classrooms db)) in
  map (classroom_view db) found.

Record StudentView : Type := mkStudentView {
  sv_id : string;
  sv_email : string;
  sv_name : string;
  sv_avatar : option string;
  sv_joinedAt : timestamp
}.

(** The body of the loop of [get_classroom_students]: an enrollment whose
    student is not found adds nothing. *)
Definition student_entry (db : DB) (e : Enrollment) : list StudentView :=
  match find_one (user_by_id (e_studentId e)) (users db) with
  | Some student =>
      [mkStudentView (u_id student) (u_email student) (u_name student)
                     (u_avatar student) (e_joinedAt e)]
  | None => []
  end.

Definition get_classroom_students (db : DB) (id : string) (user : User)
  : result (list StudentView) :=
  classroom <- or_raise (find_one (classroom_by_id id) (classrooms db))
                 (HTTPException 404 "Classroom not found") ;;
  _ <- raise_if (negb (String.eqb (c_teacherId classroom) (u_id user)))
         (HTTPException 403 "Not authorized") ;;
  let enrolled :=
    to_list 100 (find_many (enrollment_by_classroom id) (enrollments db)) in
  Ok (flat_map (student_entry db) enrolled).

(** ** References between the collections *)

Definition id_role (u : User) : string * string := (u_id u, u_role u).
Definition student_classroom (e : Enrollment) : string * string :=
  (e_studentId e, e_classroomId e).
Definition teacher_classroom (c : Classroom) : string * string :=
  (c_teacherId c, c_id c).
Definition creator_classroom (m : Material) : string * string :=
  (m_createdById m, m_classroomId m).

(** What sequential execution maintains beyond [consistent]: users and
    enrollments are unique, a role is TEACHER or STUDENT, an enrollment
    joins a student to a classroom that exists, a classroom belongs to a
    teacher, and a material was created by the teacher of its classroom. *)
Record referential (db : DB) : Prop := mkReferential {
  user_ids_unique : NoDup (map u_id (users db));
  emails_unique : NoDup (map u_email (users db));
  roles_valid :
    Forall (fun r => r = TEACHER \/ r = STUDENT) (map u_role (users db));
  enrollment_ids_unique : NoDup (map e_id (enrollments db));
  enrolled_once : NoDup (map student_classroom (enrollments db));
  enrollment_classroom_exists :
    incl (map e_classroomId (enrollments db)) (map c_id (classrooms db));
  enrollment_of_student :
    incl (map (fun e => (e_studentId e, STUDENT)) (enrollments db))
         (map id_role (users db));
  classroom_of_teacher :
    incl (map (fun c => (c_teacherId c, TEACHER)) (classrooms db))
         (map id_role (users db));
  material_by_owner :
    incl (map creator_classroom (materials db))
         (map teacher_classroom (classrooms db))
}.

(** The users of a later state extend those of an earlier one: nobody is
    removed and nobody changes id, email or role. *)
Definition user_key (u : User) : string * string * string :=
  (u_id u, u_email u, u_role u).

Definition users_extend (db db' : DB) : Prop :=
  exists more, map user_key (users db') = map user_key (users db) ++ more.

(** ** Facts about collections *)

Section CollectionFacts.
Context {A : Type}.

Lemma find_one_some (q : A -> bool) (coll : list A) (d : A) :
  find_one q coll = Some d -> In d coll /\ q d = true.
Proof. unfold find_one. apply find_some. Qed.

Lemma find_one_none (q : A -> bool) (coll : list A) :
  find_one q coll = None -> forall d, In d coll -> q d = false.
Proof. unfold find_one. apply find_none. Qed.

Lemma find_one_exists (q : A -> bool) (coll : list A) (d : A) :
  In d coll -> q d = true -> exists d', find_one q coll = Some d'.
Proof.
  intros Hin Hq. destruct (find_one q coll) as [d'|] eqn:E.
  - now exists d'.
  - rewrite (find_one_none _ _ E d Hin) in Hq. discriminate.
Qed.

Lemma insert_one_ok (clash : A -> A -> bool) (doc : A) (coll coll' : list A) :
  insert_one clash doc coll = Ok coll' ->
  coll' = coll ++ [doc] /\ existsb (clash doc) coll = false.
Proof.
  unfold insert_one. destruct (existsb (clash doc) coll); intros H.
  - discriminate.
  - inversion H. auto.
Qed.

Lemma insert_one_fresh (clash : A -> A -> bool) (doc : A) (coll : list A) :
  existsb (clash doc) coll = false ->
  insert_one clash doc coll = Ok (coll ++ [doc]).
Proof. unfold insert_one. now intros ->. Qed.

Lemma in_update_one (q : A -> bool) (set : A -> A) (coll : list A) (d' : A) :
  In d' (update_one q set coll) ->
  In d' coll \/ exists d, In d coll /\ q d = true /\ d' = set d.
Proof.
  induction coll as [|d rest IH]; simpl; [tauto|].
  destruct (q d) eqn:Hq; simpl.
  - intros [<-|Hin]; [right; exists d; auto | left; auto].
  - intros [<-|Hin]; [left; auto|].
    destruct (IH Hin) as [H|(d0 & H0 & H1 & H2)]; [left; auto|].
    right. exists d0. auto.
Qed.

Lemma in_delete_one (q : A -> bool) (coll : list A) (d : A) :
  In d (delete_one q coll) -> In d coll.
Proof.
  induction coll as [|x rest IH]; simpl; [tauto|].
  destruct (q x); simpl; intuition.
Qed.

Lemma in_delete_one_other (q : A -> bool) (coll : list A) (d : A) :
  In d coll -> q d = false -> In d (delete_one q coll).
Proof.
  induction coll as [|x rest IH]; simpl; [tauto|].
  intros [->|Hin] Hq.
  - rewrite Hq. now left.
  - destruct (q x); [assumption | right; auto].
Qed.

Lemma find_one_delete_many_none (q : A -> bool) (coll : list A) :
  find_one q (delete_many q coll) = None.
Proof.
  unfold find_one, delete_many.
  induction coll as [|x rest IH]; simpl; [reflexivity|].
  destruct (q x) eqn:Hq; simpl; [assumption|]. now rewrite Hq.
Qed.
End CollectionFacts.

Section KeyedCollectionFacts.
Context {A K : Type}.
Variable key : A -> K.

Lemma map_update_one (q : A -> bool) (set : A -> A) (coll : list A) :
  (forall d, key (set d) = key d) ->
  map key (update_one q set coll) = map key coll.
Proof.
  intros Hset. induction coll as [|d rest IH]; simpl; [reflexivity|].
  destruct (q d); simpl; [now rewrite Hset | now rewrite IH].
Qed.

Lemma NoDup_map_delete_one (q : A -> bool) (coll : list A) :
  NoDup (map key coll) -> NoDup (map key (delete_one q coll)).
Proof.
  induction coll as [|x rest IH]; simpl; [auto|].
  intros Hnd. inversion Hnd as [|? ? Hnotin Hrest]; subst.
  destruct (q x); [assumption|]. simpl. constructor; [|auto].
  intros Hin. apply Hnotin. apply in_map_iff in Hin.
  destruct Hin as (d & Hk & Hd). apply in_map_iff. exists d.
  split; [assumption|]. eapply in_delete_one; eassumption.
Qed.

Lemma NoDup_map_filter (q : A -> bool) (coll : list A) :
  NoDup (map key coll) -> NoDup (map key (filter q coll)).
Proof.
  induction coll as [|x rest IH]; simpl; [auto|].
  intros Hnd. inversion Hnd as [|? ? Hnotin Hrest]; subst.
  destruct (q x); [|auto]. simpl. constructor; [|auto].
  intros Hin. apply Hnotin. apply in_map_iff in Hin.
  destruct Hin as (d & Hk & Hd). apply in_map_iff. exists d.
  split; [assumption|]. apply filter_In in Hd. tauto.
Qed.

Lemma NoDup_map_app_one (coll : list A) (doc : A) :
  NoDup (map key coll) -> ~ In (key doc) (map key coll) ->
  NoDup (map key (coll ++ [doc])).
Proof.
  intros Hnd Hnotin. rewrite map_app. simpl.
  apply NoDup_app; [assumption | repeat constructor; simpl; tauto |].
  intros k Hk [<-|[]]. contradiction.
Qed.

Lemma NoDup_map_inj (coll : list A) (a b : A) :
  NoDup (map key coll) -> In a coll -> In b coll -> key a = key b -> a = b.
Proof.
  induction coll as [|x rest IH]; simpl; [tauto|].
  intros Hnd Ha Hb Hk. inversion Hnd as [|? ? Hnotin Hrest]; subst.
  destruct Ha as [->|Ha], Hb as [->|Hb]; auto.
  - exfalso. apply Hnotin. rewrite Hk. now apply in_map.
  - exfalso. apply Hnotin. rewrite <- Hk. now apply in_map.
Qed.

(** With unique keys, [find_one] by key returns the document that holds
    it. *)
Lemma find_one_unique (q : A -> bool) (coll : list A) (d : A) :
  NoDup (map key coll) -> In d coll -> q d = true ->
  (forall a b, q a = true -> q b = true -> key a = key b) ->
  find_one q coll = Some d.
Proof.
  intros Hnd Hin Hq Hkey.
  destruct (find_one_exists q coll d Hin Hq) as (d' & Hd').
  rewrite Hd'. f_equal. destruct (find_one_some _ _ _ Hd') as [Hin' Hq'].
  eapply NoDup_map_inj; eauto.
Qed.

Lemma find_one_delete_one_none (q : A -> bool) (coll : list A) :
  NoDup (map key coll) ->
  (forall a b, q a = true -> q b = true -> key a = key b) ->
  find_one q (delete_one q coll) = None.
Proof.
  intros Hnd Hkey. induction coll as [|x rest IH]; simpl; [reflexivity|].
  inversion Hnd as [|? ? Hnotin Hrest]; subst.
  destruct (q x) eqn:Hq.
  - destruct (find_one q rest) as [d|] eqn:E; [|reflexivity].
    exfalso. apply find_one_some in E. destruct E as [Hin Hqd].
    apply Hnotin. rewrite (Hkey x d Hq Hqd). now apply in_map.
  - unfold find_one. simpl. rewrite Hq. now apply IH.
Qed.
End KeyedCollectionFacts.

(** ** Inverting a handler that returned *)

Lemma bind_ok {A B : Type} (r : result A) (k : A -> result B) (b : B) :
  bind r k = Ok b -> exists a, r = Ok a /\ k a = Ok b.
Proof. destruct r as [a|e]; simpl; [eauto | discriminate]. Qed.

Lemma raise_if_ok (b : bool) (e : error) (u : unit) :
  raise_if b e = Ok u -> b = false.
Proof. destruct b; simpl; [discriminate | reflexivity]. Qed.

Lemma or_raise_ok {A : Type} (o : option A) (e : error) (a : A) :
  or_raise o e = Ok a -> o = Some a.
Proof. destruct o; simpl; congruence. Qed.

Ltac inv_ok :=
  repeat match goal with
    | H : bind _ _ = Ok _ |- _ =>
        let a := fresh "a" in
        let E := fresh "E" in
        apply bind_ok in H; destruct H as (a & E & H)
    | H : raise_if _ _ = Ok _ |- _ => apply raise_if_ok in H
    | H : or_raise _ _ = Ok _ |- _ => apply or_raise_ok in H
    | H : subscript _ = Ok _ |- _ => unfold subscript in H
    | H : insert_one _ _ _ = Ok _ |- _ =>
        let F := fresh "Hfresh" in
        apply insert_one_ok in H; destruct H as [H F]
    | H : Ok _ = Ok _ |- _ => inversion H; subst; clear H
    end.

(** ** What [$set] leaves alone *)

Lemma apply_set_classroom_keys (fs : list classroom_field) (c : Classroom) :
  c_id (apply_set set_classroom_field fs c) = c_id c
  /\ c_code (apply_set set_classroom_field fs c) = c_code c
  /\ c_teacherId (apply_set set_classroom_field fs c) = c_teacherId c.
Proof.
  unfold apply_set. revert c.
  induction fs as [|f fs IH]; intros c; simpl; [auto|].
  destruct (IH (set_classroom_field c f)) as (-> & -> & ->).
  destruct f; simpl; auto.
Qed.

Lemma apply_set_material_keys (fs : list material_field) (m : Material) :
  m_id (apply_set set_material_field fs m) = m_id m
  /\ m_classroomId (apply_set set_material_field fs m) = m_classroomId m.
Proof.
  unfold apply_set. revert m.
  induction fs as [|f fs IH]; intros m; simpl; [auto|].
  destruct (IH (set_material_field m f)) as (-> & ->).
  destruct f; simpl; auto.
Qed.

Lemma reorder_fold_keys {K : Type} (key : Material -> K)
  (entries : list (nat * string)) (ms : list Material) :
  (forall fs m, key (apply_set set_material_field fs m) = key m) ->
  map key (fold_left reorder_step entries ms) = map key ms.
Proof.
  intros Hkey. revert ms.
  induction entries as [|[index material_id] rest IH]; intros ms; simpl;
    [reflexivity|].
  rewrite IH. apply map_update_one. intros d. apply Hkey.
Qed.

(** ** Codes *)

Lemma code_alphabet_alnum : forallb is_upper_alnum code_alphabet = true.
Proof. reflexivity. Qed.

Lemma choice_alnum (r : nat) : is_upper_alnum (choice code_alphabet r) = true.
Proof.
  pose proof code_alphabet_alnum as H. rewrite forallb_forall in H.
  apply H. unfold choice. apply nth_In.
  apply Nat.mod_upper_bound. discriminate.
Qed.

Lemma length_string_of_list (l : list ascii) :
  String.length (string_of_list_ascii l) = List.length l.
Proof. induction l as [|c l IH]; simpl; [reflexivity | now rewrite IH]. Qed.

Lemma generate_code_valid (g : rng) (pos : nat) :
  valid_code (generate_code 6 g pos).
Proof.
  unfold valid_code, generate_code, choices. split.
  - rewrite length_string_of_list, length_map, length_seq. reflexivity.
  - rewrite list_ascii_of_string_of_list_ascii. apply forallb_forall.
    intros c Hc. apply in_map_iff in Hc. destruct Hc as (i & <- & _).
    apply choice_alnum.
Qed.

(** The loop returns the first drawn code that no classroom holds. *)
Lemma unique_code_first (fuel : nat) (g : rng) (cs : list Classroom)
  (pos : nat) (code : string) :
  unique_code fuel g pos cs = Some code ->
  exists k : nat,
    (k < fuel)%nat
    /\ code = generate_code 6 g (pos + 6 * k)
    /\ find_one (classroom_by_code code) cs = None
    /\ forall j : nat, (j < k)%nat ->
         find_one (classroom_by_code (generate_code 6 g (pos + 6 * j))) cs
         <> None.
Proof.
  revert pos. induction fuel as [|fuel IH]; intros pos; cbn [unique_code];
    [discriminate|].
  destruct (find_one (classroom_by_code (generate_code 6 g pos)) cs)
    as [c|] eqn:E; cbn [is_some].
  - intros H. destruct (IH _ H) as (k & Hk & Hcode & Hnone & Hbefore).
    exists (S k). split; [lia|]. split.
    + rewrite Hcode. f_equal. lia.
    + split; [assumption|]. intros j Hj. destruct j as [|j].
      * replace (pos + 6 * 0)%nat with pos by lia. rewrite E. discriminate.
      * replace (pos + 6 * S j)%nat with (pos + 6 + 6 * j)%nat by lia.
        apply Hbefore. lia.
  - intros H. inversion H; subst. exists 0%nat.
    replace (pos + 6 * 0)%nat with pos by lia.
    repeat split; auto; try lia.
Qed.

(** The loop ends as soon as a drawn code is free. *)
Lemma unique_code_terminates (g : rng) (cs : list Classroom) (k : nat) :
  find_one (classroom_by_code (generate_code 6 g (6 * k))) cs = None ->
  forall fuel, (k < fuel)%nat -> exists code, unique_code fuel g 0 cs = Some code.
Proof.
  intros Hfree fuel Hfuel.
  assert (G : forall fuel pos k,
             (k < fuel)%nat ->
             find_one (classroom_by_code (generate_code 6 g (pos + 6 * k))) cs
             = None ->
             exists code, unique_code fuel g pos cs = Some code).
  { clear. induction fuel as [|fuel IH]; intros pos k Hk Hfree; [lia|].
    cbn [unique_code].
    destruct (find_one (classroom_by_code (generate_code 6 g pos)) cs)
      as [c|] eqn:E; cbn [is_some]; [|eauto].
    destruct k as [|k].
    - replace (pos + 6 * 0)%nat with pos in Hfree by lia.
      rewrite E in Hfree. discriminate.
    - apply (IH (pos + 6)%nat k); [lia|].
      replace (pos + 6 + 6 * k)%nat with (pos + 6 * S k)%nat by lia.
      assumption. }
  apply (G fuel 0%nat k Hfuel). exact Hfree.
Qed.

(** ** Consistency is preserved *)

Lemma classroom_clash_fresh (doc : Classroom) (cs : list Classroom) :
  existsb (classroom_clash doc) cs = false ->
  ~ In (c_id doc) (map c_id cs) /\ ~ In (c_code doc) (map c_code cs).
Proof.
  intros H. split; intros Hin; apply in_map_iff in Hin;
    destruct Hin as (c & Hc & Hin);
    assert (E : existsb (classroom_clash doc) cs = true)
      by (apply existsb_exists; exists c; split; [assumption|];
          unfold classroom_clash; rewrite Hc, String.eqb_refl;
          auto using orb_true_r);
    congruence.
Qed.

Lemma material_clash_fresh (doc : Material) (ms : list Material) :
  existsb (material_clash doc) ms = false -> ~ In (m_id doc) (map m_id ms).
Proof.
  intros H Hin. apply in_map_iff in Hin. destruct Hin as (m & Hm & Hin).
  assert (E : existsb (material_clash doc) ms = true).
  { apply existsb_exists. exists m. split; [assumption|].
    unfold material_clash. rewrite Hm. apply String.eqb_refl. }
  congruence.
Qed.

Lemma consistent_same (db db' : DB) :
  classrooms db' = classrooms db -> materials db' = materials db ->
  consistent db -> consistent db'.
Proof.
  intros Hc Hm [H1 H2 H3 H4 H5]. constructor; rewrite ?Hc, ?Hm; assumption.
Qed.

Lemma evolve_refl (cs : list Classroom) : classrooms_evolve cs cs.
Proof. intros p Hp. now left. Qed.

Lemma evolve_same_pairs (cs cs' : list Classroom) :
  map id_code cs' = map id_code cs -> classrooms_evolve cs cs'.
Proof. intros E p Hp. left. now rewrite <- E. Qed.

Lemma evolve_code_kept (db db' : DB) :
  NoDup (map c_id (classrooms db)) ->
  classrooms_evolve (classrooms db) (classrooms db') ->
  code_kept db db'.
Proof.
  intros Hnd Hev c c' Hc Hc' Hid.
  destruct (Hev (id_code c')) as [Hin|Hnew].
  - now apply in_map.
  - apply in_map_iff in Hin. destruct Hin as (c0 & E & Hc0).
    unfold id_code in E. inversion E as [[Eid Ecode]].
    assert (c0 = c) by (eapply (NoDup_map_inj c_id); eauto; congruence).
    subst c0. congruence.
  - exfalso. apply Hnew. simpl. rewrite Hid. now apply in_map.
Qed.

Lemma good_step_same (db db' : DB) :
  classrooms db' = classrooms db -> materials db' = materials db ->
  consistent db -> good_step db db'.
Proof.
  intros Hc Hm H. split; [eapply consistent_same; eauto|].
  rewrite Hc. apply evolve_refl.
Qed.

Lemma good_step_refl (db : DB) : consistent db -> good_step db db.
Proof. intros H. now apply good_step_same. Qed.

Lemma register_good (secret : string) (db db' : DB) (data : UserCreate)
  (user_id : string) (now : timestamp) (salt : string) (r : AuthResponse) :
  register secret db data user_id now salt = Ok (db', r) ->
  consistent db -> good_step db db'.
Proof.
  unfold register. cbv zeta. intros H Hc. inv_ok.
  now apply good_step_same.
Qed.

Lemma update_profile_good (db db' : DB) (data : UserUpdate) (user : User)
  (now : timestamp) (r : UserResponse) :
  update_profile db data user now = Ok (db', r) ->
  consistent db -> good_step db db'.
Proof.
  unfold update_profile. cbv zeta. intros H Hc. inv_ok.
  destruct (is_empty (profile_update_data data)); now apply good_step_same.
Qed.

Lemma change_password_good (db db' : DB) (data : PasswordChange) (user : User)
  (now : timestamp) (salt : string) (r : string) :
  change_password db data user now salt = Ok (db', r) ->
  consistent db -> good_step db db'.
Proof.
  unfold change_password. cbv zeta. intros H Hc. inv_ok.
  now apply good_step_same.
Qed.

Lemma create_classroom_good (db db' : DB) (data : ClassroomCreate)
  (user : User) (classroom_id : string) (now : timestamp) (g : rng)
  (fuel : nat) (r : ClassroomView) :
  create_classroom db data user classroom_id now g fuel = Some (Ok (db', r)) ->
  consistent db -> good_step db db'.
Proof.
  unfold create_classroom. intros H [H1 H2 H3 H4 H5].
  destruct (negb (String.eqb (u_role user) TEACHER)); [discriminate|].
  destruct (unique_code fuel g 0 (classrooms db)) as [code|] eqn:Hcode;
    [|discriminate].
  inversion H as [H']. clear H. inv_ok.
  apply classroom_clash_fresh in Hfresh. simpl in Hfresh.
  destruct Hfresh as [Hid Hcd].
  destruct (unique_code_first _ _ _ _ _ Hcode) as (k & _ & -> & _).
  split.
  - constructor; simpl.
    + apply NoDup_map_app_one; assumption.
    + apply NoDup_map_app_one; assumption.
    + rewrite map_app. apply Forall_app. split; [assumption|].
      simpl. constructor; [apply generate_code_valid | constructor].
    + assumption.
    + intros x Hx. rewrite map_app. apply in_or_app. left. now apply H5.
  - simpl. intros p Hp. rewrite map_app in Hp. apply in_app_or in Hp.
    destruct Hp as [Hp|[<-|[]]]; [now left|]. right. exact Hid.
Qed.

Lemma update_classroom_good (db db' : DB) (id : string) (data : ClassroomUpdate)
  (user : User) (now : timestamp) (r : Classroom) :
  update_classroom db id data user now = Ok (db', r) ->
  consistent db -> good_step db db'.
Proof.
  unfold update_classroom. cbv zeta. intros H Hc. inv_ok.
  destruct (is_empty (classroom_update_data data)); [now apply good_step_refl|].
  destruct Hc as [H1 H2 H3 H4 H5].
  set (fs := classroom_update_data data ++ [SetClassroomUpdatedAt now]).
  assert (Eid : map c_id (update_one (classroom_by_id id)
                  (apply_set set_classroom_field fs) (classrooms db))
                = map c_id (classrooms db))
    by (apply map_update_one; intros d; apply apply_set_classroom_keys).
  assert (Ecode : map c_code (update_one (classroom_by_id id)
                    (apply_set set_classroom_field fs) (classrooms db))
                  = map c_code (classrooms db))
    by (apply map_update_one; intros d; apply apply_set_classroom_keys).
  split.
  - constructor; simpl; rewrite ?Eid, ?Ecode; assumption.
  - simpl. apply evolve_same_pairs. apply map_update_one. intros d.
    unfold id_code.
    destruct (apply_set_classroom_keys fs d) as (-> & -> & _). reflexivity.
Qed.

Lemma delete_classroom_good (db db' : DB) (id : string) (user : User)
  (r : string) :
  delete_classroom db id user = Ok (db', r) ->
  consistent db -> good_step db db'.
Proof.
  unfold delete_classroom. intros H [H1 H2 H3 H4 H5]. inv_ok.
  simpl. split.
  - constructor; simpl.
    + now apply NoDup_map_delete_one.
    + now apply NoDup_map_delete_one.
    + rewrite Forall_forall in *. intros code Hcode. apply H3.
      apply in_map_iff in Hcode. destruct Hcode as (c & <- & Hc).
      apply in_map. eapply in_delete_one; eassumption.
    + unfold delete_many. now apply NoDup_map_filter.
    + intros cid Hcid. apply in_map_iff in Hcid.
      destruct Hcid as (m & <- & Hm). unfold delete_many in Hm.
      apply filter_In in Hm. destruct Hm as [Hm Hq].
      assert (Hin : In (m_classroomId m) (map c_id (classrooms db)))
        by (apply H5; now apply in_map).
      apply in_map_iff in Hin. destruct Hin as (c & Ec & Hc).
      apply in_map_iff. exists c. split; [assumption|].
      apply in_delete_one_other; [assumption|].
      unfold classroom_by_id. rewrite Ec.
      unfold material_by_classroom in Hq. now apply negb_true_iff in Hq.
  - simpl. intros p Hp. left. apply in_map_iff in Hp.
    destruct Hp as (c & <- & Hc). apply in_map.
    eapply in_delete_one; eassumption.
Qed.

Lemma join_classroom_good (db db' : DB) (code : string) (user : User)
  (enrollment_id : string) (now : timestamp) (r : Classroom) :
  join_classroom db code user enrollment_id now = Ok (db', r) ->
  consistent db -> good_step db db'.
Proof.
  unfold join_classroom. cbv zeta. intros H Hc. inv_ok.
  now apply good_step_same.
Qed.

Lemma leave_classroom_good (db db' : DB) (id : string) (user : User)
  (r : string) :
  leave_classroom db id user = Ok (db', r) ->
  consistent db -> good_step db db'.
Proof.
  unfold leave_classroom. cbv zeta. intros H Hc. inv_ok.
  now apply good_step_same.
Qed.

Lemma create_material_good (db db' : DB) (classroomId : string)
  (data : MaterialCreate) (user : User) (material_id : string)
  (now : timestamp) (r : MaterialView) :
  create_material db classroomId data user material_id now = Ok (db', r) ->
  consistent db -> good_step db db'.
Proof.
  unfold create_material. cbv zeta. intros H [H1 H2 H3 H4 H5]. inv_ok.
  apply material_clash_fresh in Hfresh. simpl in Hfresh.
  apply find_one_some in E. destruct E as [Hin Hq].
  unfold classroom_by_id in Hq. apply String.eqb_eq in Hq.
  split; [|apply evolve_refl].
  constructor; simpl; try assumption.
  - apply NoDup_map_app_one; assumption.
  - intros cid Hcid. rewrite map_app in Hcid. apply in_app_or in Hcid.
    destruct Hcid as [Hcid|[<-|[]]]; [now apply H5|].
    simpl. rewrite <- Hq. now apply in_map.
Qed.

Lemma update_material_good (db db' : DB) (id : string) (data : MaterialUpdate)
  (user : User) (now : timestamp) (r : MaterialView) :
  update_material db id data user now = Ok (db', r) ->
  consistent db -> good_step db db'.
Proof.
  unfold update_material. cbv zeta. intros H Hc. inv_ok.
  destruct (is_empty (material_update_data data)); [now apply good_step_refl|].
  destruct Hc as [H1 H2 H3 H4 H5].
  split; [|apply evolve_refl].
  constructor; simpl; try assumption.
  - rewrite map_update_one; [assumption|].
    intros d. apply apply_set_material_keys.
  - rewrite map_update_one; [assumption|].
    intros d. apply apply_set_material_keys.
Qed.

Lemma delete_material_good (db db' : DB) (id : string) (user : User)
  (r : string) :
  delete_material db id user = Ok (db', r) ->
  consistent db -> good_step db db'.
Proof.
  unfold delete_material. intros H [H1 H2 H3 H4 H5]. inv_ok.
  split; [|apply evolve_refl].
  constructor; simpl; try assumption.
  - now apply NoDup_map_delete_one.
  - intros cid Hcid. apply H5. apply in_map_iff in Hcid.
    destruct Hcid as (m & <- & Hm). apply in_map.
    eapply in_delete_one; eassumption.
Qed.

Lemma reorder_materials_good (db db' : DB) (classroomId : string)
  (materialIds : list string) (user : User) (r : string) :
  reorder_materials db classroomId materialIds user = Ok (db', r) ->
  consistent db -> good_step db db'.
Proof.
  unfold reorder_materials. intros H [H1 H2 H3 H4 H5]. inv_ok.
  split; [|apply evolve_refl].
  constructor; simpl; try assumption.
  - rewrite reorder_fold_keys; [assumption|].
    intros fs m. apply apply_set_material_keys.
  - rewrite reorder_fold_keys; [assumption|].
    intros fs m. apply apply_set_material_keys.
Qed.

Lemma as_user_good {A : Type} (secret : string) (db : DB) (token : Token)
  (now : timestamp) (handler : User -> result (DB * A)) :
  consistent db ->
  (forall user db' r, handler user = Ok (db', r) -> good_step db db') ->
  good_step db (as_user secret db token now handler).
Proof.
  intros Hc Hh. unfold as_user.
  destruct (get_current_user secret db token now) as [user|e];
    [|now apply good_step_refl].
  destruct (handler user) as [[db' r]|e] eqn:E; simpl;
    [eauto | now apply good_step_refl].
Qed.

Lemma serve_good (secret : string) (db db' : DB) (now : timestamp)
  (req : request) :
  consistent db -> serve secret db now req = Some db' -> good_step db db'.
Proof.
  intros Hc H. destruct req; simpl in H;
    try (inversion H; subst; clear H; apply as_user_good; [assumption|];
         intros user db1 r Hr).
  - inversion H; subst; clear H.
    destruct (register secret db data user_id now salt) as [[db1 r]|e] eqn:E;
      simpl; [eapply register_good; eauto | now apply good_step_refl].
  - eapply update_profile_good; eauto.
  - eapply change_password_good; eauto.
  - destruct (get_current_user secret db token now) as [user|e].
    + destruct (create_classroom db data user classroom_id now g fuel)
        as [[[db1 r]|e]|] eqn:E; inversion H; subst; simpl.
      * eapply create_classroom_good; eauto.
      * now apply good_step_refl.
    + inversion H; subst. now apply good_step_refl.
  - eapply update_classroom_good; eauto.
  - eapply delete_classroom_good; eauto.
  - eapply join_classroom_good; eauto.
  - eapply leave_classroom_good; eauto.
  - eapply create_material_good; eauto.
  - eapply update_material_good; eauto.
  - eapply delete_material_good; eauto.
  - eapply reorder_materials_good; eauto.
Qed.

Lemma empty_consistent : consistent empty_db.
Proof.
  constructor; simpl; try constructor. intros x [].
Qed.

Lemma reachable_consistent (secret : string) (db : DB) :
  reachable secret db -> consistent db.
Proof.
  induction 1 as [|db now req db' Hreach IH Hserve].
  - apply empty_consistent.
  - now destruct (serve_good secret db db' now req IH Hserve).
Qed.

(** ** Runs reach *)

Lemma reachable_run (secret : string) (requests : list (timestamp * request))
  (db db' : DB) :
  reachable secret db -> run secret db requests = Some db' ->
  reachable secret db'.
Proof.
  revert db. induction requests as [|[now req] rest IH]; intros db Hr; simpl.
  - intros H. inversion H; subst. assumption.
  - destruct (serve secret db now req) as [db1|] eqn:E; [|discriminate].
    apply IH. eapply reach_serve; eassumption.
Qed.

Lemma taught_reachable : reachable Scenario.secret Scenario.taught.
Proof.
  apply (reachable_run _ Scenario.teaching empty_db); [constructor|].
  vm_compute. reflexivity.
Qed.

(** ** Sorting *)

Section SortFacts.
Context {A : Type}.
Variable le : A -> A -> bool.
Hypothesis le_total : forall a b, le a b = true \/ le b a = true.
Hypothesis le_trans :
  forall a b c, le a b = true -> le b c = true -> le a c = true.

Lemma insert_sorted_perm (x : A) (l : list A) :
  Permutation (insert_sorted le x l) (x :: l).
Proof.
  induction l as [|y l IH]; simpl; [reflexivity|].
  destruct (le x y); [reflexivity|].
  rewrite IH. apply perm_swap.
Qed.

Lemma sort_by_perm (l : list A) : Permutation (sort_by le l) l.
Proof.
  induction l as [|x l IH]; simpl; [reflexivity|].
  rewrite insert_sorted_perm. now constructor.
Qed.

Lemma insert_sorted_sorted (x : A) (l : list A) :
  StronglySorted (fun a b => le a b = true) l ->
  StronglySorted (fun a b => le a b = true) (insert_sorted le x l).
Proof.
  induction l as [|y l IH]; intros Hs; simpl.
  - repeat constructor.
  - inversion Hs as [|? ? Hl Hy]; subst.
    destruct (le x y) eqn:E.
    + constructor; [assumption|]. constructor; [exact E|].
      rewrite Forall_forall in *. intros z Hz.
      eapply le_trans; [exact E | now apply Hy].
    + constructor; [now apply IH|].
      assert (Hyx : le y x = true)
        by (destruct (le_total x y); congruence).
      rewrite Forall_forall in *. intros z Hz.
      apply (Permutation_in _ (insert_sorted_perm x l)) in Hz.
      destruct Hz as [<-|Hz]; [exact Hyx | now apply Hy].
Qed.

Lemma sort_by_sorted (l : list A) :
  StronglySorted (fun a b => le a b = true) (sort_by le l).
Proof.
  induction l as [|x l IH]; simpl; [constructor|].
  now apply insert_sorted_sorted.
Qed.

Lemma sort_by_in (l : list A) (x : A) : In x (sort_by le l) <-> In x l.
Proof.
  split; apply Permutation_in;
    [apply sort_by_perm | symmetry; apply sort_by_perm].
Qed.

Lemma sort_by_length (l : list A) : List.length (sort_by le l) = List.length l.
Proof. apply Permutation_length, sort_by_perm. Qed.

(** The head of the sorted list stands before every document. *)
Lemma sort_by_head (l : list A) (x : A) :
  hd_error (sort_by le l) = Some x ->
  In x l /\ forall y, In y l -> le x y = true.
Proof.
  intros H. pose proof (sort_by_sorted l) as Hs.
  destruct (sort_by le l) as [|h t] eqn:E; [discriminate|].
  simpl in H. inversion H; subst h.
  assert (Hx : In x l) by (apply sort_by_in; rewrite E; now left).
  split; [assumption|]. intros y Hy. apply sort_by_in in Hy.
  rewrite E in Hy. inversion Hs as [|? ? Ht Hall]; subst.
  destruct Hy as [<-|Hy].
  - destruct (le_total x x); assumption.
  - rewrite Forall_forall in Hall. now apply Hall.
Qed.

Lemma sort_by_head_none (l : list A) :
  hd_error (sort_by le l) = None -> l = [].
Proof.
  intros H. pose proof (sort_by_length l) as Hl.
  destruct (sort_by le l); [|discriminate].
  destruct l; [reflexivity | discriminate].
Qed.
End SortFacts.

Lemma StronglySorted_firstn {A : Type} (R : A -> A -> Prop) (n : nat)
  (l : list A) :
  StronglySorted R l -> StronglySorted R (firstn n l).
Proof.
  revert n. induction l as [|x l IH]; intros n Hs.
  - rewrite firstn_nil. constructor.
  - destruct n as [|n]; simpl; [constructor|].
    inversion Hs as [|? ? Hl Hx]; subst. constructor; [now apply IH|].
    rewrite Forall_forall in *. intros y Hy. apply Hx.
    eapply (In_nth_error) in Hy. destruct Hy as [i Hi].
    apply nth_error_In with (n := i).
    rewrite nth_error_firstn in Hi.
    destruct (i <? n)%nat; [assumption | discriminate].
Qed.

Lemma StronglySorted_impl {A : Type} (R R' : A -> A -> Prop) (l : list A) :
  (forall a b, R a b -> R' a b) ->
  StronglySorted R l -> StronglySorted R' l.
Proof.
  intros Himpl. induction 1 as [|x l Hl IH Hx]; constructor; [assumption|].
  eapply Forall_impl; [|exact Hx]. intros y. apply Himpl.
Qed.

Lemma in_firstn {A : Type} (n : nat) (l : list A) (x : A) :
  In x (firstn n l) -> In x l.
Proof.
  rewrite <- (firstn_skipn n l) at 2. intros H. apply in_or_app. now left.
Qed.

Lemma StronglySorted_map {A B : Type} (f : A -> B) (R : B -> B -> Prop)
  (l : list A) :
  StronglySorted (fun a b => R (f a) (f b)) l -> StronglySorted R (map f l).
Proof.
  induction 1 as [|x l Hl IH Hx]; simpl; constructor; [assumption|].
  rewrite Forall_forall in *. intros y Hy. apply in_map_iff in Hy.
  destruct Hy as (a & <- & Ha). now apply Hx.
Qed.

Lemma order_asc_total (a b : Material) :
  order_asc a b = true \/ order_asc b a = true.
Proof. unfold order_asc. rewrite !Z.leb_le. lia. Qed.

Lemma order_asc_trans (a b c : Material) :
  order_asc a b = true -> order_asc b c = true -> order_asc a c = true.
Proof. unfold order_asc. rewrite !Z.leb_le. lia. Qed.

Lemma order_desc_total (a b : Material) :
  order_desc a b = true \/ order_desc b a = true.
Proof. unfold order_desc. rewrite !Z.leb_le. lia. Qed.

Lemma order_desc_trans (a b c : Material) :
  order_desc a b = true -> order_desc b c = true -> order_desc a c = true.
Proof. unfold order_desc. rewrite !Z.leb_le. lia. Qed.

(** ** Visibility of unpublished materials *)

Lemma material_by_id_key (id : string) (a b : Material) :
  material_by_id id a = true -> material_by_id id b = true -> m_id a = m_id b.
Proof.
  unfold material_by_id. rewrite !String.eqb_eq. congruence.
Qed.

Lemma classroom_by_id_key (id : string) (a b : Classroom) :
  classroom_by_id id a = true -> classroom_by_id id b = true ->
  c_id a = c_id b.
Proof.
  unfold classroom_by_id. rewrite !String.eqb_eq. congruence.
Qed.

Lemma find_material (db : DB) (m : Material) :
  NoDup (map m_id (materials db)) -> In m (materials db) ->
  find_one (material_by_id (m_id m)) (materials db) = Some m.
Proof.
  intros Hnd Hin. apply (find_one_unique m_id); auto.
  - apply String.eqb_refl.
  - apply material_by_id_key.
Qed.

Lemma find_classroom (db : DB) (c : Classroom) :
  NoDup (map c_id (classrooms db)) -> In c (classrooms db) ->
  find_one (classroom_by_id (c_id c)) (classrooms db) = Some c.
Proof.
  intros Hnd Hin. apply (find_one_unique c_id); auto.
  - apply String.eqb_refl.
  - apply classroom_by_id_key.
Qed.

Lemma find_enrollment (db : DB) (sid cid : string) :
  (exists e, In e (enrollments db)
             /\ e_studentId e = sid /\ e_classroomId e = cid) ->
  is_some (find_one (enrollment_of sid cid) (enrollments db)) = true.
Proof.
  intros (e & Hin & Hs & Hc).
  destruct (find_one_exists (enrollment_of sid cid) (enrollments db) e Hin)
    as (e' & ->); [|reflexivity].
  unfold enrollment_of. now rewrite Hs, Hc, !String.eqb_refl.
Qed.


Lemma teacher_not_student : String.eqb TEACHER STUDENT = false.
Proof. reflexivity. Qed.

(** Running a handler through its checks, leaving the queries alone. *)
Ltac handler :=
  cbn [bind or_raise raise_if subscript is_some negb orb andb].


Ltac concrete_nodup :=
  vm_compute; repeat constructor; simpl; intuition discriminate.



(** ** Joining a classroom *)

Lemma upper_ascii_idem (c : ascii) : upper_ascii (upper_ascii c) = upper_ascii c.
Proof. destruct c as [[] [] [] [] [] [] [] []]; reflexivity. Qed.

Lemma upper_idem (s : string) : upper (upper s) = upper s.
Proof.
  induction s as [|c s IH]; simpl; [reflexivity|].
  now rewrite upper_ascii_idem, IH.
Qed.

Lemma find_one_none_intro {A : Type} (q : A -> bool) (coll : list A) :
  (forall d, In d coll -> q d = false) -> find_one q coll = None.
Proof.
  intros H. destruct (find_one q coll) as [d|] eqn:E; [|reflexivity].
  apply find_one_some in E. destruct E as [Hin Hq].
  rewrite (H d Hin) in Hq. discriminate.
Qed.

Lemma find_one_app_one {A : Type} (q : A -> bool) (coll : list A) (d : A) :
  is_some (find_one q (coll ++ [d])) = is_some (find_one q coll) || q d.
Proof.
  unfold find_one. induction coll as [|x coll IH]; simpl.
  - now destruct (q d).
  - destruct (q x); [reflexivity | exact IH].
Qed.

Lemma not_enrolled (db : DB) (sid cid : string) :
  (forall e, In e (enrollments db) ->
     ~ (e_studentId e = sid /\ e_classroomId e = cid)) ->
  find_one (enrollment_of sid cid) (enrollments db) = None.
Proof.
  intros H. apply find_one_none_intro. intros e He.
  unfold enrollment_of.
  destruct (String.eqb_spec (e_studentId e) sid) as [Es|Es]; [|reflexivity].
  destruct (String.eqb_spec (e_classroomId e) cid) as [Ec|Ec]; [|reflexivity].
  exfalso. apply (H e He). auto.
Qed.

Lemma classroom_by_code_key (code : string) (a b : Classroom) :
  classroom_by_code code a = true -> classroom_by_code code b = true ->
  c_code a = c_code b.
Proof.
  unfold classroom_by_code. rewrite !String.eqb_eq. congruence.
Qed.

Lemma find_classroom_by_code (db : DB) (c : Classroom) (code : string) :
  NoDup (map c_code (classrooms db)) -> In c (classrooms db) ->
  c_code c = code ->
  find_one (classroom_by_code code) (classrooms db) = Some c.
Proof.
  intros Hnd Hin Hcode. apply (find_one_unique c_code); auto.
  - unfold classroom_by_code. rewrite Hcode. apply String.eqb_refl.
  - apply classroom_by_code_key.
Qed.

Lemma enrollment_clash_fresh (doc : Enrollment) (es : list Enrollment) :
  ~ In (e_id doc) (map e_id es) ->
  find_one (enrollment_of (e_studentId doc) (e_classroomId doc)) es = None ->
  existsb (enrollment_clash doc) es = false.
Proof.
  intros Hid Hpair. apply not_true_is_false. intros H.
  apply existsb_exists in H. destruct H as (e & He & Hclash).
  unfold enrollment_clash in Hclash. apply orb_true_iff in Hclash.
  destruct Hclash as [Hc|Hc].
  - apply String.eqb_eq in Hc. apply Hid. rewrite Hc. now apply in_map.
  - pose proof (find_one_none _ _ Hpair e He) as Hq.
    unfold enrollment_of in Hq. apply andb_true_iff in Hc.
    destruct Hc as [H1 H2].
    rewrite String.eqb_sym in H1. rewrite String.eqb_sym in H2.
    rewrite H1, H2 in Hq. discriminate.
Qed.

(** The successful join, from its preconditions. *)
Lemma join_classroom_enrolls (db : DB) (code : string) (user : User)
  (c : Classroom) (enrollment_id : string) (now : timestamp) :
  u_role user = STUDENT ->
  find_one (classroom_by_code (upper code)) (classrooms db) = Some c ->
  c_isActive c = true ->
  find_one (enrollment_of (u_id user) (c_id c)) (enrollments db) = None ->
  ~ In enrollment_id (map e_id (enrollments db)) ->
  join_classroom db code user enrollment_id now
  = Ok (with_enrollments db
          (enrollments db
           ++ [mkEnrollment enrollment_id (u_id user) (c_id c) now]),
        c).
Proof.
  intros Hrole Hfind Hactive Hnone Hfresh.
  unfold join_classroom. rewrite Hrole, String.eqb_refl. handler.
  rewrite Hfind. handler. rewrite Hactive. handler. rewrite Hnone. handler.
  rewrite insert_one_fresh; [reflexivity|].
  apply enrollment_clash_fresh; assumption.
Qed.

(** C2: for a code of ASCII characters, on which [upper] is [str.upper()],
    [join_classroom] refuses a caller who is not a student (403), looks
    the classroom up by the uppercased code, so that the code in any case
    matches, answers 404 when no classroom holds it, 400 when the classroom
    is inactive, 400 when the caller is already enrolled, and otherwise adds
    exactly one enrollment; after that the same student is refused and
    another student still joins. The enrollment id is the fresh
    [uuid.uuid4()]. *)
Theorem join_classroom_cases (db : DB) (code : string) (user : User)
  (enrollment_id : string) (now : timestamp) :
  isascii code = true ->
  join_classroom db code user enrollment_id now
  = join_classroom db (upper code) user enrollment_id now
  /\ (u_role user <> STUDENT ->
      join_classroom db code user enrollment_id now
      = Err (HTTPException 403 "Only students can join classrooms"))
  /\ (u_role user = STUDENT ->
      (forall c, In c (classrooms db) -> c_code c <> upper code) ->
      join_classroom db code user enrollment_id now
      = Err (HTTPException 404 "Invalid classroom code"))
  /\ (forall c,
        u_role user = STUDENT ->
        NoDup (map c_code (classrooms db)) ->
        In c (classrooms db) -> c_code c = upper code ->
        (c_isActive c = false ->
         join_classroom db code user enrollment_id now
         = Err (HTTPException 400 "Classroom is not active"))
        /\ (c_isActive c = true ->
            (exists e, In e (enrollments db)
                       /\ e_studentId e = u_id user
                       /\ e_classroomId e = c_id c) ->
            join_classroom db code user enrollment_id now
            = Err (HTTPException 400 "Already enrolled in this classroom"))
        /\ (c_isActive c = true ->
            (forall e, In e (enrollments db) ->
               ~ (e_studentId e = u_id user /\ e_classroomId e = c_id c)) ->
            ~ In enrollment_id (map e_id (enrollments db)) ->
            let db' :=
              with_enrollments db
                (enrollments db
                 ++ [mkEnrollment enrollment_id (u_id user) (c_id c) now]) in
            join_classroom db code user enrollment_id now = Ok (db', c)
            /\ (forall id' now',
                  join_classroom db' code user id' now'
                  = Err (HTTPException 400 "Already enrolled in this classroom"))
            /\ (forall other id' now',
                  u_role other = STUDENT ->
                  u_id other <> u_id user ->
                  (forall e, In e (enrollments db) ->
                     ~ (e_studentId e = u_id other
                        /\ e_classroomId e = c_id c)) ->
                  ~ In id' (map e_id (enrollments db')) ->
                  join_classroom db' code other id' now'
                  = Ok (with_enrollments db'
                          (enrollments db'
                           ++ [mkEnrollment id' (u_id other) (c_id c) now']),
                        c)))).
Proof.
  intros _. split; [|split; [|split]].
  - unfold join_classroom. now rewrite upper_idem.
  - intros Hrole. unfold join_classroom.
    destruct (String.eqb_spec (u_role user) STUDENT) as [E|E];
      [contradiction | reflexivity].
  - intros Hrole Hnone. unfold join_classroom.
    rewrite Hrole, String.eqb_refl. handler.
    rewrite find_one_none_intro; [reflexivity|].
    intros c Hc. unfold classroom_by_code. apply String.eqb_neq. auto.
  - intros c Hrole Hnd Hc Hcode.
    pose proof (find_classroom_by_code db c (upper code) Hnd Hc Hcode) as Fc.
    split; [|split].
    + intros Hinactive. unfold join_classroom.
      rewrite Hrole, String.eqb_refl. handler. rewrite Fc. handler.
      now rewrite Hinactive.
    + intros Hactive Henrolled. unfold join_classroom.
      rewrite Hrole, String.eqb_refl. handler. rewrite Fc. handler.
      rewrite Hactive. handler.
      now rewrite (find_enrollment db _ _ Henrolled).
    + intros Hactive Hnot Hfresh db'.
      split; [|split].
      * apply join_classroom_enrolls; auto. now apply not_enrolled.
      * intros id' now'. unfold join_classroom.
        rewrite Hrole, String.eqb_refl. handler.
        subst db'. cbn [classrooms enrollments with_enrollments].
        rewrite Fc. handler. rewrite Hactive. handler.
        rewrite find_one_app_one. unfold enrollment_of at 2.
        cbn [e_studentId e_classroomId]. rewrite !String.eqb_refl.
        rewrite orb_true_r. reflexivity.
      * intros other id' now' Hrole' Hother Hnot' Hfresh'.
        apply join_classroom_enrolls; auto.
        apply (not_enrolled db'). subst db'.
        cbn [enrollments with_enrollments].
        intros e He. apply in_app_or in He. destruct He as [He|[<-|[]]].
        -- now apply Hnot'.
        -- cbn [e_studentId e_classroomId]. intros [H _]. congruence.
Qed.

Lemma join_classroom_cases_witness :
  isascii "abcdef" = true
  /\ u_role Scenario.sam = STUDENT
  /\ In Scenario.bio (classrooms Scenario.founded)
  /\ c_code Scenario.bio = upper "abcdef"
  /\ c_isActive Scenario.bio = true
  /\ join_classroom Scenario.founded "abcdef" Scenario.sam "e-sam" 1020
     = Ok (with_enrollments Scenario.founded
             (enrollments Scenario.founded
              ++ [mkEnrollment "e-sam" "u-sam" "c-bio" 1020]),
           Scenario.bio).
Proof.
  assert (Hc : In Scenario.bio (classrooms Scenario.founded))
    by (apply nth_error_In with (n := 0%nat); vm_compute; reflexivity).
  destruct (join_classroom_cases Scenario.founded "abcdef" Scenario.sam
              "e-sam" 1020 eq_refl) as (_ & _ & _ & H).
  assert (Hnd : NoDup (map c_code (classrooms Scenario.founded)))
    by concrete_nodup.
  destruct (H Scenario.bio eq_refl Hnd Hc eq_refl) as (_ & _ & H3).
  assert (Hnone : forall e, In e (enrollments Scenario.founded) ->
            ~ (e_studentId e = u_id Scenario.sam
               /\ e_classroomId e = c_id Scenario.bio))
    by (intros e He; vm_compute in He; contradiction).
  assert (Hfresh : ~ In "e-sam" (map e_id (enrollments Scenario.founded)))
    by (intros Hin; vm_compute in Hin; contradiction).
  destruct (H3 eq_refl Hnone Hfresh) as [Hjoin _].
  repeat split; assumption.
Defined.

(** ** Registration and authentication *)

Lemma user_clash_fresh (doc : User) (us : list User) :
  find_one (user_by_email (u_email doc)) us = None ->
  ~ In (u_id doc) (map u_id us) ->
  existsb (user_clash doc) us = false.
Proof.
  intros Hemail Hid. apply not_true_is_false. intros H.
  apply existsb_exists in H. destruct H as (u & Hu & Hclash).
  unfold user_clash in Hclash. apply orb_true_iff in Hclash.
  destruct Hclash as [Hc|Hc].
  - pose proof (find_one_none _ _ Hemail u Hu) as Hq.
    unfold user_by_email in Hq. rewrite String.eqb_sym in Hc. congruence.
  - apply String.eqb_eq in Hc. apply Hid. rewrite Hc. now apply in_map.
Qed.

Lemma find_one_app_hit {A : Type} (q : A -> bool) (coll : list A) (d : A) :
  q d = true -> exists d', find_one q (coll ++ [d]) = Some d' /\ q d' = true.
Proof.
  intros Hq.
  destruct (find_one_exists q (coll ++ [d]) d) as (d' & Hd').
  - apply in_or_app. right. now left.
  - exact Hq.
  - exists d'. split; [assumption|]. now apply find_one_some in Hd'.
Qed.

(** C3: a registration with an email no user holds and a role among
    TEACHER and STUDENT succeeds, and the token it returns, passed to
    [get_current_user] before it expires (24 hours after it was issued),
    resolves to a user with the id that [register] returned. The user id is
    the fresh [uuid.uuid4()]. *)
Theorem register_token_authenticates (secret : string) (db : DB)
  (data : UserCreate) (user_id : string) (now : timestamp) (salt : string)
  (later : timestamp) :
  find_one (user_by_email (uc_email data)) (users db) = None ->
  uc_role data = TEACHER \/ uc_role data = STUDENT ->
  ~ In user_id (map u_id (users db)) ->
  later < now + 24 * 3600 ->
  exists db' response user,
    register secret db data user_id now salt = Ok (db', response)
    /\ ur_id (ar_user response) = user_id
    /\ get_current_user secret db' (ar_token response) later = Ok user
    /\ u_id user = ur_id (ar_user response).
Proof.
  intros Hemail Hrole Hfresh Hlater.
  unfold register. rewrite Hemail. handler.
  assert (Hin : str_in (uc_role data) [TEACHER; STUDENT] = true).
  { unfold str_in. cbn [existsb].
    destruct Hrole as [-> | ->]; reflexivity. }
  rewrite Hin. handler.
  rewrite insert_one_fresh by (apply user_clash_fresh; assumption).
  handler.
  set (doc := mkUser user_id (uc_email data)
                (hash_password salt (uc_password data)) (uc_name data)
                (uc_role data) None now now).
  destruct (find_one_app_hit (user_by_id user_id) (users db) doc)
    as (user & Huser & Hq); [apply String.eqb_refl|].
  eexists. eexists. exists user. split; [reflexivity|].
  cbn [ar_user ar_token ur_id]. split; [reflexivity|]. split.
  - unfold get_current_user, create_token, jwt_encode, jwt_decode.
    rewrite String.eqb_refl. cbn [negb p_exp].
    unfold JWT_EXPIRATION_HOURS.
    destruct (Z.leb_spec (now + 24 * 3600) later) as [Hle|_]; [lia|].
    cbn [p_sub]. handler. cbn [users with_users]. rewrite Huser. reflexivity.
  - unfold user_by_id in Hq. now apply String.eqb_eq in Hq.
Qed.

Lemma register_token_authenticates_witness :
  let kim := mkUserCreate "kim@school.org" "ink" "Kim" STUDENT in
  find_one (user_by_email "kim@school.org") (users Scenario.taught) = None
  /\ 90000 < 4000 + 24 * 3600
  /\ exists db' response user,
       register Scenario.secret Scenario.taught kim "u-kim" 4000 "s4"
       = Ok (db', response)
       /\ ur_id (ar_user response) = "u-kim"
       /\ get_current_user Scenario.secret db' (ar_token response) 90000
          = Ok user
       /\ u_id user = ur_id (ar_user response).
Proof.
  intros kim. split; [vm_compute; reflexivity|]. split; [lia|].
  apply (register_token_authenticates Scenario.secret Scenario.taught
           kim "u-kim" 4000 "s4" 90000).
  - vm_compute. reflexivity.
  - right. reflexivity.
  - intros Hin. vm_compute in Hin. intuition discriminate.
  - lia.
Defined.

(** ** Classroom codes *)

(** The loop draws again after every code that a classroom holds and stops
    at the first one that none holds. *)
Lemma unique_code_redraws (g : rng) (cs : list Classroom) (fuel pos k : nat) :
  (k < fuel)%nat ->
  (forall j : nat, (j < k)%nat ->
     find_one (classroom_by_code (generate_code 6 g (pos + 6 * j))) cs <> None) ->
  find_one (classroom_by_code (generate_code 6 g (pos + 6 * k))) cs = None ->
  unique_code fuel g pos cs = Some (generate_code 6 g (pos + 6 * k)).
Proof.
  revert pos k. induction fuel as [|fuel IH]; intros pos k Hk Hheld Hfree;
    [lia|].
  cbn [unique_code]. destruct k as [|k].
  - replace (pos + 6 * 0)%nat with pos in * by lia.
    rewrite Hfree. reflexivity.
  - pose proof (Hheld 0%nat ltac:(lia)) as H0.
    replace (pos + 6 * 0)%nat with pos in H0 by lia.
    destruct (find_one (classroom_by_code (generate_code 6 g pos)) cs)
      as [c|]; [|congruence].
    cbn [is_some].
    replace (pos + 6 * S k)%nat with (pos + 6 + 6 * k)%nat in * by lia.
    apply IH; [lia | | assumption].
    intros j Hj. specialize (Hheld (S j) ltac:(lia)).
    now replace (pos + 6 * S j)%nat with (pos + 6 + 6 * j)%nat in Hheld by lia.
Qed.

(** While every drawn code is held the loop goes on. *)
Lemma unique_code_exhausts (g : rng) (cs : list Classroom) (fuel pos : nat) :
  (forall j : nat, (j < fuel)%nat ->
     find_one (classroom_by_code (generate_code 6 g (pos + 6 * j))) cs <> None) ->
  unique_code fuel g pos cs = None.
Proof.
  revert pos. induction fuel as [|fuel IH]; intros pos Hheld; [reflexivity|].
  cbn [unique_code].
  pose proof (Hheld 0%nat ltac:(lia)) as H0.
  replace (pos + 6 * 0)%nat with pos in H0 by lia.
  destruct (find_one (classroom_by_code (generate_code 6 g pos)) cs)
    as [c|]; [|congruence].
  cbn [is_some]. apply IH. intros j Hj. specialize (Hheld (S j) ltac:(lia)).
  now replace (pos + 6 * S j)%nat with (pos + 6 + 6 * j)%nat in Hheld by lia.
Qed.

Lemma held_code_found (cs : list Classroom) (code : string) :
  (exists c, In c cs /\ c_code c = code) ->
  find_one (classroom_by_code code) cs <> None.
Proof.
  intros (c & Hin & Hcode) Hnone.
  pose proof (find_one_none _ _ Hnone c Hin) as Hq.
  unfold classroom_by_code in Hq. rewrite Hcode, String.eqb_refl in Hq.
  discriminate.
Qed.

Lemma free_code_not_found (cs : list Classroom) (code : string) :
  (forall c, In c cs -> c_code c <> code) ->
  find_one (classroom_by_code code) cs = None.
Proof.
  intros Hfree. apply find_one_none_intro. intros c Hin.
  unfold classroom_by_code. apply String.eqb_neq. auto.
Qed.

Lemma classroom_clash_none (doc : Classroom) (cs : list Classroom) :
  ~ In (c_id doc) (map c_id cs) ->
  (forall c, In c cs -> c_code c <> c_code doc) ->
  existsb (classroom_clash doc) cs = false.
Proof.
  intros Hid Hcode.
  destruct (existsb (classroom_clash doc) cs) eqn:E; [|reflexivity].
  apply existsb_exists in E. destruct E as (c & Hin & Hclash).
  unfold classroom_clash in Hclash. apply orb_true_iff in Hclash.
  destruct Hclash as [H|H]; apply String.eqb_eq in H.
  - exfalso. apply Hid. rewrite H. now apply in_map.
  - exfalso. apply (Hcode c Hin). now symmetry.
Qed.

(** C4: in every state the service reaches, each classroom's code has six
    characters, all uppercase letters or digits, and no two classrooms hold
    the same code. [create_classroom] draws codes in a loop: when the first
    [k] codes it draws are held by classrooms and the next one is held by
    none, a teacher's request succeeds and the new classroom gets exactly
    that code; as long as every drawn code is held the loop does not end and
    nothing is inserted; and whenever the request succeeds, the code of the
    new classroom is the first drawn code that no classroom held. No request
    changes the code of a classroom it keeps. *)
Theorem classroom_codes_invariant (secret : string) (db : DB) :
  reachable secret db ->
  (forall c, In c (classrooms db) ->
     String.length (c_code c) = 6%nat
     /\ forallb is_upper_alnum (list_ascii_of_string (c_code c)) = true)
  /\ NoDup (map c_code (classrooms db))
  /\ (forall data user classroom_id now g fuel db' view,
        create_classroom db data user classroom_id now g fuel
        = Some (Ok (db', view)) ->
        classrooms db' = classrooms db ++ [cv_classroom view]
        /\ exists k : nat,
             c_code (cv_classroom view) = generate_code 6 g (6 * k)
             /\ (forall c, In c (classrooms db) ->
                   c_code c <> generate_code 6 g (6 * k))
             /\ forall j : nat, (j < k)%nat ->
                  exists c, In c (classrooms db)
                            /\ c_code c = generate_code 6 g (6 * j))
  /\ (forall now req db',
        serve secret db now req = Some db' ->
        forall c c', In c (classrooms db) -> In c' (classrooms db') ->
          c_id c' = c_id c -> c_code c' = c_code c)
  /\ (forall data user classroom_id now g fuel k,
        u_role user = TEACHER ->
        ~ In classroom_id (map c_id (classrooms db)) ->
        (k < fuel)%nat ->
        (forall j : nat, (j < k)%nat ->
           exists c, In c (classrooms db)
                     /\ c_code c = generate_code 6 g (6 * j)) ->
        (forall c, In c (classrooms db) ->
           c_code c <> generate_code 6 g (6 * k)) ->
        let classroom_doc :=
          mkClassroom classroom_id (cc_name data) (cc_description data)
                      (cc_subject data) (generate_code 6 g (6 * k))
                      (cc_coverImage data) true (u_id user) now now in
        create_classroom db data user classroom_id now g fuel
        = Some (Ok (with_classrooms db (classrooms db ++ [classroom_doc]),
                    mkClassroomView classroom_doc 0 0
                      (Some (u_id user, u_name user, u_email user)))))
  /\ (forall data user classroom_id now g fuel,
        u_role user = TEACHER ->
        (forall j : nat, (j < fuel)%nat ->
           exists c, In c (classrooms db)
                     /\ c_code c = generate_code 6 g (6 * j)) ->
        create_classroom db data user classroom_id now g fuel = None).
Proof.
  intros Hreach. pose proof (reachable_consistent secret db Hreach) as Hc.
  destruct Hc as [H1 H2 H3 H4 H5].
  split; [|split; [|split; [|split; [|split]]]].
  - intros c Hin. rewrite Forall_forall in H3.
    apply (H3 (c_code c)). now apply in_map.
  - exact H2.
  - intros data user classroom_id now g fuel db' view H.
    revert H. unfold create_classroom.
    destruct (negb (String.eqb (u_role user) TEACHER)); [discriminate|].
    destruct (unique_code fuel g 0 (classrooms db)) as [code|] eqn:Hcode;
      [|discriminate].
    intros H. inversion H as [H']. inv_ok. split; [reflexivity|].
    cbn [cv_classroom c_code].
    destruct (unique_code_first _ _ _ _ _ Hcode)
      as (k & _ & Hk & Hnone & Hbefore).
    exists k. cbn [Nat.add] in Hk, Hbefore. split; [exact Hk|]. split.
    + intros c Hin Heq.
      pose proof (find_one_none _ _ Hnone c Hin) as Hq.
      unfold classroom_by_code in Hq. apply String.eqb_neq in Hq.
      apply Hq. congruence.
    + intros j Hj. specialize (Hbefore j Hj).
      destruct (find_one (classroom_by_code (generate_code 6 g (6 * j)))
                  (classrooms db)) as [c|] eqn:E; [|congruence].
      apply find_one_some in E. destruct E as [Hin Hq].
      exists c. split; [assumption|]. now apply String.eqb_eq in Hq.
  - intros now req db' Hserve.
    apply (evolve_code_kept db db' H1).
    apply (serve_good secret db db' now req); [|assumption].
    now constructor.
  - intros data user classroom_id now g fuel k Hrole Hid Hk Hheld Hfree doc.
    unfold create_classroom. rewrite Hrole, String.eqb_refl. cbn [negb].
    rewrite (unique_code_redraws g (classrooms db) fuel 0 k Hk).
    + cbn [Nat.add]. fold doc.
      rewrite insert_one_fresh; [reflexivity|].
      apply classroom_clash_none; assumption.
    + intros j Hj. cbn [Nat.add]. apply held_code_found. auto.
    + cbn [Nat.add]. now apply free_code_not_found.
  - intros data user classroom_id now g fuel Hrole Hheld.
    unfold create_classroom. rewrite Hrole, String.eqb_refl. cbn [negb].
    rewrite (unique_code_exhausts g (classrooms db) fuel 0); [reflexivity|].
    intros j Hj. cbn [Nat.add]. apply held_code_found. auto.
Qed.

Lemma classroom_codes_invariant_witness :
  reachable Scenario.secret Scenario.taught
  /\ map c_code (classrooms Scenario.taught) = ["ABCDEF"]
  /\ generate_code 6 Scenario.draws (6 * 0) = "ABCDEF"
  /\ generate_code 6 Scenario.draws (6 * 1) = "GHIJKL"
  /\ (exists db' view,
        create_classroom Scenario.taught Scenario.chemistry Scenario.tina
          "c-chem" 1060 Scenario.draws 5
        = Some (Ok (db', view))
        /\ map c_code (classrooms db') = ["ABCDEF"; "GHIJKL"])
  /\ create_classroom Scenario.taught Scenario.chemistry Scenario.tina
       "c-chem" 1060 Scenario.draws 1
     = None
  /\ reachable Scenario.secret Scenario.expanded
  /\ map c_code (classrooms Scenario.expanded) = ["ABCDEF"; "GHIJKL"]
  /\ NoDup (map c_code (classrooms Scenario.expanded)).
Proof.
  assert (Hexp : reachable Scenario.secret Scenario.expanded).
  { apply (reachable_run _ Scenario.expanding empty_db); [constructor|].
    vm_compute. reflexivity. }
  assert (Hheld : forall j : nat, (j < 1)%nat ->
            exists c, In c (classrooms Scenario.taught)
                      /\ c_code c = generate_code 6 Scenario.draws (6 * j)).
  { intros j Hj. assert (j = 0)%nat as -> by lia.
    exists Scenario.bio. split; [|reflexivity].
    apply nth_error_In with (n := 0%nat). vm_compute. reflexivity. }
  destruct (classroom_codes_invariant Scenario.secret Scenario.taught
              taught_reachable) as (_ & _ & _ & _ & Hloop & Hnone).
  split; [exact taught_reachable|]. split; [vm_compute; reflexivity|].
  split; [vm_compute; reflexivity|]. split; [vm_compute; reflexivity|].
  split.
  - eexists. eexists. split.
    + apply (Hloop Scenario.chemistry Scenario.tina "c-chem" 1060
               Scenario.draws 5%nat 1%nat).
      * reflexivity.
      * intros Hin. vm_compute in Hin. intuition discriminate.
      * lia.
      * exact Hheld.
      * intros c Hin Hcode. vm_compute in Hin.
        destruct Hin as [<-|[]]. vm_compute in Hcode. discriminate.
    + vm_compute. reflexivity.
  - split; [exact (Hnone Scenario.chemistry Scenario.tina "c-chem" 1060
                     Scenario.draws 1%nat eq_refl Hheld)|].
    split; [exact Hexp|]. split; [vm_compute; reflexivity|].
    exact (proj1 (proj2 (classroom_codes_invariant Scenario.secret
                           Scenario.expanded Hexp))).
Defined.

(** ** Deleting a classroom *)

(** C5: when its owner deletes a classroom, the enrollments and the
    materials that reference it go first and the classroom last (it is still
    there before the last write); afterwards [get_classroom] on it,
    [get_materials] on it and [get_material] on each of its former
    materials answer 404 to every user, and no enrollment and no material
    references it. Identifiers are unique, as the indexes keep them. *)
Theorem delete_classroom_cascade (db : DB) (c : Classroom) (owner : User) :
  NoDup (map c_id (classrooms db)) ->
  NoDup (map m_id (materials db)) ->
  In c (classrooms db) ->
  c_teacherId c = u_id owner ->
  let id := c_id c in
  let after (n : nat) :=
    fold_left apply_write (firstn n (delete_classroom_writes id)) db in
  delete_classroom db id owner = Ok (after 3%nat, "Classroom deleted")
  /\ (forall n, (n < 3)%nat -> In c (classrooms (after n)))
  /\ (forall e, In e (enrollments (after 1%nat)) -> e_classroomId e <> id)
  /\ (forall m, In m (materials (after 2%nat)) -> m_classroomId m <> id)
  /\ (forall user,
        get_classroom (after 3%nat) id user
        = Err (HTTPException 404 "Classroom not found"))
  /\ (forall user,
        get_materials (after 3%nat) id user
        = Err (HTTPException 404 "Classroom not found"))
  /\ (forall m user,
        In m (materials db) -> m_classroomId m = id ->
        get_material (after 3%nat) (m_id m) user
        = Err (HTTPException 404 "Material not found"))
  /\ (forall e, In e (enrollments (after 3%nat)) -> e_classroomId e <> id)
  /\ (forall m, In m (materials (after 3%nat)) -> m_classroomId m <> id).
Proof.
  intros Hcs Hms Hc Howner id after.
  pose proof (find_classroom db c Hcs Hc) as Fc. fold id in Fc.
  assert (Hgone : find_one (classroom_by_id id) (classrooms (after 3%nat))
                  = None).
  { subst after. cbn. apply (find_one_delete_one_none c_id); [assumption|].
    apply classroom_by_id_key. }
  assert (Henr : forall e,
            In e (delete_many (enrollment_by_classroom id) (enrollments db)) ->
            e_classroomId e <> id).
  { intros e He. unfold delete_many in He. apply filter_In in He.
    destruct He as [_ Hq]. unfold enrollment_by_classroom in Hq.
    apply negb_true_iff in Hq. now apply String.eqb_neq in Hq. }
  assert (Hmat : forall m,
            In m (delete_many (material_by_classroom id) (materials db)) ->
            m_classroomId m <> id).
  { intros m Hm. unfold delete_many in Hm. apply filter_In in Hm.
    destruct Hm as [_ Hq]. unfold material_by_classroom in Hq.
    apply negb_true_iff in Hq. now apply String.eqb_neq in Hq. }
  split; [|split; [|split; [|split; [|split; [|split; [|split; [|split]]]]]]].
  - unfold delete_classroom. rewrite Fc. handler.
    rewrite Howner, String.eqb_refl. reflexivity.
  - intros n Hn. subst after.
    destruct n as [|[|[|n]]]; [exact Hc | exact Hc | exact Hc | lia].
  - exact Henr.
  - exact Hmat.
  - intros user. unfold get_classroom. now rewrite Hgone.
  - intros user. unfold get_materials. now rewrite Hgone.
  - intros m user Hm Hcid. unfold get_material.
    rewrite find_one_none_intro; [reflexivity|].
    intros m' Hm'. subst after. cbn in Hm'.
    unfold material_by_id. apply String.eqb_neq. intros Hid.
    pose proof (Hmat m' Hm') as Hne.
    unfold delete_many in Hm'. apply filter_In in Hm'.
    destruct Hm' as [Hin _].
    assert (m' = m) by (eapply (NoDup_map_inj m_id); eauto).
    congruence.
  - exact Henr.
  - exact Hmat.
Qed.

Lemma delete_classroom_cascade_witness :
  In Scenario.bio (classrooms Scenario.taught)
  /\ c_teacherId Scenario.bio = u_id Scenario.tina
  /\ (exists db',
        delete_classroom Scenario.taught "c-bio" Scenario.tina
        = Ok (db', "Classroom deleted")
        /\ classrooms db' = [] /\ enrollments db' = [] /\ materials db' = [])
  /\ get_material
       (fold_left apply_write (delete_classroom_writes "c-bio") Scenario.taught)
       "m-2" Scenario.tina
     = Err (HTTPException 404 "Material not found").
Proof.
  assert (Hc : In Scenario.bio (classrooms Scenario.taught))
    by (apply nth_error_In with (n := 0%nat); vm_compute; reflexivity).
  assert (Hcs : NoDup (map c_id (classrooms Scenario.taught)))
    by concrete_nodup.
  assert (Hms : NoDup (map m_id (materials Scenario.taught)))
    by concrete_nodup.
  destruct (delete_classroom_cascade Scenario.taught Scenario.bio
              Scenario.tina Hcs Hms Hc eq_refl)
    as (Hdel & _ & _ & _ & _ & _ & Hget & _).
  split; [exact Hc|]. split; [reflexivity|]. split.
  - eexists. split; [exact Hdel|]. repeat split; vm_compute; reflexivity.
  - apply (Hget Scenario.draft Scenario.tina); [|reflexivity].
    apply nth_error_In with (n := 1%nat). vm_compute. reflexivity.
Defined.

(** ** Creating a material *)

Lemma str_in_iff (s : string) (l : list string) :
  str_in s l = true <-> In s l.
Proof.
  unfold str_in. rewrite existsb_exists. split.
  - intros (x & Hx & E). apply String.eqb_eq in E. now subst.
  - intros H. exists s. split; [assumption | apply String.eqb_refl].
Qed.

(** The head of the descending sort is a material of the highest order. *)
Lemma last_material_is_max (db : DB) (classroomId : string) :
  match hd_error (sort_by order_desc
                    (find_many (material_by_classroom classroomId)
                               (materials db))) with
  | Some last =>
      In (m_order last) (classroom_orders db classroomId)
      /\ forall o, In o (classroom_orders db classroomId) -> o <= m_order last
  | None => classroom_orders db classroomId = []
  end.
Proof.
  unfold classroom_orders.
  destruct (hd_error _) as [last|] eqn:E.
  - apply (sort_by_head order_desc order_desc_total order_desc_trans) in E.
    destruct E as [Hin Hmax]. split; [now apply in_map|].
    intros o Ho. apply in_map_iff in Ho. destruct Ho as (y & <- & Hy).
    specialize (Hmax y Hy). unfold order_desc in Hmax.
    now apply Z.leb_le.
  - apply sort_by_head_none in E. now rewrite E.
Qed.

(** C6: for a classroom the caller owns, [create_material] answers 400
    when the type is none of TEXT, FILE, VIDEO, MODEL3D; otherwise it stores
    one material whose order is the highest order among the classroom's
    materials plus one, or 1 when the classroom has none, with arEnabled
    true, modelScale 1.0 and isPublished true wherever the field is absent
    and the given value wherever it is present. The material id is the
    fresh [uuid.uuid4()]. *)
Theorem create_material_cases (db : DB) (c : Classroom) (data : MaterialCreate)
  (user : User) (material_id : string) (now : timestamp) :
  NoDup (map c_id (classrooms db)) ->
  In c (classrooms db) ->
  c_teacherId c = u_id user ->
  (~ In (mc_type data) [TEXT; FILE; VIDEO; MODEL3D] ->
   create_material db (c_id c) data user material_id now
   = Err (HTTPException 400 "Invalid material type"))
  /\ (In (mc_type data) [TEXT; FILE; VIDEO; MODEL3D] ->
      ~ In material_id (map m_id (materials db)) ->
      exists doc,
        create_material db (c_id c) data user material_id now
        = Ok (with_materials db (materials db ++ [doc]),
              mkMaterialView doc (Some (u_id user, u_name user)))
        /\ m_id doc = material_id
        /\ m_classroomId doc = c_id c
        /\ m_type doc = mc_type data
        /\ ((classroom_orders db (c_id c) = [] /\ m_order doc = 1)
            \/ (exists highest,
                  In highest (classroom_orders db (c_id c))
                  /\ (forall o, In o (classroom_orders db (c_id c)) ->
                        o <= highest)
                  /\ m_order doc = highest + 1))
        /\ (mc_arEnabled data = None -> m_arEnabled doc = true)
        /\ (forall v, mc_arEnabled data = Some v -> m_arEnabled doc = v)
        /\ (mc_modelScale data = None -> m_modelScale doc = 1%float)
        /\ (forall v, mc_modelScale data = Some v -> m_modelScale doc = v)
        /\ (mc_isPublished data = None -> m_isPublished doc = true)
        /\ (forall v, mc_isPublished data = Some v -> m_isPublished doc = v)).
Proof.
  intros Hcs Hc Howner.
  pose proof (find_classroom db c Hcs Hc) as Fc.
  split.
  - intros Htype. unfold create_material. rewrite Fc. handler.
    rewrite Howner, String.eqb_refl. handler.
    destruct (str_in (mc_type data) [TEXT; FILE; VIDEO; MODEL3D]) eqn:E;
      [|reflexivity].
    apply str_in_iff in E. contradiction.
  - intros Htype Hfresh. unfold create_material. rewrite Fc. handler.
    rewrite Howner, String.eqb_refl. handler.
    apply str_in_iff in Htype. rewrite Htype. handler.
    rewrite insert_one_fresh
      by (apply not_true_is_false; intros H;
          apply Hfresh; apply existsb_exists in H;
          destruct H as (m & Hm & Hclash);
          unfold material_clash in Hclash; cbn [m_id] in Hclash;
          apply String.eqb_eq in Hclash; rewrite Hclash; now apply in_map).
    handler. eexists. split; [reflexivity|].
    cbn [m_id m_classroomId m_type m_order m_arEnabled m_modelScale
         m_isPublished].
    repeat split; try (intros; match goal with
                                | H : _ = _ |- _ => rewrite H; reflexivity
                                end).
    pose proof (last_material_is_max db (c_id c)) as Hmax.
    destruct (hd_error _) as [last|].
    + right. exists (m_order last). destruct Hmax as [Hin Hle]. auto.
    + left. auto.
Qed.

Lemma create_material_cases_witness :
  In Scenario.bio (classrooms Scenario.taught)
  /\ c_teacherId Scenario.bio = u_id Scenario.tina
  /\ In (mc_type Scenario.skeleton) [TEXT; FILE; VIDEO; MODEL3D]
  /\ classroom_orders Scenario.taught "c-bio" = [1; 2; 3]
  /\ exists doc,
       create_material Scenario.taught "c-bio" Scenario.skeleton Scenario.tina
         "m-4" 1050
       = Ok (with_materials Scenario.taught
               (materials Scenario.taught ++ [doc]),
             mkMaterialView doc (Some ("u-tina", "Tina")))
       /\ m_order doc = 4
       /\ m_arEnabled doc = true
       /\ m_modelScale doc = 1%float
       /\ m_isPublished doc = true.
Proof.
  assert (Hc : In Scenario.bio (classrooms Scenario.taught))
    by (apply nth_error_In with (n := 0%nat); vm_compute; reflexivity).
  assert (Hcs : NoDup (map c_id (classrooms Scenario.taught)))
    by concrete_nodup.
  assert (Htype : In (mc_type Scenario.skeleton) [TEXT; FILE; VIDEO; MODEL3D])
    by (right; right; right; left; reflexivity).
  assert (Hfresh : ~ In "m-4" (map m_id (materials Scenario.taught)))
    by (intros Hin; vm_compute in Hin; intuition discriminate).
  destruct (create_material_cases Scenario.taught Scenario.bio
              Scenario.skeleton Scenario.tina "m-4" 1050 Hcs Hc eq_refl)
    as [_ Hcreate].
  destruct (Hcreate Htype Hfresh)
    as (doc & Hdoc & _ & _ & _ & _ & Har & _ & Hscale & _ & Hpub & _).
  split; [exact Hc|]. split; [reflexivity|]. split; [exact Htype|].
  split; [vm_compute; reflexivity|].
  exists doc. split; [exact Hdoc|].
  split; [|split; [exact (Har eq_refl)
                  |split; [exact (Hscale eq_refl) | exact (Hpub eq_refl)]]].
  assert (E : create_material Scenario.taught "c-bio" Scenario.skeleton
                Scenario.tina "m-4" 1050
              = Ok (with_materials Scenario.taught
                      (materials Scenario.taught
                       ++ [mkMaterial "m-4" "Skeleton" None MODEL3D None None
                             None None (Some "skeleton.glb") true 1%float 4
                             true "c-bio" "u-tina" 1050 1050]),
                    mkMaterialView
                      (mkMaterial "m-4" "Skeleton" None MODEL3D None None
                         None None (Some "skeleton.glb") true 1%float 4
                         true "c-bio" "u-tina" 1050 1050)
                      (Some ("u-tina", "Tina"))))
    by (vm_compute; reflexivity).
  change (c_id Scenario.bio) with "c-bio" in Hdoc.
  rewrite E in Hdoc. inversion Hdoc as [[Hms Hview]].
  reflexivity.
Defined.

(** ** Reordering materials *)

Lemma enumerate_from_nth {A : Type} (l : list A) (k i : nat) (a : A) :
  nth_error l i = Some a ->
  nth_error (combine (seq k (List.length l)) l) i = Some ((k + i)%nat, a).
Proof.
  revert k i. induction l as [|x l IH]; intros k i H.
  - destruct i; discriminate.
  - destruct i as [|i]; simpl in *.
    + inversion H. now rewrite Nat.add_0_r.
    + rewrite (IH (S k) i H). f_equal. f_equal. lia.
Qed.

Lemma enumerate_nth {A : Type} (l : list A) (i : nat) (a : A) :
  nth_error l i = Some a -> nth_error (enumerate l) i = Some (i, a).
Proof. intros H. unfold enumerate. now rewrite (enumerate_from_nth l 0 i a). Qed.

Lemma enumerate_from_snd {A : Type} (l : list A) (k : nat) :
  map snd (combine (seq k (List.length l)) l) = l.
Proof.
  revert k. induction l as [|x l IH]; intros k; simpl; [reflexivity|].
  now rewrite IH.
Qed.

Lemma enumerate_snd {A : Type} (l : list A) : map snd (enumerate l) = l.
Proof. apply enumerate_from_snd. Qed.

Lemma firstn_succ_nth {A : Type} (l : list A) (i : nat) (a : A) :
  nth_error l i = Some a -> firstn (S i) l = firstn i l ++ [a].
Proof.
  revert i. induction l as [|x l IH]; intros i H.
  - destruct i; discriminate.
  - destruct i as [|i]; simpl in *.
    + now inversion H.
    + now rewrite (IH i H).
Qed.

Lemma skipn_map_snd {A B : Type} (n : nat) (l : list (A * B)) :
  map snd (skipn n l) = skipn n (map snd l).
Proof.
  revert l. induction n as [|n IH]; intros l; [reflexivity|].
  destruct l as [|x l]; simpl; [reflexivity | apply IH].
Qed.

(** With unique keys, [update_one] rewrites the one document the query
    selects and leaves every other as it is. *)
Lemma in_update_one_unique {A K : Type} (key : A -> K) (q : A -> bool)
  (set : A -> A) (coll : list A) (d' : A) :
  NoDup (map key coll) ->
  (forall a b, q a = true -> q b = true -> key a = key b) ->
  In d' (update_one q set coll) ->
  (In d' coll /\ q d' = false)
  \/ exists d, In d coll /\ q d = true /\ d' = set d.
Proof.
  intros Hnd Hkey. induction coll as [|d rest IH]; simpl; [tauto|].
  inversion Hnd as [|? ? Hnotin Hrest]; subst.
  destruct (q d) eqn:Hq; simpl.
  - intros [<-|Hin]; [right; exists d; auto|].
    left. split; [now right|].
    destruct (q d') eqn:Hq'; [|reflexivity].
    exfalso. apply Hnotin. rewrite (Hkey d d' Hq Hq'). now apply in_map.
  - intros [<-|Hin]; [left; auto|].
    destruct (IH Hrest Hin) as [[H1 H2]|(d0 & H0 & H1 & H2)].
    + left. auto.
    + right. exists d0. auto.
Qed.

Lemma in_update_one_other {A : Type} (q : A -> bool) (set : A -> A)
  (coll : list A) (d : A) :
  In d coll -> q d = false -> In d (update_one q set coll).
Proof.
  induction coll as [|x rest IH]; simpl; [tauto|].
  intros [->|Hin] Hq.
  - rewrite Hq. now left.
  - destruct (q x); right; auto.
Qed.

Lemma reorder_step_ids (ms : list Material) (entry : nat * string) :
  map m_id (reorder_step ms entry) = map m_id ms.
Proof.
  destruct entry as [index material_id]. unfold reorder_step.
  apply map_update_one. intros d. apply apply_set_material_keys.
Qed.

(** One turn of the loop gives the material it names the order of its
    position. *)
Lemma reorder_step_hit (ms : list Material) (index : nat)
  (material_id : string) (x : Material) :
  NoDup (map m_id ms) ->
  In x (reorder_step ms (index, material_id)) -> m_id x = material_id ->
  m_order x = Z.of_nat index + 1.
Proof.
  intros Hnd Hin Hid. unfold reorder_step in Hin.
  apply (in_update_one_unique m_id) in Hin;
    [|assumption | apply material_by_id_key].
  destruct Hin as [[_ Hq]|(d & _ & _ & ->)].
  - unfold material_by_id in Hq. rewrite Hid, String.eqb_refl in Hq.
    discriminate.
  - reflexivity.
Qed.

Lemma reorder_step_miss (ms : list Material) (entry : nat * string)
  (x : Material) :
  m_id x <> snd entry ->
  In x (reorder_step ms entry) <-> In x ms.
Proof.
  destruct entry as [index material_id]. simpl. intros Hne.
  unfold reorder_step. split.
  - intros Hin. apply in_update_one in Hin.
    destruct Hin as [Hin|(d & _ & Hq & ->)]; [assumption|].
    exfalso. apply Hne.
    destruct (apply_set_material_keys
                [SetOrder (Z.of_nat index + 1)] d) as [-> _].
    unfold material_by_id in Hq. now apply String.eqb_eq in Hq.
  - intros Hin. apply in_update_one_other; [assumption|].
    unfold material_by_id. now apply String.eqb_neq.
Qed.

Lemma reorder_fold_miss (entries : list (nat * string)) (ms : list Material)
  (x : Material) :
  ~ In (m_id x) (map snd entries) ->
  In x (fold_left reorder_step entries ms) <-> In x ms.
Proof.
  revert ms. induction entries as [|e rest IH]; intros ms Hnot; simpl.
  - tauto.
  - rewrite IH by (intros H; apply Hnot; now right).
    apply reorder_step_miss. intros H. apply Hnot. left. now symmetry.
Qed.

Lemma reorder_fold_ids (entries : list (nat * string)) (ms : list Material) :
  map m_id (fold_left reorder_step entries ms) = map m_id ms.
Proof.
  apply reorder_fold_keys. intros fs m. apply apply_set_material_keys.
Qed.

(** After the turn at position [i], the material named there has order
    [i + 1]. *)
Lemma reorder_prefix_order (ms : list Material) (materialIds : list string)
  (i : nat) (id : string) (x : Material) :
  NoDup (map m_id ms) ->
  nth_error materialIds i = Some id ->
  In x (fold_left reorder_step (firstn (S i) (enumerate materialIds)) ms) ->
  m_id x = id -> m_order x = Z.of_nat i + 1.
Proof.
  intros Hnd Hnth Hin Hid.
  rewrite (firstn_succ_nth _ _ _ (enumerate_nth _ _ _ Hnth)) in Hin.
  rewrite fold_left_app in Hin. simpl in Hin.
  eapply reorder_step_hit; [|exact Hin | exact Hid].
  now rewrite reorder_fold_ids.
Qed.

(** At the end of the loop, a material named at position [i] and at no
    later position has order [i + 1]. *)
Lemma reorder_final_order (ms : list Material) (materialIds : list string)
  (i : nat) (id : string) (x : Material) :
  NoDup (map m_id ms) ->
  nth_error materialIds i = Some id ->
  ~ In id (skipn (S i) materialIds) ->
  In x (fold_left reorder_step (enumerate materialIds) ms) ->
  m_id x = id -> m_order x = Z.of_nat i + 1.
Proof.
  intros Hnd Hnth Hlater Hin Hid.
  rewrite <- (firstn_skipn (S i) (enumerate materialIds)) in Hin.
  rewrite fold_left_app in Hin.
  apply reorder_fold_miss in Hin.
  - eapply reorder_prefix_order; eauto.
  - rewrite skipn_map_snd, enumerate_snd, Hid. exact Hlater.
Qed.

Lemma enumerate_length {A : Type} (l : list A) :
  List.length (enumerate l) = List.length l.
Proof.
  unfold enumerate. rewrite length_combine, length_seq. apply Nat.min_id.
Qed.

Lemma apply_set_material_pair (fs : list material_field) (m : Material) :
  id_classroom (apply_set set_material_field fs m) = id_classroom m.
Proof.
  unfold id_classroom. now destruct (apply_set_material_keys fs m) as [-> ->].
Qed.

(** C7: for a classroom the caller owns, [reorder_materials] accepts every
    list of ids and, turn by turn, gives the material named at position [i]
    (from 0) the order [i + 1]: it has that order after its turn, and at the
    end when no later position names it again. The ids [m3, m1, m2] leave
    m3 with order 1, m1 with 2 and m2 with 3. No id is checked against the
    classroom: the material an id names is given its order whatever
    classroom it belongs to, and no material changes classroom. *)
Theorem reorder_materials_assigns (db : DB) (c : Classroom)
  (materialIds : list string) (user : User) :
  NoDup (map c_id (classrooms db)) ->
  NoDup (map m_id (materials db)) ->
  In c (classrooms db) ->
  c_teacherId c = u_id user ->
  let after (n : nat) :=
    fold_left reorder_step (firstn n (enumerate materialIds)) (materials db) in
  let final := after (List.length materialIds) in
  reorder_materials db (c_id c) materialIds user
  = Ok (with_materials db final, "Materials reordered")
  /\ map id_classroom final = map id_classroom (materials db)
  /\ (forall i id x,
        nth_error materialIds i = Some id ->
        In x (after (S i)) -> m_id x = id -> m_order x = Z.of_nat i + 1)
  /\ (forall i id x,
        nth_error materialIds i = Some id ->
        ~ In id (skipn (S i) materialIds) ->
        In x final -> m_id x = id -> m_order x = Z.of_nat i + 1)
  /\ (forall x, ~ In (m_id x) materialIds ->
        (In x final <-> In x (materials db)))
  /\ (forall m3 m1 m2,
        materialIds = [m3; m1; m2] ->
        m3 <> m1 -> m3 <> m2 -> m1 <> m2 ->
        forall x, In x final ->
          (m_id x = m3 -> m_order x = 1)
          /\ (m_id x = m1 -> m_order x = 2)
          /\ (m_id x = m2 -> m_order x = 3)).
Proof.
  intros Hcs Hms Hc Howner after final.
  pose proof (find_classroom db c Hcs Hc) as Fc.
  assert (Hall : final = fold_left reorder_step (enumerate materialIds)
                           (materials db)).
  { subst final after. cbv beta.
    rewrite firstn_all2; [reflexivity|]. now rewrite enumerate_length. }
  assert (Hfinal : forall i id x,
            nth_error materialIds i = Some id ->
            ~ In id (skipn (S i) materialIds) ->
            In x final -> m_id x = id -> m_order x = Z.of_nat i + 1).
  { intros i id x Hnth Hlater Hin Hid. rewrite Hall in Hin.
    eapply reorder_final_order; eauto. }
  split; [|split; [|split; [|split; [|split]]]].
  - unfold reorder_materials. rewrite Fc. handler.
    rewrite Howner, String.eqb_refl. handler. now rewrite Hall.
  - rewrite Hall. apply reorder_fold_keys. apply apply_set_material_pair.
  - intros i id x Hnth Hin Hid. subst after. cbv beta in Hin.
    eapply reorder_prefix_order; eauto.
  - exact Hfinal.
  - intros x Hnot. rewrite Hall. apply reorder_fold_miss.
    now rewrite enumerate_snd.
  - intros m3 m1 m2 Hids H31 H32 H12 x Hx.
    repeat split; intros Hid.
    + apply (Hfinal 0%nat m3 x); auto; rewrite Hids; simpl;
        [reflexivity | intuition congruence].
    + apply (Hfinal 1%nat m1 x); auto; rewrite Hids; simpl;
        [reflexivity | intuition congruence].
    + apply (Hfinal 2%nat m2 x); auto; rewrite Hids; simpl;
        [reflexivity | tauto].
Qed.

Lemma reorder_materials_assigns_witness :
  In Scenario.bio (classrooms Scenario.taught)
  /\ c_teacherId Scenario.bio = u_id Scenario.tina
  /\ exists db',
       reorder_materials Scenario.taught "c-bio" ["m-3"; "m-1"; "m-2"]
         Scenario.tina
       = Ok (db', "Materials reordered")
       /\ map (fun m => (m_id m, m_order m)) (materials db')
          = [("m-1", 2); ("m-2", 3); ("m-3", 1)].
Proof.
  assert (Hc : In Scenario.bio (classrooms Scenario.taught))
    by (apply nth_error_In with (n := 0%nat); vm_compute; reflexivity).
  assert (Hcs : NoDup (map c_id (classrooms Scenario.taught)))
    by concrete_nodup.
  assert (Hms : NoDup (map m_id (materials Scenario.taught)))
    by concrete_nodup.
  destruct (reorder_materials_assigns Scenario.taught Scenario.bio
              ["m-3"; "m-1"; "m-2"] Scenario.tina Hcs Hms Hc eq_refl)
    as (Hre & _).
  split; [exact Hc|]. split; [reflexivity|].
  eexists. split; [exact Hre|]. vm_compute. reflexivity.
Defined.

(** ** Updating a profile *)

(** What [update_profile] stores: the name when it is given and not empty,
    the avatar when it is given. *)
Lemma profile_update_data_cases (data : UserUpdate) :
  profile_update_data data
  = match uu_name data with
    | Some EmptyString => []
    | Some name => [SetUserName name]
    | None => []
    end ++ match uu_avatar data with
           | Some avatar => [SetUserAvatar avatar]
           | None => []
           end.
Proof.
  unfold profile_update_data, provided.
  destruct (uu_name data) as [[|ch name]|]; reflexivity.
Qed.

(** C8 fails on the code for the empty name: given an empty name and no
    avatar, [update_profile] stores nothing, not the name and not a new
    updatedAt, where an empty avatar in the same call is stored and
    refreshes updatedAt, as does a name that is not empty. *)
Theorem update_profile_skips_empty_name :
  update_profile Scenario.taught (mkUserUpdate (Some EmptyString) None)
    Scenario.tina 5000
  = Ok (Scenario.taught, user_response Scenario.tina)
  /\ (exists db',
        update_profile Scenario.taught (mkUserUpdate (Some EmptyString) (Some EmptyString))
          Scenario.tina 5000
        = Ok (db', mkUserResponse "u-tina" "tina@school.org" "Tina" TEACHER
                     (Some EmptyString) 1000)
        /\ find_one (user_by_id "u-tina") (users db')
           = Some (mkUser "u-tina" "tina@school.org" (Bcrypt "s1" "chalk")
                     "Tina" TEACHER (Some EmptyString) 1000 5000))
  /\ (exists db',
        update_profile Scenario.taught (mkUserUpdate (Some "Tina B.") None)
          Scenario.tina 5000
        = Ok (db', mkUserResponse "u-tina" "tina@school.org" "Tina B."
                     TEACHER None 1000)
        /\ find_one (user_by_id "u-tina") (users db')
           = Some (mkUser "u-tina" "tina@school.org" (Bcrypt "s1" "chalk")
                     "Tina B." TEACHER None 1000 5000)).
Proof.
  split; [vm_compute; reflexivity|].
  split; eexists; split; vm_compute; reflexivity.
Qed.

(** ** Materials whose classroom is missing *)

Lemma find_one_update_one {A : Type} (q : A -> bool) (set : A -> A)
  (coll : list A) (d : A) :
  (forall x, q (set x) = q x) ->
  find_one q coll = Some d ->
  find_one q (update_one q set coll) = Some (set d).
Proof.
  intros Hq. unfold find_one.
  induction coll as [|x rest IH]; simpl; [discriminate|].
  destruct (q x) eqn:E; simpl.
  - intros H. inversion H; subst. now rewrite Hq, E.
  - rewrite E. exact IH.
Qed.

Lemma material_by_id_set (id : string) (fs : list material_field)
  (m : Material) :
  material_by_id id (apply_set set_material_field fs m) = material_by_id id m.
Proof.
  unfold material_by_id. now destruct (apply_set_material_keys fs m) as [-> _].
Qed.

Lemma find_no_classroom (db : DB) (id : string) :
  (forall c, In c (classrooms db) -> c_id c <> id) ->
  find_one (classroom_by_id id) (classrooms db) = None.
Proof.
  intros H. apply find_one_none_intro. intros c Hc.
  unfold classroom_by_id. apply String.eqb_neq. now apply H.
Qed.

(** In the states the service reaches, every material belongs to a
    classroom that exists. *)
Lemma reachable_material_has_classroom (secret : string) (db : DB)
  (m : Material) :
  reachable secret db -> In m (materials db) ->
  exists c, In c (classrooms db) /\ c_id c = m_classroomId m.
Proof.
  intros Hreach Hm.
  destruct (reachable_consistent secret db Hreach) as [_ _ _ _ H].
  assert (Hin : In (m_classroomId m) (map c_id (classrooms db)))
    by (apply H; now apply in_map).
  apply in_map_iff in Hin. destruct Hin as (c & Hc & Hin). eauto.
Qed.

(** C10, as amended: [update_material] and [delete_material] read the
    teacherId of the material's classroom for every caller, [get_material]
    only for a caller whose role is TEACHER. When the classroom exists none
    of the three raises the TypeError of subscripting [None]. When it is
    missing, [update_material] and [delete_material] raise it for every
    caller and [get_material] for a TEACHER, in place of a 404; for any
    other caller [get_material] does not touch the classroom and answers by
    enrollment and publication alone. *)
Theorem missing_classroom_dereference (db : DB) (m : Material) (user : User) :
  find_one (material_by_id (m_id m)) (materials db) = Some m ->
  ((exists c, In c (classrooms db) /\ c_id c = m_classroomId m) ->
   get_material db (m_id m) user <> Err TypeError
   /\ (forall data now, update_material db (m_id m) data user now
                        <> Err TypeError)
   /\ delete_material db (m_id m) user <> Err TypeError)
  /\ ((forall c, In c (classrooms db) -> c_id c <> m_classroomId m) ->
      (forall data now, update_material db (m_id m) data user now
                        = Err TypeError)
      /\ delete_material db (m_id m) user = Err TypeError
      /\ (u_role user = TEACHER ->
          get_material db (m_id m) user = Err TypeError)
      /\ (u_role user <> TEACHER ->
          get_material db (m_id m) user
          = if is_some (find_one (enrollment_of (u_id user) (m_classroomId m))
                          (enrollments db))
               && m_isPublished m
            then Ok (material_view db m)
            else Err (HTTPException 403 "Not authorized"))).
Proof.
  intros Fm. split.
  - intros (c & Hc & Hid).
    destruct (find_one_exists (classroom_by_id (m_classroomId m))
                (classrooms db) c Hc) as (c' & Fc).
    { unfold classroom_by_id. rewrite Hid. apply String.eqb_refl. }
    split; [|split].
    + unfold get_material. rewrite Fm. handler. rewrite Fc. handler.
      destruct (String.eqb (u_role user) TEACHER); handler.
      * destruct (negb (String.eqb (c_teacherId c') (u_id user)));
          handler; discriminate.
      * destruct (negb (is_some _) || negb (m_isPublished m));
          handler; discriminate.
    + intros data now. unfold update_material. rewrite Fm. handler. rewrite Fc. handler.
      destruct (negb (String.eqb (c_teacherId c') (u_id user)));
        handler; [discriminate|].
      destruct (is_empty (material_update_data data)).
      * rewrite Fm. handler. discriminate.
      * cbn [materials with_materials].
        rewrite (find_one_update_one _ _ _ m); [handler; discriminate | | exact Fm].
        intros x. apply material_by_id_set.
    + unfold delete_material. rewrite Fm. handler. rewrite Fc. handler.
      destruct (negb (String.eqb (c_teacherId c') (u_id user)));
        handler; discriminate.
  - intros Hmissing.
    pose proof (find_no_classroom db (m_classroomId m) Hmissing) as Fc.
    split; [|split; [|split]].
    + intros data now. unfold update_material. rewrite Fm. handler. now rewrite Fc.
    + unfold delete_material. rewrite Fm. handler. now rewrite Fc.
    + intros Hrole. unfold get_material. rewrite Fm. handler. rewrite Fc. handler.
      now rewrite Hrole, String.eqb_refl.
    + intros Hrole. unfold get_material. rewrite Fm. handler.
      destruct (String.eqb_spec (u_role user) TEACHER) as [E|_];
        [contradiction|].
      destruct (is_some _); destruct (m_isPublished m); reflexivity.
Qed.

Lemma missing_classroom_dereference_witness :
  find_one (material_by_id "m-1") (materials Scenario.orphaned)
  = Some Scenario.first_material
  /\ classrooms Scenario.orphaned = []
  /\ delete_material Scenario.orphaned "m-1" Scenario.tina = Err TypeError
  /\ get_material Scenario.orphaned "m-1" Scenario.tina = Err TypeError.
Proof.
  assert (Fm : find_one (material_by_id (m_id Scenario.first_material))
                 (materials Scenario.orphaned)
               = Some Scenario.first_material)
    by (vm_compute; reflexivity).
  destruct (missing_classroom_dereference Scenario.orphaned
              Scenario.first_material Scenario.tina Fm) as [_ H].
  destruct H as (_ & Hdel & Hget & _).
  { intros c Hc. vm_compute in Hc. contradiction. }
  split; [exact Fm|]. split; [vm_compute; reflexivity|].
  split; [exact Hdel | exact (Hget eq_refl)].
Defined.

(** C10, as stated, fails for [get_material]: with the classroom missing, a
    student still enrolled in it is handed a published material, and
    nothing is raised. *)
Lemma student_get_ignores_missing_classroom :
  find_one (material_by_id "m-1") (materials Scenario.orphaned)
  = Some Scenario.first_material
  /\ find_one (classroom_by_id (m_classroomId Scenario.first_material))
       (classrooms Scenario.orphaned) = None
  /\ get_material Scenario.orphaned "m-1" Scenario.sam
     = Ok (mkMaterialView Scenario.first_material (Some ("u-tina", "Tina")))
  /\ get_material Scenario.orphaned "m-1" Scenario.bea
     = Err (HTTPException 403 "Not authorized").
Proof. repeat split; vm_compute; reflexivity. Qed.

(** ** Dense orders *)

Lemma in_one_to (n : nat) (x : Z) :
  In x (one_to n) <-> 1 <= x <= Z.of_nat n.
Proof.
  unfold one_to. rewrite in_map_iff. split.
  - intros (i & <- & Hi). apply in_seq in Hi. lia.
  - intros H. exists (Z.to_nat x). split; [lia|]. apply in_seq. lia.
Qed.

Lemma one_to_succ (n : nat) : one_to (S n) = one_to n ++ [Z.of_nat n + 1].
Proof.
  unfold one_to. rewrite seq_S, map_app. simpl. f_equal. f_equal. lia.
Qed.

(** Among orders that are [1..N], the highest is [N]. *)
Lemma dense_highest (orders : list Z) (highest : Z) :
  Permutation orders (one_to (List.length orders)) ->
  In highest orders ->
  (forall o, In o orders -> o <= highest) ->
  highest = Z.of_nat (List.length orders).
Proof.
  intros Hperm Hin Hmax.
  assert (H1 : In highest (one_to (List.length orders)))
    by (eapply Permutation_in; eauto).
  apply in_one_to in H1.
  assert (H2 : In (Z.of_nat (List.length orders)) orders).
  { eapply Permutation_in; [symmetry; exact Hperm|].
    apply in_one_to. lia. }
  specialize (Hmax _ H2). lia.
Qed.

Lemma classroom_orders_app (db : DB) (doc : Material) (classroomId : string) :
  classroom_orders (with_materials db (materials db ++ [doc])) classroomId
  = classroom_orders db classroomId
    ++ (if material_by_classroom classroomId doc then [m_order doc] else []).
Proof.
  unfold classroom_orders, find_many. cbn [materials with_materials].
  rewrite filter_app, map_app. simpl.
  now destruct (material_by_classroom classroomId doc).
Qed.

Lemma create_material_inv (db db' : DB) (classroomId : string)
  (data : MaterialCreate) (user : User) (material_id : string)
  (now : timestamp) (view : MaterialView) :
  create_material db classroomId data user material_id now = Ok (db', view) ->
  exists doc,
    db' = with_materials db (materials db ++ [doc])
    /\ m_classroomId doc = classroomId
    /\ m_order doc
       = match hd_error (sort_by order_desc
                           (find_many (material_by_classroom classroomId)
                                      (materials db))) with
         | Some last => m_order last + 1
         | None => 1
         end.
Proof.
  unfold create_material. cbv zeta. intros H. inv_ok.
  eexists. repeat split.
Qed.

(** [create_material] continues a dense numbering and leaves the other
    classrooms as they are. *)
Lemma create_material_dense (db db' : DB) (classroomId : string)
  (data : MaterialCreate) (user : User) (material_id : string)
  (now : timestamp) (view : MaterialView) :
  create_material db classroomId data user material_id now = Ok (db', view) ->
  (dense_orders db classroomId -> dense_orders db' classroomId)
  /\ (forall other, other <> classroomId ->
        classroom_orders db' other = classroom_orders db other).
Proof.
  intros H. apply create_material_inv in H.
  destruct H as (doc & -> & Hcid & Horder).
  pose proof (last_material_is_max db classroomId) as Hmax.
  split.
  - unfold dense_orders. cbv zeta. intros Hdense.
    assert (E : material_by_classroom classroomId doc = true)
      by (unfold material_by_classroom; rewrite Hcid; apply String.eqb_refl).
    rewrite classroom_orders_app, E.
    rewrite length_app, Nat.add_1_r, one_to_succ. cbn [List.length].
    apply Permutation_app; [exact Hdense|].
    rewrite Horder. destruct (hd_error _) as [last|].
    + destruct Hmax as [Hin Hle].
      now rewrite (dense_highest _ _ Hdense Hin Hle).
    + rewrite Hmax. reflexivity.
  - intros other Hother. rewrite classroom_orders_app.
    assert (E : material_by_classroom other doc = false)
      by (unfold material_by_classroom; rewrite Hcid;
          apply String.eqb_neq; congruence).
    rewrite E. apply app_nil_r.
Qed.

(** The orders of a classroom are read off the classroom and the order of
    each material. *)
Lemma classroom_orders_ext (db db' : DB) :
  map (fun m => (m_classroomId m, m_order m)) (materials db')
  = map (fun m => (m_classroomId m, m_order m)) (materials db) ->
  forall classroomId,
    classroom_orders db' classroomId = classroom_orders db classroomId.
Proof.
  intros H classroomId. unfold classroom_orders, find_many.
  assert (G : forall l,
            map m_order (filter (material_by_classroom classroomId) l)
            = map snd (filter (fun p => String.eqb (fst p) classroomId)
                         (map (fun m => (m_classroomId m, m_order m)) l))).
  { induction l as [|x l IH]; simpl; [reflexivity|].
    unfold material_by_classroom at 1.
    destruct (String.eqb (m_classroomId x) classroomId); simpl;
      now rewrite IH. }
  now rewrite !G, H.
Qed.

Lemma provided_in {V F : Type} (mk : V -> F) (value : option V) (f : F) :
  In f (provided mk value) -> exists v, f = mk v.
Proof.
  destruct value as [v|]; simpl; [|tauto].
  intros [<-|[]]. now exists v.
Qed.

Lemma apply_set_keeps_order (fs : list material_field) (m : Material) :
  (forall f v, In f fs -> f <> SetOrder v) ->
  m_order (apply_set set_material_field fs m) = m_order m.
Proof.
  unfold apply_set. revert m.
  induction fs as [|f fs IH]; intros m Hno; simpl; [reflexivity|].
  rewrite IH by (intros g v Hg; apply Hno; now right).
  destruct f; simpl; try reflexivity.
  exfalso. apply (Hno (SetOrder v) v); [now left | reflexivity].
Qed.

Lemma material_update_data_no_order (data : MaterialUpdate) (now : timestamp) :
  mu_order data = None ->
  forall f v, In f (material_update_data data ++ [SetUpdatedAt now]) ->
    f <> SetOrder v.
Proof.
  intros Hnone f v Hin. unfold material_update_data in Hin.
  rewrite Hnone in Hin. apply in_app_or in Hin.
  destruct Hin as [Hin|[<-|[]]]; [|discriminate].
  repeat (apply in_app_or in Hin; destruct Hin as [Hin|Hin];
          [apply provided_in in Hin; destruct Hin as (x & ->); discriminate|]).
  destruct Hin.
Qed.

(** [update_material] without an order leaves every order as it is. *)
Lemma update_material_keeps_orders (db db' : DB) (id : string)
  (data : MaterialUpdate) (user : User) (now : timestamp)
  (view : MaterialView) :
  update_material db id data user now = Ok (db', view) ->
  mu_order data = None ->
  forall classroomId,
    classroom_orders db' classroomId = classroom_orders db classroomId.
Proof.
  unfold update_material. cbv zeta. intros H Hnone. inv_ok.
  destruct (is_empty (material_update_data data)); [reflexivity|].
  apply classroom_orders_ext. cbn [materials with_materials].
  apply map_update_one. intros d.
  destruct (apply_set_material_keys
              (material_update_data data ++ [SetUpdatedAt now]) d) as [_ ->].
  rewrite apply_set_keeps_order; [reflexivity|].
  now apply material_update_data_no_order.
Qed.

Lemma index_of_nth (id : string) (l : list string) :
  In id l -> nth_error l (index_of id l) = Some id.
Proof.
  induction l as [|x l IH]; simpl; [tauto|].
  destruct (String.eqb_spec x id) as [->|Hne]; [reflexivity|].
  intros [H|H]; [contradiction | now apply IH].
Qed.

Lemma nodup_not_later {A : Type} (l : list A) (i : nat) (a : A) :
  NoDup l -> nth_error l i = Some a -> ~ In a (skipn (S i) l).
Proof.
  revert i. induction l as [|x l IH]; intros i Hnd Hnth.
  - destruct i; discriminate.
  - inversion Hnd as [|? ? Hnotin Hrest]; subst.
    destruct i as [|i]; simpl in *.
    + inversion Hnth; subst. exact Hnotin.
    + now apply IH.
Qed.

Lemma index_of_positions (l : list string) :
  NoDup l -> map (fun id => index_of id l) l = seq 0 (List.length l).
Proof.
  induction l as [|x l IH]; intros Hnd; simpl; [reflexivity|].
  inversion Hnd as [|? ? Hnotin Hrest]; subst.
  rewrite String.eqb_refl. f_equal.
  rewrite <- seq_shift, <- (IH Hrest), map_map.
  apply map_ext_in. intros id Hid.
  destruct (String.eqb_spec x id) as [->|_]; [contradiction | reflexivity].
Qed.

(** Numbering the ids of a duplicate-free list by position gives
    [1..N]. *)
Lemma index_of_one_to (l : list string) :
  NoDup l ->
  map (fun id => Z.of_nat (index_of id l) + 1) l = one_to (List.length l).
Proof.
  intros Hnd. unfold one_to.
  rewrite <- seq_shift, map_map, <- (index_of_positions l Hnd), map_map.
  apply map_ext. intros id. lia.
Qed.

Lemma filter_classroom_ids (classroomId : string) (l : list Material) :
  map m_id (filter (material_by_classroom classroomId) l)
  = map fst (filter (fun p => String.eqb (snd p) classroomId)
               (map id_classroom l)).
Proof.
  induction l as [|x l IH]; simpl; [reflexivity|].
  unfold material_by_classroom at 1.
  destruct (String.eqb (m_classroomId x) classroomId); simpl; now rewrite IH.
Qed.

Lemma filter_update_one_untouched {A : Type} (p q : A -> bool) (set : A -> A)
  (coll : list A) :
  (forall d, p (set d) = p d) ->
  (forall d, In d coll -> q d = true -> p d = false) ->
  filter p (update_one q set coll) = filter p coll.
Proof.
  intros Hset. induction coll as [|x rest IH]; intros Hq; simpl;
    [reflexivity|].
  destruct (q x) eqn:E; simpl.
  - rewrite Hset. now rewrite (Hq x (or_introl eq_refl) E).
  - rewrite IH; [reflexivity|]. intros d Hd. apply Hq. now right.
Qed.

Lemma reorder_step_pairs (ms : list Material) (entry : nat * string) :
  map id_classroom (reorder_step ms entry) = map id_classroom ms.
Proof.
  destruct entry as [index material_id]. unfold reorder_step.
  apply map_update_one. intros d. apply apply_set_material_pair.
Qed.

(** The loop leaves alone the classrooms that none of the named materials
    belongs to. *)
Lemma reorder_fold_other (entries : list (nat * string)) (ms : list Material)
  (other : string) :
  (forall e pr, In e entries -> In pr (map id_classroom ms) ->
     fst pr = snd e -> snd pr <> other) ->
  filter (material_by_classroom other) (fold_left reorder_step entries ms)
  = filter (material_by_classroom other) ms.
Proof.
  revert ms. induction entries as [|e rest IH]; intros ms H; simpl;
    [reflexivity|].
  rewrite IH.
  - destruct e as [index material_id]. unfold reorder_step.
    apply filter_update_one_untouched.
    + intros d. unfold material_by_classroom.
      now destruct (apply_set_material_keys
                      [SetOrder (Z.of_nat index + 1)] d) as [_ ->].
    + intros d Hd Hq. unfold material_by_classroom.
      apply String.eqb_neq.
      apply (H (index, material_id) (id_classroom d)).
      * now left.
      * now apply in_map.
      * unfold material_by_id in Hq. now apply String.eqb_eq in Hq.
  - intros e' pr He' Hpr. rewrite reorder_step_pairs in Hpr.
    apply H; [now right | assumption].
Qed.

(** [reorder_materials], given each material of the classroom exactly
    once, numbers the classroom [1..N] and leaves the others as they
    are. *)
Lemma reorder_materials_dense (db db' : DB) (classroomId : string)
  (materialIds : list string) (user : User) (message : string) :
  NoDup (map m_id (materials db)) ->
  Permutation materialIds
    (map m_id (find_many (material_by_classroom classroomId) (materials db))) ->
  reorder_materials db classroomId materialIds user = Ok (db', message) ->
  dense_orders db' classroomId
  /\ (forall other, other <> classroomId ->
        classroom_orders db' other = classroom_orders db other).
Proof.
  intros Hms Hperm H. unfold reorder_materials in H. inv_ok.
  set (final := fold_left reorder_step (enumerate materialIds) (materials db)).
  assert (Hpairs : map id_classroom final = map id_classroom (materials db))
    by (apply reorder_fold_keys; apply apply_set_material_pair).
  assert (Hids : map m_id (filter (material_by_classroom classroomId) final)
                 = map m_id (filter (material_by_classroom classroomId)
                               (materials db)))
    by (now rewrite !filter_classroom_ids, Hpairs).
  assert (Hnd : NoDup materialIds).
  { eapply Permutation_NoDup; [symmetry; exact Hperm|].
    unfold find_many. now apply NoDup_map_filter. }
  unfold find_many in Hperm. rewrite <- Hids in Hperm.
  split.
  - unfold dense_orders, classroom_orders, find_many.
    cbn [materials with_materials]. fold final. cbv zeta.
    set (F := filter (material_by_classroom classroomId) final) in *.
    assert (Horders : map m_order F
                      = map (fun id => Z.of_nat (index_of id materialIds) + 1)
                          (map m_id F)).
    { rewrite map_map. apply map_ext_in. intros x Hx.
      assert (Hin : In (m_id x) materialIds).
      { eapply Permutation_in; [symmetry; exact Hperm|]. now apply in_map. }
      apply (reorder_final_order (materials db) materialIds
               (index_of (m_id x) materialIds) (m_id x) x); auto.
      - now apply index_of_nth.
      - apply nodup_not_later; [assumption | now apply index_of_nth].
      - subst F. apply filter_In in Hx. tauto. }
    rewrite Horders.
    rewrite length_map.
    replace (List.length (map m_id F)) with (List.length materialIds)
      by (apply Permutation_length; exact Hperm).
    rewrite <- (index_of_one_to materialIds Hnd).
    apply Permutation_map. symmetry. exact Hperm.
  - intros other Hother. unfold classroom_orders, find_many.
    cbn [materials with_materials]. f_equal.
    apply reorder_fold_other. intros e pr He Hpr Hfst Hsnd.
    apply Hother.
    assert (Hin : In (snd e) materialIds)
      by (rewrite <- (enumerate_snd materialIds); now apply in_map).
    apply (Permutation_in _ Hperm) in Hin. rewrite Hids in Hin.
    apply in_map_iff in Hin. destruct Hin as (d1 & Hd1 & Hin1).
    apply filter_In in Hin1. destruct Hin1 as [Hin1 Hq1].
    apply in_map_iff in Hpr. destruct Hpr as (d0 & <- & Hin0).
    cbn [id_classroom fst snd] in Hfst, Hsnd.
    assert (d0 = d1)
      by (eapply (NoDup_map_inj m_id); eauto; congruence).
    subst d0. unfold material_by_classroom in Hq1.
    apply String.eqb_eq in Hq1. congruence.
Qed.

(** C9, as amended: the orders of a classroom's materials are the positive
    integers [1..N] as long as materials are only created, updated without
    an order, and reordered by a list that names each material of the
    classroom exactly once: [create_material] continues [1..N] with [N + 1],
    such an [update_material] changes no order, and such a
    [reorder_materials] numbers the classroom [1..N] anew; each leaves the
    orders of the other classrooms as they are. Identifiers are unique, as
    the index keeps them. *)
Theorem dense_orders_kept (db : DB) (classroomId : string) (user : User) :
  NoDup (map m_id (materials db)) ->
  (dense_orders db classroomId ->
   forall o, In o (classroom_orders db classroomId) ->
     1 <= o <= Z.of_nat (List.length (classroom_orders db classroomId)))
  /\ (forall data material_id now db' view,
        create_material db classroomId data user material_id now
        = Ok (db', view) ->
        (dense_orders db classroomId -> dense_orders db' classroomId)
        /\ (forall other, other <> classroomId ->
              classroom_orders db' other = classroom_orders db other))
  /\ (forall id data now db' view,
        update_material db id data user now = Ok (db', view) ->
        mu_order data = None ->
        forall cid, classroom_orders db' cid = classroom_orders db cid)
  /\ (forall materialIds db' message,
        Permutation materialIds
          (map m_id (find_many (material_by_classroom classroomId)
                               (materials db))) ->
        reorder_materials db classroomId materialIds user
        = Ok (db', message) ->
        dense_orders db' classroomId
        /\ (forall other, other <> classroomId ->
              classroom_orders db' other = classroom_orders db other)).
Proof.
  intros Hms. split; [|split; [|split]].
  - unfold dense_orders. cbv zeta. intros Hdense o Ho.
    apply in_one_to. eapply Permutation_in; eauto.
  - intros data material_id now db' view H.
    eapply create_material_dense; eauto.
  - intros id data now db' view H Hnone.
    eapply update_material_keeps_orders; eauto.
  - intros materialIds db' message Hperm H.
    eapply reorder_materials_dense; eauto.
Qed.

Lemma dense_orders_kept_witness :
  NoDup (map m_id (materials Scenario.taught))
  /\ exists db',
       reorder_materials Scenario.taught "c-bio" ["m-3"; "m-1"; "m-2"]
         Scenario.tina
       = Ok (db', "Materials reordered")
       /\ classroom_orders db' "c-bio" = [2; 3; 1]
       /\ dense_orders db' "c-bio".
Proof.
  assert (Hms : NoDup (map m_id (materials Scenario.taught)))
    by concrete_nodup.
  split; [exact Hms|].
  destruct (dense_orders_kept Scenario.taught "c-bio" Scenario.tina Hms)
    as (_ & _ & _ & Hreorder).
  eexists. split; [vm_compute; reflexivity|].
  split; [vm_compute; reflexivity|].
  eapply (Hreorder ["m-3"; "m-1"; "m-2"]).
  - change (Permutation ("m-3" :: ["m-1"; "m-2"]) (["m-1"; "m-2"] ++ ["m-3"])).
    apply Permutation_cons_append.
  - vm_compute. reflexivity.
Defined.

(** C9, as stated, fails: after the teacher deletes the second of three
    materials the classroom's orders are 1 and 3, and after an update that
    gives the first material the order 7 they are 7, 2 and 3; both states
    are reached by requests alone. *)
Lemma delete_material_leaves_gap :
  reachable Scenario.secret Scenario.taught
  /\ classroom_orders Scenario.taught "c-bio" = [1; 2; 3]
  /\ dense_orders Scenario.taught "c-bio"
  /\ serve Scenario.secret Scenario.taught 1040
       (DeleteMaterial (Scenario.token_of Scenario.tina) "m-2")
     = Some Scenario.pruned
  /\ reachable Scenario.secret Scenario.pruned
  /\ classroom_orders Scenario.pruned "c-bio" = [1; 3]
  /\ ~ dense_orders Scenario.pruned "c-bio"
  /\ exists db',
       serve Scenario.secret Scenario.taught 1040
         (UpdateMaterial (Scenario.token_of Scenario.tina) "m-1"
            Scenario.moved_away)
       = Some db'
       /\ classroom_orders db' "c-bio" = [7; 2; 3]
       /\ ~ dense_orders db' "c-bio".
Proof.
  assert (Hpruned : serve Scenario.secret Scenario.taught 1040
                      (DeleteMaterial (Scenario.token_of Scenario.tina) "m-2")
                    = Some Scenario.pruned)
    by (vm_compute; reflexivity).
  split; [exact taught_reachable|].
  split; [vm_compute; reflexivity|].
  split.
  { unfold dense_orders.
    replace (classroom_orders Scenario.taught "c-bio") with [1; 2; 3]
      by (vm_compute; reflexivity).
    apply Permutation_refl. }
  split; [exact Hpruned|].
  split; [eapply reach_serve; [exact taught_reachable | exact Hpruned]|].
  split; [vm_compute; reflexivity|].
  split.
  { unfold dense_orders.
    replace (classroom_orders Scenario.pruned "c-bio") with [1; 3]
      by (vm_compute; reflexivity).
    intros Hperm. apply (Permutation_in 3) in Hperm; [|simpl; tauto].
    apply in_one_to in Hperm. simpl in Hperm. lia. }
  eexists. split; [vm_compute; reflexivity|].
  split; [vm_compute; reflexivity|].
  unfold dense_orders.
  match goal with
  | |- context [classroom_orders ?d "c-bio"] =>
      replace (classroom_orders d "c-bio") with [7; 2; 3]
        by (vm_compute; reflexivity)
  end.
  intros Hperm. apply (Permutation_in 7) in Hperm; [|simpl; tauto].
  apply in_one_to in Hperm. simpl in Hperm. lia.
Qed.

(** ** References are preserved *)

Lemma incl_map_delete_one {A B : Type} (f : A -> B) (q : A -> bool)
  (coll : list A) :
  incl (map f (delete_one q coll)) (map f coll).
Proof.
  intros b Hb. apply in_map_iff in Hb. destruct Hb as (a & <- & Ha).
  apply in_map. eapply in_delete_one; eassumption.
Qed.

Lemma incl_map_filter {A B : Type} (f : A -> B) (q : A -> bool)
  (coll : list A) :
  incl (map f (filter q coll)) (map f coll).
Proof.
  intros b Hb. apply in_map_iff in Hb. destruct Hb as (a & <- & Ha).
  apply in_map. apply filter_In in Ha. tauto.
Qed.

Lemma incl_app_left {A : Type} (l m extra : list A) :
  incl l m -> incl l (m ++ extra).
Proof. intros H a Ha. apply in_or_app. left. now apply H. Qed.

Lemma apply_set_user_keys (fs : list user_field) (u : User) :
  u_id (apply_set set_user_field fs u) = u_id u
  /\ u_email (apply_set set_user_field fs u) = u_email u
  /\ u_role (apply_set set_user_field fs u) = u_role u
  /\ u_createdAt (apply_set set_user_field fs u) = u_createdAt u.
Proof.
  unfold apply_set. revert u.
  induction fs as [|f fs IH]; intros u; simpl; [auto|].
  destruct (IH (set_user_field u f)) as (-> & -> & -> & ->).
  destruct f; simpl; auto.
Qed.

Lemma apply_set_material_creator (fs : list material_field) (m : Material) :
  creator_classroom (apply_set set_material_field fs m) = creator_classroom m.
Proof.
  unfold apply_set. revert m.
  induction fs as [|f fs IH]; intros m; simpl; [reflexivity|].
  rewrite IH. destruct f; reflexivity.
Qed.

Lemma apply_set_classroom_teacher (fs : list classroom_field) (c : Classroom) :
  teacher_classroom (apply_set set_classroom_field fs c) = teacher_classroom c.
Proof.
  unfold teacher_classroom.
  now destruct (apply_set_classroom_keys fs c) as (-> & _ & ->).
Qed.

Lemma users_extend_same (db db' : DB) :
  users db' = users db -> users_extend db db'.
Proof. intros E. exists []. now rewrite E, app_nil_r. Qed.

Lemma users_extend_trans (db1 db2 db3 : DB) :
  users_extend db1 db2 -> users_extend db2 db3 -> users_extend db1 db3.
Proof.
  intros [m1 E1] [m2 E2]. exists (m1 ++ m2). now rewrite E2, E1, app_assoc.
Qed.

(** Updating one user through [$set] keeps every user's id, email and
    role. *)
Lemma update_user_keys (q : User -> bool) (fs : list user_field)
  (us : list User) :
  map u_id (update_one q (apply_set set_user_field fs) us) = map u_id us
  /\ map u_email (update_one q (apply_set set_user_field fs) us)
     = map u_email us
  /\ map u_role (update_one q (apply_set set_user_field fs) us)
     = map u_role us
  /\ map id_role (update_one q (apply_set set_user_field fs) us)
     = map id_role us
  /\ map user_key (update_one q (apply_set set_user_field fs) us)
     = map user_key us.
Proof.
  repeat split; apply map_update_one; intros d;
    unfold id_role, user_key;
    destruct (apply_set_user_keys fs d) as (E1 & E2 & E3 & _);
    rewrite ?E1, ?E2, ?E3; reflexivity.
Qed.

Lemma referential_users_updated (db : DB) (q : User -> bool)
  (fs : list user_field) :
  referential db ->
  referential
    (with_users db (update_one q (apply_set set_user_field fs) (users db))).
Proof.
  intros [H1 H2 H3 H4 H5 H6 H7 H8 H9].
  destruct (update_user_keys q fs (users db)) as (E1 & E2 & E3 & E4 & _).
  constructor; cbn [users classrooms enrollments materials with_users];
    rewrite ?E1, ?E2, ?E3, ?E4; assumption.
Qed.

Lemma user_in_id_role (db : DB) (user : User) (role : string) :
  In user (users db) -> u_role user = role ->
  In (u_id user, role) (map id_role (users db)).
Proof.
  intros Hin <-. apply in_map_iff. exists user. auto.
Qed.

Lemma enrollment_clash_new (doc : Enrollment) (es : list Enrollment) :
  existsb (enrollment_clash doc) es = false ->
  ~ In (e_id doc) (map e_id es)
  /\ ~ In (student_classroom doc) (map student_classroom es).
Proof.
  intros H. split; intros Hin; apply in_map_iff in Hin;
    destruct Hin as (e & He & Hin);
    assert (E : existsb (enrollment_clash doc) es = true)
      by (apply existsb_exists; exists e; split; [assumption|];
          unfold enrollment_clash; unfold student_classroom in *;
          try (inversion He as [[Hs Hc]]; rewrite Hs, Hc);
          try rewrite He;
          rewrite ?String.eqb_refl; auto using orb_true_r);
    congruence.
Qed.

Lemma user_clash_new (doc : User) (us : list User) :
  existsb (user_clash doc) us = false ->
  ~ In (u_id doc) (map u_id us) /\ ~ In (u_email doc) (map u_email us).
Proof.
  intros H. split; intros Hin; apply in_map_iff in Hin;
    destruct Hin as (u & Hu & Hin);
    assert (E : existsb (user_clash doc) us = true)
      by (apply existsb_exists; exists u; split; [assumption|];
          unfold user_clash; rewrite Hu, String.eqb_refl;
          auto using orb_true_r);
    congruence.
Qed.

Lemma register_refs (secret : string) (db db' : DB) (data : UserCreate)
  (user_id : string) (now : timestamp) (salt : string) (r : AuthResponse) :
  register secret db data user_id now salt = Ok (db', r) ->
  referential db -> referential db' /\ users_extend db db'.
Proof.
  unfold register. cbv zeta. intros H [H1 H2 H3 H4 H5 H6 H7 H8 H9]. inv_ok.
  apply user_clash_new in Hfresh. cbn [u_id u_email] in Hfresh.
  destruct Hfresh as [Hid Hemail].
  apply negb_false_iff, str_in_iff in E0.
  split.
  - constructor; cbn [users classrooms enrollments materials with_users];
      try assumption.
    + apply NoDup_map_app_one; assumption.
    + apply NoDup_map_app_one; assumption.
    + rewrite map_app. apply Forall_app. split; [assumption|].
      constructor; [|constructor]. cbn [u_role].
      destruct E0 as [<-|[<-|[]]]; auto.
    + rewrite map_app. now apply incl_app_left.
    + rewrite map_app. now apply incl_app_left.
  - eexists. cbn [users with_users]. now rewrite map_app.
Qed.

Lemma update_profile_refs (db db' : DB) (data : UserUpdate) (user : User)
  (now : timestamp) (r : UserResponse) :
  update_profile db data user now = Ok (db', r) ->
  referential db -> referential db' /\ users_extend db db'.
Proof.
  unfold update_profile. cbv zeta. intros H Href. inv_ok.
  destruct (is_empty (profile_update_data data)).
  - split; [assumption | now apply users_extend_same].
  - split; [now apply referential_users_updated|].
    exists []. cbn [users with_users]. rewrite app_nil_r.
    apply update_user_keys.
Qed.

Lemma change_password_refs (db db' : DB) (data : PasswordChange) (user : User)
  (now : timestamp) (salt : string) (r : string) :
  change_password db data user now salt = Ok (db', r) ->
  referential db -> referential db' /\ users_extend db db'.
Proof.
  unfold change_password. cbv zeta. intros H Href. inv_ok.
  split; [now apply referential_users_updated|].
  exists []. cbn [users with_users]. rewrite app_nil_r.
  apply update_user_keys.
Qed.

Lemma create_classroom_refs (db db' : DB) (data : ClassroomCreate)
  (user : User) (classroom_id : string) (now : timestamp) (g : rng)
  (fuel : nat) (r : ClassroomView) :
  create_classroom db data user classroom_id now g fuel = Some (Ok (db', r)) ->
  In user (users db) ->
  referential db -> referential db' /\ users_extend db db'.
Proof.
  unfold create_classroom. intros H Huser [H1 H2 H3 H4 H5 H6 H7 H8 H9].
  destruct (String.eqb_spec (u_role user) TEACHER) as [Hrole|_];
    [|discriminate]. cbn [negb] in H.
  destruct (unique_code fuel g 0 (classrooms db)) as [code|]; [|discriminate].
  inversion H as [H']. clear H. inv_ok.
  split; [|now apply users_extend_same].
  constructor; cbn [users classrooms enrollments materials with_classrooms];
    try assumption.
  - rewrite map_app. now apply incl_app_left.
  - rewrite map_app. apply incl_app; [assumption|].
    intros p [<-|[]]. cbn [c_teacherId]. now apply user_in_id_role.
  - rewrite map_app. now apply incl_app_left.
Qed.

Lemma update_classroom_refs (db db' : DB) (id : string)
  (data : ClassroomUpdate) (user : User) (now : timestamp) (r : Classroom) :
  update_classroom db id data user now = Ok (db', r) ->
  referential db -> referential db' /\ users_extend db db'.
Proof.
  unfold update_classroom. cbv zeta. intros H Href. inv_ok.
  split; [|destruct (is_empty _); now apply users_extend_same].
  destruct (is_empty (classroom_update_data data)); [assumption|].
  destruct Href as [H1 H2 H3 H4 H5 H6 H7 H8 H9].
  set (fs := classroom_update_data data ++ [SetClassroomUpdatedAt now]).
  assert (Eid : map c_id (update_one (classroom_by_id id)
                  (apply_set set_classroom_field fs) (classrooms db))
                = map c_id (classrooms db))
    by (apply map_update_one; intros d; apply apply_set_classroom_keys).
  assert (Et : map (fun c => (c_teacherId c, TEACHER))
                 (update_one (classroom_by_id id)
                    (apply_set set_classroom_field fs) (classrooms db))
               = map (fun c => (c_teacherId c, TEACHER)) (classrooms db)).
  { apply map_update_one. intros d.
    now destruct (apply_set_classroom_keys fs d) as (_ & _ & ->). }
  assert (Etc : map teacher_classroom
                  (update_one (classroom_by_id id)
                     (apply_set set_classroom_field fs) (classrooms db))
                = map teacher_classroom (classrooms db))
    by (apply map_update_one; intros d; apply apply_set_classroom_teacher).
  constructor; cbn [users classrooms enrollments materials with_classrooms];
    rewrite ?Eid, ?Et, ?Etc; assumption.
Qed.

Lemma delete_classroom_refs (db db' : DB) (id : string) (user : User)
  (r : string) :
  delete_classroom db id user = Ok (db', r) ->
  referential db -> referential db' /\ users_extend db db'.
Proof.
  unfold delete_classroom. intros H [H1 H2 H3 H4 H5 H6 H7 H8 H9]. inv_ok.
  split; [|now apply users_extend_same].
  constructor; cbn; try assumption.
  - unfold delete_many. now apply NoDup_map_filter.
  - unfold delete_many. now apply NoDup_map_filter.
  - intros cid Hcid. apply in_map_iff in Hcid.
    destruct Hcid as (e & <- & He). unfold delete_many in He.
    apply filter_In in He. destruct He as [He Hq].
    assert (Hin : In (e_classroomId e) (map c_id (classrooms db)))
      by (apply H6; now apply in_map).
    apply in_map_iff in Hin. destruct Hin as (c & Ec & Hc).
    apply in_map_iff. exists c. split; [assumption|].
    apply in_delete_one_other; [assumption|].
    unfold classroom_by_id. rewrite Ec.
    unfold enrollment_by_classroom in Hq. now apply negb_true_iff in Hq.
  - eapply incl_tran; [apply incl_map_filter | exact H7].
  - eapply incl_tran; [apply incl_map_delete_one | exact H8].
  - intros p Hp. apply in_map_iff in Hp.
    destruct Hp as (m & <- & Hm). unfold delete_many in Hm.
    apply filter_In in Hm. destruct Hm as [Hm Hq].
    assert (Hin : In (creator_classroom m)
                     (map teacher_classroom (classrooms db)))
      by (apply H9; now apply in_map).
    apply in_map_iff in Hin. destruct Hin as (c & Ec & Hc).
    apply in_map_iff. exists c. split; [assumption|].
    apply in_delete_one_other; [assumption|].
    unfold classroom_by_id. unfold teacher_classroom, creator_classroom in Ec.
    assert (Eid : c_id c = m_classroomId m) by congruence. rewrite Eid.
    unfold material_by_classroom in Hq. now apply negb_true_iff in Hq.
Qed.

Lemma join_classroom_refs (db db' : DB) (code : string) (user : User)
  (enrollment_id : string) (now : timestamp) (r : Classroom) :
  join_classroom db code user enrollment_id now = Ok (db', r) ->
  In user (users db) ->
  referential db -> referential db' /\ users_extend db db'.
Proof.
  unfold join_classroom. cbv zeta.
  intros H Huser [H1 H2 H3 H4 H5 H6 H7 H8 H9]. inv_ok.
  apply enrollment_clash_new in Hfresh. destruct Hfresh as [Hid Hpair].
  apply negb_false_iff, String.eqb_eq in E.
  apply find_one_some in E0. destruct E0 as [Hc _].
  split; [|now apply users_extend_same].
  constructor; cbn [users classrooms enrollments materials with_enrollments];
    try assumption.
  - apply NoDup_map_app_one; assumption.
  - apply NoDup_map_app_one; assumption.
  - rewrite map_app. apply incl_app; [assumption|].
    intros cid [<-|[]]. cbn [e_classroomId]. now apply in_map.
  - rewrite map_app. apply incl_app; [assumption|].
    intros p [<-|[]]. cbn [e_studentId]. now apply user_in_id_role.
Qed.

Lemma leave_classroom_refs (db db' : DB) (id : string) (user : User)
  (r : string) :
  leave_classroom db id user = Ok (db', r) ->
  referential db -> referential db' /\ users_extend db db'.
Proof.
  unfold leave_classroom. cbv zeta.
  intros H [H1 H2 H3 H4 H5 H6 H7 H8 H9]. inv_ok.
  split; [|now apply users_extend_same].
  constructor; cbn [users classrooms enrollments materials with_enrollments];
    try assumption.
  - now apply NoDup_map_delete_one.
  - now apply NoDup_map_delete_one.
  - eapply incl_tran; [apply incl_map_delete_one | exact H6].
  - eapply incl_tran; [apply incl_map_delete_one | exact H7].
Qed.

Lemma create_material_refs (db db' : DB) (classroomId : string)
  (data : MaterialCreate) (user : User) (material_id : string)
  (now : timestamp) (r : MaterialView) :
  create_material db classroomId data user material_id now = Ok (db', r) ->
  referential db -> referential db' /\ users_extend db db'.
Proof.
  unfold create_material. cbv zeta.
  intros H [H1 H2 H3 H4 H5 H6 H7 H8 H9]. inv_ok.
  apply find_one_some in E. destruct E as [Hc Hq].
  unfold classroom_by_id in Hq. apply String.eqb_eq in Hq.
  apply negb_false_iff, String.eqb_eq in E0.
  split; [|now apply users_extend_same].
  constructor; cbn [users classrooms enrollments materials with_materials];
    try assumption.
  rewrite map_app. apply incl_app; [assumption|].
  intros p [<-|[]]. unfold creator_classroom.
  cbn [m_createdById m_classroomId].
  apply in_map_iff. exists a. split; [|assumption].
  unfold teacher_classroom. now rewrite E0, Hq.
Qed.

Lemma update_material_refs (db db' : DB) (id : string) (data : MaterialUpdate)
  (user : User) (now : timestamp) (r : MaterialView) :
  update_material db id data user now = Ok (db', r) ->
  referential db -> referential db' /\ users_extend db db'.
Proof.
  unfold update_material. cbv zeta. intros H Href. inv_ok.
  split; [|destruct (is_empty _); now apply users_extend_same].
  destruct (is_empty (material_update_data data)); [assumption|].
  destruct Href as [H1 H2 H3 H4 H5 H6 H7 H8 H9].
  constructor; cbn [users classrooms enrollments materials with_materials];
    try assumption.
  rewrite map_update_one; [assumption|].
  intros d. apply apply_set_material_creator.
Qed.

Lemma delete_material_refs (db db' : DB) (id : string) (user : User)
  (r : string) :
  delete_material db id user = Ok (db', r) ->
  referential db -> referential db' /\ users_extend db db'.
Proof.
  unfold delete_material. intros H [H1 H2 H3 H4 H5 H6 H7 H8 H9]. inv_ok.
  split; [|now apply users_extend_same].
  constructor; cbn [users classrooms enrollments materials with_materials];
    try assumption.
  eapply incl_tran; [apply incl_map_delete_one | exact H9].
Qed.

Lemma reorder_materials_refs (db db' : DB) (classroomId : string)
  (materialIds : list string) (user : User) (r : string) :
  reorder_materials db classroomId materialIds user = Ok (db', r) ->
  referential db -> referential db' /\ users_extend db db'.
Proof.
  unfold reorder_materials. intros H [H1 H2 H3 H4 H5 H6 H7 H8 H9]. inv_ok.
  split; [|now apply users_extend_same].
  constructor; cbn [users classrooms enrollments materials with_materials];
    try assumption.
  rewrite reorder_fold_keys; [assumption|].
  intros fs m. apply apply_set_material_creator.
Qed.

Lemma current_user_in (secret : string) (db : DB) (token : Token)
  (now : timestamp) (user : User) :
  get_current_user secret db token now = Ok user -> In user (users db).
Proof.
  unfold get_current_user.
  destruct (jwt_decode token secret now) as [payload|[|]];
    [|discriminate|discriminate].
  intros H. inv_ok. now apply find_one_some in H.
Qed.

Lemma as_user_refs {A : Type} (secret : string) (db : DB) (token : Token)
  (now : timestamp) (handler : User -> result (DB * A)) :
  referential db ->
  (forall user db' r, In user (users db) -> handler user = Ok (db', r) ->
     referential db' /\ users_extend db db') ->
  referential (as_user secret db token now handler)
  /\ users_extend db (as_user secret db token now handler).
Proof.
  intros Href Hh. unfold as_user.
  destruct (get_current_user secret db token now) as [user|e] eqn:Eu;
    [|split; [assumption | now apply users_extend_same]].
  apply current_user_in in Eu.
  destruct (handler user) as [[db' r]|e] eqn:E; simpl;
    [eauto | split; [assumption | now apply users_extend_same]].
Qed.

Lemma serve_refs (secret : string) (db db' : DB) (now : timestamp)
  (req : request) :
  referential db -> serve secret db now req = Some db' ->
  referential db' /\ users_extend db db'.
Proof.
  intros Href H. destruct req; simpl in H;
    try (inversion H; subst; clear H; apply as_user_refs; [assumption|];
         intros user db1 r Huser Hr).
  - inversion H; subst; clear H.
    destruct (register secret db data user_id now salt) as [[db1 r]|e] eqn:E;
      simpl; [eapply register_refs; eauto|].
    split; [assumption | now apply users_extend_same].
  - eapply update_profile_refs; eauto.
  - eapply change_password_refs; eauto.
  - destruct (get_current_user secret db token now) as [user|e] eqn:Eu.
    + apply current_user_in in Eu.
      destruct (create_classroom db data user classroom_id now g fuel)
        as [[[db1 r]|e]|] eqn:E; inversion H; subst; simpl.
      * eapply create_classroom_refs; eauto.
      * split; [assumption | now apply users_extend_same].
    + inversion H; subst. split; [assumption | now apply users_extend_same].
  - eapply update_classroom_refs; eauto.
  - eapply delete_classroom_refs; eauto.
  - eapply join_classroom_refs; eauto.
  - eapply leave_classroom_refs; eauto.
  - eapply create_material_refs; eauto.
  - eapply update_material_refs; eauto.
  - eapply delete_material_refs; eauto.
  - eapply reorder_materials_refs; eauto.
Qed.

Lemma empty_referential : referential empty_db.
Proof.
  constructor; simpl; try constructor; intros x [].
Qed.

Lemma reachable_referential (secret : string) (db : DB) :
  reachable secret db -> referential db.
Proof.
  induction 1 as [|db now req db' Hreach IH Hserve].
  - apply empty_referential.
  - now destruct (serve_refs secret db db' now req IH Hserve).
Qed.


(** X1: in every state the service reaches, no two users share an id or
    an email, and every user's role is TEACHER or STUDENT. *)
Theorem users_stay_unique (secret : string) (db : DB) :
  reachable secret db ->
  NoDup (map u_id (users db))
  /\ NoDup (map u_email (users db))
  /\ forall u, In u (users db) -> u_role u = TEACHER \/ u_role u = STUDENT.
Proof.
  intros Hreach.
  destruct (reachable_referential secret db Hreach)
    as [H1 H2 H3 _ _ _ _ _ _].
  repeat split; try assumption.
  intros u Hu. rewrite Forall_forall in H3. apply H3. now apply in_map.
Qed.

Lemma users_stay_unique_witness :
  reachable Scenario.secret Scenario.taught
  /\ map u_email (users Scenario.taught)
     = ["tina@school.org"; "sam@school.org"; "bea@school.org"]
  /\ NoDup (map u_email (users Scenario.taught)).
Proof.
  split; [exact taught_reachable|]. split; [vm_compute; reflexivity|].
  exact (proj1 (proj2 (users_stay_unique Scenario.secret Scenario.taught
                         taught_reachable))).
Defined.





(** ** Accounts *)

Lemma run_refs (secret : string) (requests : list (timestamp * request))
  (db db' : DB) :
  referential db -> run secret db requests = Some db' ->
  referential db' /\ users_extend db db'.
Proof.
  revert db. induction requests as [|[now req] rest IH]; intros db Href; simpl.
  - intros H. inversion H; subst. split; [assumption|].
    now apply users_extend_same.
  - destruct (serve secret db now req) as [db1|] eqn:E; [|discriminate].
    intros H. destruct (serve_refs secret db db1 now req Href E) as [R1 U1].
    destruct (IH db1 R1 H) as [R2 U2]. split; [assumption|].
    eapply users_extend_trans; eassumption.
Qed.

Lemma users_extend_in (db db' : DB) (u : User) :
  users_extend db db' -> In u (users db) ->
  exists u', In u' (users db') /\ user_key u' = user_key u.
Proof.
  intros [more E] Hu.
  assert (H : In (user_key u) (map user_key (users db')))
    by (rewrite E; apply in_or_app; left; now apply in_map).
  apply in_map_iff in H. destruct H as (u' & Hk & Hin). eauto.
Qed.

Lemma user_by_id_key (id : string) (a b : User) :
  user_by_id id a = true -> user_by_id id b = true -> u_id a = u_id b.
Proof. unfold user_by_id. rewrite !String.eqb_eq. congruence. Qed.

Lemma user_by_email_key (email : string) (a b : User) :
  user_by_email email a = true -> user_by_email email b = true ->
  u_email a = u_email b.
Proof. unfold user_by_email. rewrite !String.eqb_eq. congruence. Qed.

Lemma find_user (db : DB) (u : User) :
  NoDup (map u_id (users db)) -> In u (users db) ->
  find_one (user_by_id (u_id u)) (users db) = Some u.
Proof.
  intros Hnd Hin. apply (find_one_unique u_id); auto.
  - apply String.eqb_refl.
  - apply user_by_id_key.
Qed.

Lemma find_user_by_email (db : DB) (u : User) :
  NoDup (map u_email (users db)) -> In u (users db) ->
  find_one (user_by_email (u_email u)) (users db) = Some u.
Proof.
  intros Hnd Hin. apply (find_one_unique u_email); auto.
  - apply String.eqb_refl.
  - apply user_by_email_key.
Qed.

(** A token issued for a user is accepted until it expires, as long as
    the user is found. *)
Lemma token_accepted (secret : string) (db : DB) (u : User)
  (issued later : timestamp) (email role : string) :
  find_one (user_by_id (u_id u)) (users db) = Some u ->
  later < issued + 24 * 3600 ->
  get_current_user secret db (create_token secret issued (u_id u) email role)
    later
  = Ok u.
Proof.
  intros Hfind Hlater.
  unfold get_current_user, create_token, jwt_encode, jwt_decode.
  rewrite String.eqb_refl. cbn [negb p_exp]. unfold JWT_EXPIRATION_HOURS.
  destruct (Z.leb_spec (issued + 24 * 3600) later) as [Hle|_]; [lia|].
  cbn [p_sub]. handler. now rewrite Hfind.
Qed.

(** X4: the token that [register] returned keeps resolving to the
    registered user, with the same id, email and role, after any sequence of
    further requests, until it expires: no request removes a user or changes
    a user's id, email or role. *)
Theorem token_survives_requests (secret : string) (db db1 db2 : DB)
  (data : UserCreate) (user_id : string) (now : timestamp) (salt : string)
  (response : AuthResponse) (requests : list (timestamp * request))
  (later : timestamp) :
  reachable secret db ->
  register secret db data user_id now salt = Ok (db1, response) ->
  run secret db1 requests = Some db2 ->
  later < now + 24 * 3600 ->
  exists user,
    get_current_user secret db2 (ar_token response) later = Ok user
    /\ u_id user = user_id
    /\ u_email user = uc_email data
    /\ u_role user = uc_role data.
Proof.
  intros Hreach Hreg Hrun Hlater.
  pose proof (reachable_referential secret db Hreach) as Href.
  destruct (register_refs _ _ _ _ _ _ _ _ Hreg Href) as [Href1 _].
  destruct (run_refs _ _ _ _ Href1 Hrun) as [Href2 Hext].
  unfold register in Hreg. cbv zeta in Hreg. inv_ok.
  cbn [ar_token].
  set (doc := mkUser user_id (uc_email data)
                (hash_password salt (uc_password data)) (uc_name data)
                (uc_role data) None now now) in *.
  destruct (users_extend_in _ _ doc Hext) as (u & Hu & Hkey).
  { cbn [users with_users]. apply in_or_app. right. now left. }
  unfold user_key in Hkey. cbn [doc u_id u_email u_role] in Hkey.
  inversion Hkey as [[Hid Hemail Hrole]].
  exists u. repeat split; try assumption.
  apply token_accepted; [|assumption].
  apply find_user; [apply Href2 | assumption].
Qed.

Lemma token_survives_requests_witness :
  reachable Scenario.secret empty_db
  /\ exists user,
       get_current_user Scenario.secret Scenario.taught
         (Scenario.token_of Scenario.tina) 80000
       = Ok user
       /\ u_id user = "u-tina".
Proof.
  split; [constructor|].
  destruct (token_survives_requests Scenario.secret empty_db
              (db_of (run Scenario.secret empty_db
                        [(1000, Register Scenario.tina_signup "u-tina" "s1")]))
              Scenario.taught Scenario.tina_signup "u-tina" 1000 "s1"
              (mkAuthResponse (user_response Scenario.tina)
                 (Scenario.token_of Scenario.tina))
              (tl Scenario.teaching) 80000)
    as (user & Huser & Hid & _).
  - constructor.
  - vm_compute. reflexivity.
  - vm_compute. reflexivity.
  - lia.
  - exists user. split; assumption.
Defined.

(** X5: [get_current_user] returns a user only for a token signed under
    the service's secret, not yet expired, whose subject is the id of that
    user, and the user is one of the database; a token signed under any
    other key is refused with 401, as is an expired one. *)
Theorem current_user_is_token_subject (secret : string) (db : DB)
  (now : timestamp) :
  (forall token user,
     get_current_user secret db token now = Ok user ->
     exists payload,
       token = Signed secret payload
       /\ now < p_exp payload
       /\ p_sub payload = Some (u_id user)
       /\ In user (users db))
  /\ (forall key payload,
        key <> secret ->
        get_current_user secret db (Signed key payload) now
        = Err (HTTPException 401 "Invalid token"))
  /\ (forall payload,
        p_exp payload <= now ->
        get_current_user secret db (Signed secret payload) now
        = Err (HTTPException 401 "Token expired")).
Proof.
  split; [|split].
  - intros token user. unfold get_current_user, jwt_decode.
    destruct token as [key payload|raw]; [|discriminate].
    destruct (String.eqb_spec key secret) as [->|Hne]; cbn [negb];
      [|discriminate].
    destruct (Z.leb_spec (p_exp payload) now) as [Hle|Hlt]; [discriminate|].
    intros H. inv_ok. apply find_one_some in H. destruct H as [Hin Hq].
    unfold user_by_id in Hq. apply String.eqb_eq in Hq.
    exists payload. repeat split; try assumption. now rewrite E, Hq.
  - intros key payload Hne. unfold get_current_user, jwt_decode.
    destruct (String.eqb_spec key secret) as [E|_]; [contradiction|].
    reflexivity.
  - intros payload Hexp. unfold get_current_user, jwt_decode.
    rewrite String.eqb_refl. cbn [negb].
    destruct (Z.leb_spec (p_exp payload) now) as [_|Hlt]; [reflexivity | lia].
Qed.

Lemma current_user_is_token_subject_witness :
  get_current_user Scenario.secret Scenario.taught
    (Scenario.token_of Scenario.sam) 2000 = Ok Scenario.sam
  /\ exists payload,
       Scenario.token_of Scenario.sam = Signed Scenario.secret payload
       /\ 2000 < p_exp payload
       /\ p_sub payload = Some "u-sam".
Proof.
  assert (H : get_current_user Scenario.secret Scenario.taught
                (Scenario.token_of Scenario.sam) 2000 = Ok Scenario.sam)
    by (vm_compute; reflexivity).
  split; [exact H|].
  destruct (proj1 (current_user_is_token_subject Scenario.secret
                     Scenario.taught 2000) _ _ H)
    as (payload & Htok & Hexp & Hsub & _).
  exists payload. repeat split; assumption.
Defined.


(** X6: with emails and ids unique, [login] succeeds exactly when the user
    who holds the email has the given password: it then returns that user
    and a token that [get_current_user] resolves to that user until it
    expires. A wrong password and an email nobody holds are answered alike,
    401 "Invalid credentials". *)
Theorem login_cases (secret : string) (db : DB) (data : UserLogin)
  (now : timestamp) :
  NoDup (map u_id (users db)) ->
  NoDup (map u_email (users db)) ->
  (forall u,
     In u (users db) -> u_email u = ul_email data ->
     (verify_password (ul_password data) (u_password u) = true ->
      exists token,
        login secret db data now = Ok (mkAuthResponse (user_response u) token)
        /\ forall later, later < now + 24 * 3600 ->
             get_current_user secret db token later = Ok u)
     /\ (verify_password (ul_password data) (u_password u) = false ->
         login secret db data now
         = Err (HTTPException 401 "Invalid credentials")))
  /\ ((forall u, In u (users db) -> u_email u <> ul_email data) ->
      login secret db data now
      = Err (HTTPException 401 "Invalid credentials")).
Proof.
  intros Hids Hemails. split.
  - intros u Hu Hemail.
    pose proof (find_user_by_email db u Hemails Hu) as Fu.
    rewrite Hemail in Fu. split.
    + intros Hpw. eexists. split.
      * unfold login. rewrite Fu. handler. rewrite Hpw. reflexivity.
      * intros later Hlater. apply token_accepted; [|assumption].
        now apply find_user.
    + intros Hpw. unfold login. rewrite Fu. handler. now rewrite Hpw.
  - intros Hnone. unfold login.
    rewrite find_one_none_intro; [reflexivity|].
    intros u Hu. unfold user_by_email. apply String.eqb_neq. now apply Hnone.
Qed.

Lemma login_cases_witness :
  In Scenario.sam (users Scenario.taught)
  /\ verify_password "pencil" (u_password Scenario.sam) = true
  /\ (exists token,
        login Scenario.secret Scenario.taught
          (mkUserLogin "sam@school.org" "pencil") 7000
        = Ok (mkAuthResponse (user_response Scenario.sam) token))
  /\ login Scenario.secret Scenario.taught
       (mkUserLogin "sam@school.org" "pen") 7000
     = Err (HTTPException 401 "Invalid credentials").
Proof.
  assert (Hsam : In Scenario.sam (users Scenario.taught))
    by (apply nth_error_In with (n := 1%nat); vm_compute; reflexivity).
  assert (Hids : NoDup (map u_id (users Scenario.taught)))
    by concrete_nodup.
  assert (Hemails : NoDup (map u_email (users Scenario.taught)))
    by concrete_nodup.
  split; [exact Hsam|]. split; [reflexivity|]. split.
  - destruct (proj1 (login_cases Scenario.secret Scenario.taught
                       (mkUserLogin "sam@school.org" "pencil") 7000
                       Hids Hemails) Scenario.sam Hsam eq_refl)
      as [Hok _].
    destruct (Hok eq_refl) as (token & Hlogin & _).
    exists token. exact Hlogin.
  - vm_compute. reflexivity.
Defined.

(** X7: once [register] has succeeded for an email, every later
    registration with that email is refused with 400 "Email already
    registered", whatever else it carries and whatever requests were served
    in between. *)
Theorem register_twice_refused (secret : string) (db db1 db2 : DB)
  (data data' : UserCreate) (user_id user_id' : string)
  (now now' : timestamp) (salt salt' : string) (response : AuthResponse)
  (requests : list (timestamp * request)) :
  reachable secret db ->
  register secret db data user_id now salt = Ok (db1, response) ->
  run secret db1 requests = Some db2 ->
  uc_email data' = uc_email data ->
  register secret db2 data' user_id' now' salt'
  = Err (HTTPException 400 "Email already registered").
Proof.
  intros Hreach Hreg Hrun Hemail.
  pose proof (reachable_referential secret db Hreach) as Href.
  destruct (register_refs _ _ _ _ _ _ _ _ Hreg Href) as [Href1 _].
  destruct (run_refs _ _ _ _ Href1 Hrun) as [Href2 Hext].
  unfold register in Hreg. cbv zeta in Hreg. inv_ok.
  set (doc := mkUser user_id (uc_email data)
                (hash_password salt (uc_password data)) (uc_name data)
                (uc_role data) None now now) in *.
  destruct (users_extend_in _ _ doc Hext) as (u & Hu & Hkey).
  { cbn [users with_users]. apply in_or_app. right. now left. }
  unfold user_key in Hkey. cbn [doc u_id u_email u_role] in Hkey.
  assert (Hue : u_email u = uc_email data') by congruence.
  destruct (find_one_exists (user_by_email (uc_email data')) (users db2) u Hu)
    as (u' & Hfind).
  { unfold user_by_email. rewrite Hue. apply String.eqb_refl. }
  unfold register. rewrite Hfind. reflexivity.
Qed.

Lemma register_twice_refused_witness :
  reachable Scenario.secret empty_db
  /\ register Scenario.secret Scenario.taught
       (mkUserCreate "tina@school.org" "other" "Tina Two" STUDENT)
       "u-tina-2" 9000 "s9"
     = Err (HTTPException 400 "Email already registered").
Proof.
  split; [constructor|].
  apply (register_twice_refused Scenario.secret empty_db
           (db_of (run Scenario.secret empty_db
                     [(1000, Register Scenario.tina_signup "u-tina" "s1")]))
           Scenario.taught Scenario.tina_signup
           (mkUserCreate "tina@school.org" "other" "Tina Two" STUDENT)
           "u-tina" "u-tina-2" 1000 9000 "s1" "s9"
           (mkAuthResponse (user_response Scenario.tina)
              (Scenario.token_of Scenario.tina))
           (tl Scenario.teaching)).
  - constructor.
  - vm_compute. reflexivity.
  - vm_compute. reflexivity.
  - reflexivity.
Defined.



(** ** Reading classrooms *)

Lemma student_is_no_teacher (user : User) :
  u_role user <> TEACHER -> String.eqb (u_role user) TEACHER = false.
Proof. intros H. now apply String.eqb_neq. Qed.

Lemma enrolled_iff (db : DB) (sid cid : string) :
  is_some (find_one (enrollment_of sid cid) (enrollments db)) = true
  <-> exists e, In e (enrollments db)
                /\ e_studentId e = sid /\ e_classroomId e = cid.
Proof.
  split; [|apply find_enrollment].
  destruct (find_one (enrollment_of sid cid) (enrollments db)) as [e|] eqn:E;
    [|discriminate].
  intros _. apply find_one_some in E. destruct E as [Hin Hq].
  unfold enrollment_of in Hq. apply andb_true_iff in Hq.
  destruct Hq as [H1 H2]. apply String.eqb_eq in H1, H2. eauto.
Qed.

(** Who may read a classroom: its teacher, or a caller of another role
    who is enrolled in it. *)
Lemma get_classroom_granted (db : DB) (c : Classroom) (user : User) :
  NoDup (map c_id (classrooms db)) -> In c (classrooms db) ->
  (u_role user = TEACHER /\ c_teacherId c = u_id user)
  \/ (u_role user <> TEACHER
      /\ exists e, In e (enrollments db)
                   /\ e_studentId e = u_id user
                   /\ e_classroomId e = c_id c) ->
  get_classroom db (c_id c) user = Ok (classroom_view db c).
Proof.
  intros Hcs Hc Hauth. unfold get_classroom.
  rewrite (find_classroom db c Hcs Hc). handler.
  destruct Hauth as [[Hrole Howner]|[Hrole Henrolled]].
  - rewrite Hrole, String.eqb_refl.
    replace (String.eqb (c_teacherId c) (u_id user)) with true
      by (symmetry; now apply String.eqb_eq).
    reflexivity.
  - rewrite (student_is_no_teacher user Hrole).
    rewrite (find_enrollment db _ _ Henrolled). reflexivity.
Qed.

(** X9: [get_classroom] answers 404 when no classroom has the id, before
    any question of access; for a classroom that exists it returns the
    classroom with its current numbers of enrollments and materials to its
    teacher and to an enrolled caller of another role, and 403 to everyone
    else, a teacher who does not own it included. *)
Theorem get_classroom_cases (db : DB) (id : string) (user : User) :
  NoDup (map c_id (classrooms db)) ->
  ((forall c, In c (classrooms db) -> c_id c <> id) ->
   get_classroom db id user = Err (HTTPException 404 "Classroom not found"))
  /\ (forall c,
        In c (classrooms db) -> c_id c = id ->
        (u_role user = TEACHER -> c_teacherId c = u_id user ->
         get_classroom db id user = Ok (classroom_view db c))
        /\ (u_role user = TEACHER -> c_teacherId c <> u_id user ->
            get_classroom db id user
            = Err (HTTPException 403 "Not authorized"))
        /\ (u_role user <> TEACHER ->
            (exists e, In e (enrollments db)
                       /\ e_studentId e = u_id user /\ e_classroomId e = id) ->
            get_classroom db id user = Ok (classroom_view db c))
        /\ (u_role user <> TEACHER ->
            ~ (exists e, In e (enrollments db)
                         /\ e_studentId e = u_id user
                         /\ e_classroomId e = id) ->
            get_classroom db id user
            = Err (HTTPException 403 "Not enrolled in this classroom"))).
Proof.
  intros Hcs. split.
  - intros Hnone. unfold get_classroom.
    now rewrite (find_no_classroom db id Hnone).
  - intros c Hc <-. repeat split.
    + intros Hrole Howner. apply get_classroom_granted; auto.
    + intros Hrole Hother. unfold get_classroom.
      rewrite (find_classroom db c Hcs Hc). handler.
      rewrite Hrole, String.eqb_refl.
      apply String.eqb_neq in Hother. now rewrite Hother.
    + intros Hrole Henrolled. apply get_classroom_granted; auto.
    + intros Hrole Hnot. unfold get_classroom.
      rewrite (find_classroom db c Hcs Hc). handler.
      rewrite (student_is_no_teacher user Hrole).
      destruct (is_some (find_one (enrollment_of (u_id user) (c_id c))
                           (enrollments db))) eqn:E; [|reflexivity].
      apply enrolled_iff in E. contradiction.
Qed.

Lemma get_classroom_cases_witness :
  In Scenario.bio (classrooms Scenario.taught)
  /\ get_classroom Scenario.taught "c-bio" Scenario.sam
     = Ok (mkClassroomView Scenario.bio 1 3
             (Some ("u-tina", "Tina", "tina@school.org")))
  /\ get_classroom Scenario.taught "c-bio" Scenario.bea
     = Err (HTTPException 403 "Not enrolled in this classroom").
Proof.
  assert (Hc : In Scenario.bio (classrooms Scenario.taught))
    by (apply nth_error_In with (n := 0%nat); vm_compute; reflexivity).
  assert (Hcs : NoDup (map c_id (classrooms Scenario.taught)))
    by concrete_nodup.
  destruct (proj2 (get_classroom_cases Scenario.taught "c-bio" Scenario.bea
                     Hcs) Scenario.bio Hc eq_refl)
    as (_ & _ & _ & Hrefused).
  split; [exact Hc|]. split; [vm_compute; reflexivity|].
  apply Hrefused; [discriminate|].
  intros (e & He & Hs & _). vm_compute in He.
  destruct He as [<-|[]]. discriminate.
Defined.

(** X10: [get_classrooms] never shows a caller a classroom of somebody
    else: a TEACHER sees only classrooms whose teacherId is the caller's id,
    any other caller only classrooms the caller is enrolled in; the answer
    holds at most 100 classrooms, each with its current counts, and
    [get_classroom] grants the caller each of them. A teacher who owns at
    most 100 classrooms sees all of them. *)
Theorem get_classrooms_sound (db : DB) (user : User) :
  NoDup (map c_id (classrooms db)) ->
  (List.length (get_classrooms db user) <= 100)%nat
  /\ (forall v, In v (get_classrooms db user) ->
        In (cv_classroom v) (classrooms db)
        /\ v = classroom_view db (cv_classroom v)
        /\ (u_role user = TEACHER ->
            c_teacherId (cv_classroom v) = u_id user)
        /\ (u_role user <> TEACHER ->
            exists e, In e (enrollments db)
                      /\ e_studentId e = u_id user
                      /\ e_classroomId e = c_id (cv_classroom v))
        /\ get_classroom db (c_id (cv_classroom v)) user = Ok v)
  /\ (u_role user = TEACHER ->
      (count_documents (classroom_by_teacher (u_id user)) (classrooms db)
       <= 100)%nat ->
      forall c, In c (classrooms db) -> c_teacherId c = u_id user ->
        In (classroom_view db c) (get_classrooms db user)).
Proof.
  intros Hcs. split; [|split].
  - unfold get_classrooms. rewrite length_map.
    destruct (String.eqb (u_role user) TEACHER); unfold to_list;
      apply firstn_le_length.
  - intros v Hv. unfold get_classrooms in Hv.
    apply in_map_iff in Hv. destruct Hv as (c & <- & Hc).
    cbn [cv_classroom classroom_view].
    assert (Hfacts :
      In c (classrooms db)
      /\ (u_role user = TEACHER -> c_teacherId c = u_id user)
      /\ (u_role user <> TEACHER ->
          exists e, In e (enrollments db)
                    /\ e_studentId e = u_id user
                    /\ e_classroomId e = c_id c)).
    { destruct (String.eqb_spec (u_role user) TEACHER) as [Hrole|Hrole].
      - apply in_firstn in Hc. apply filter_In in Hc.
        destruct Hc as [Hin Hq]. unfold classroom_by_teacher in Hq.
        apply String.eqb_eq in Hq. repeat split; auto. contradiction.
      - apply in_firstn in Hc. apply filter_In in Hc.
        destruct Hc as [Hin Hq]. unfold classroom_id_in in Hq.
        apply str_in_iff in Hq. apply in_map_iff in Hq.
        destruct Hq as (e & He & Hine). apply in_firstn in Hine.
        apply filter_In in Hine. destruct Hine as [Hine Hs].
        unfold enrollment_by_student in Hs. apply String.eqb_eq in Hs.
        repeat split; auto; [contradiction | eauto]. }
    destruct Hfacts as (Hin & Hteacher & Hstudent).
    repeat split; auto.
    apply get_classroom_granted; auto.
    destruct (String.eqb_spec (u_role user) TEACHER) as [Hrole|Hrole];
      [left | right]; auto.
  - intros Hrole Hcount c Hc Howner. unfold get_classrooms.
    rewrite Hrole, String.eqb_refl. apply in_map.
    unfold to_list, count_documents in *. rewrite firstn_all2 by exact Hcount.
    apply filter_In. split; [assumption|].
    unfold classroom_by_teacher. rewrite Howner. apply String.eqb_refl.
Qed.

Lemma get_classrooms_sound_witness :
  NoDup (map c_id (classrooms Scenario.taught))
  /\ get_classrooms Scenario.taught Scenario.sam
     = [mkClassroomView Scenario.bio 1 3
          (Some ("u-tina", "Tina", "tina@school.org"))]
  /\ get_classrooms Scenario.taught Scenario.bea = []
  /\ (List.length (get_classrooms Scenario.taught Scenario.sam) <= 100)%nat.
Proof.
  assert (Hcs : NoDup (map c_id (classrooms Scenario.taught)))
    by concrete_nodup.
  split; [exact Hcs|]. split; [vm_compute; reflexivity|].
  split; [vm_compute; reflexivity|].
  exact (proj1 (get_classrooms_sound Scenario.taught Scenario.sam Hcs)).
Defined.

(** ** The students of a classroom *)

Lemma student_entry_length (db : DB) (e : Enrollment) :
  (List.length (student_entry db e) <= 1)%nat.
Proof.
  unfold student_entry.
  destruct (find_one (user_by_id (e_studentId e)) (users db)); simpl; lia.
Qed.

Lemma flat_map_length_le {A B : Type} (f : A -> list B) (l : list A) :
  (forall a, (List.length (f a) <= 1)%nat) ->
  (List.length (flat_map f l) <= List.length l)%nat.
Proof.
  intros Hf. induction l as [|a l IH]; simpl; [lia|].
  rewrite length_app. specialize (Hf a). lia.
Qed.

Lemma student_entry_in (db : DB) (e : Enrollment) (s : StudentView) :
  In s (student_entry db e) ->
  sv_joinedAt s = e_joinedAt e
  /\ exists u, In u (users db)
               /\ u_id u = e_studentId e
               /\ sv_id s = u_id u
               /\ sv_email s = u_email u
               /\ sv_name s = u_name u
               /\ sv_avatar s = u_avatar u.
Proof.
  unfold student_entry.
  destruct (find_one (user_by_id (e_studentId e)) (users db)) as [u|] eqn:E;
    [|intros []].
  intros [<-|[]]. apply find_one_some in E. destruct E as [Hin Hq].
  unfold user_by_id in Hq. apply String.eqb_eq in Hq.
  split; [reflexivity|]. exists u. repeat split; auto.
Qed.

(** X11: [get_classroom_students] answers only the classroom's teacher
    (403 otherwise). Its list has at most 100 entries, and every entry is a
    user of the database enrolled in that classroom, shown with that user's
    id, email, name and avatar and the enrollment's joinedAt. When the
    classroom has at most 100 enrollments, every enrolled user is
    listed. *)
Theorem classroom_students_sound (db : DB) (c : Classroom) (user : User) :
  NoDup (map c_id (classrooms db)) ->
  In c (classrooms db) ->
  (c_teacherId c <> u_id user ->
   get_classroom_students db (c_id c) user
   = Err (HTTPException 403 "Not authorized"))
  /\ (c_teacherId c = u_id user ->
      exists l,
        get_classroom_students db (c_id c) user = Ok l
        /\ (List.length l <= 100)%nat
        /\ (forall s, In s l ->
              exists e u,
                In e (enrollments db)
                /\ e_classroomId e = c_id c
                /\ e_joinedAt e = sv_joinedAt s
                /\ In u (users db)
                /\ u_id u = e_studentId e
                /\ sv_id s = u_id u
                /\ sv_email s = u_email u
                /\ sv_name s = u_name u
                /\ sv_avatar s = u_avatar u)
        /\ ((count_documents (enrollment_by_classroom (c_id c))
               (enrollments db) <= 100)%nat ->
            forall e u,
              In e (enrollments db) -> e_classroomId e = c_id c ->
              In u (users db) -> u_id u = e_studentId e ->
              exists s, In s l
                        /\ sv_id s = u_id u
                        /\ sv_joinedAt s = e_joinedAt e)).
Proof.
  intros Hcs Hc.
  pose proof (find_classroom db c Hcs Hc) as Fc. split.
  - intros Hother. unfold get_classroom_students. rewrite Fc. handler.
    apply String.eqb_neq in Hother. now rewrite Hother.
  - intros Howner. unfold get_classroom_students. rewrite Fc. handler.
    rewrite Howner, String.eqb_refl. handler.
    eexists. split; [reflexivity|]. split; [|split].
    + eapply Nat.le_trans;
        [apply flat_map_length_le; apply student_entry_length|].
      unfold to_list. apply firstn_le_length.
    + intros s Hs. apply in_flat_map in Hs. destruct Hs as (e & He & Hs).
      apply in_firstn in He. apply filter_In in He. destruct He as [He Hq].
      unfold enrollment_by_classroom in Hq. apply String.eqb_eq in Hq.
      apply student_entry_in in Hs. destruct Hs as (Hj & u & Hu & Hrest).
      exists e, u. repeat split; auto; apply Hrest.
    + intros Hcount e u He Hcid Hu Hid.
      unfold to_list, count_documents in *.
      rewrite firstn_all2 by exact Hcount.
      destruct (find_one_exists (user_by_id (e_studentId e)) (users db) u Hu)
        as (u' & Hfind).
      { unfold user_by_id. rewrite Hid. apply String.eqb_refl. }
      pose proof (find_one_some _ _ _ Hfind) as [_ Hq].
      unfold user_by_id in Hq. apply String.eqb_eq in Hq.
      exists (mkStudentView (u_id u') (u_email u') (u_name u') (u_avatar u')
                (e_joinedAt e)).
      split; [|split; [cbn; congruence | reflexivity]].
      apply in_flat_map. exists e. split.
      * apply filter_In. split; [assumption|].
        unfold enrollment_by_classroom. rewrite Hcid. apply String.eqb_refl.
      * unfold student_entry. rewrite Hfind. now left.
Qed.

Lemma classroom_students_sound_witness :
  In Scenario.bio (classrooms Scenario.taught)
  /\ c_teacherId Scenario.bio = u_id Scenario.tina
  /\ get_classroom_students Scenario.taught "c-bio" Scenario.tina
     = Ok [mkStudentView "u-sam" "sam@school.org" "Sam" None 1020]
  /\ get_classroom_students Scenario.taught "c-bio" Scenario.sam
     = Err (HTTPException 403 "Not authorized").
Proof.
  assert (Hc : In Scenario.bio (classrooms Scenario.taught))
    by (apply nth_error_In with (n := 0%nat); vm_compute; reflexivity).
  assert (Hcs : NoDup (map c_id (classrooms Scenario.taught)))
    by concrete_nodup.
  destruct (classroom_students_sound Scenario.taught Scenario.bio Scenario.sam
              Hcs Hc) as [Hrefused _].
  split; [exact Hc|]. split; [reflexivity|].
  split; [vm_compute; reflexivity|].
  apply Hrefused. discriminate.
Defined.

(** ** Leaving a classroom *)

Lemma delete_one_app_new {A : Type} (q : A -> bool) (coll : list A) (d : A) :
  find_one q coll = None -> q d = true ->
  delete_one q (coll ++ [d]) = coll.
Proof.
  unfold find_one. induction coll as [|x rest IH]; simpl; intros Hnone Hq.
  - now rewrite Hq.
  - destruct (q x); [discriminate|]. now rewrite IH.
Qed.

Lemma existsb_app_new {A : Type} (q : A -> bool) (coll : list A) (d : A) :
  q d = true -> existsb q (coll ++ [d]) = true.
Proof.
  intros Hq. rewrite existsb_app. simpl. rewrite Hq.
  now rewrite orb_true_r.
Qed.

(** X12: [leave_classroom] undoes [join_classroom]: leaving the classroom
    one has just joined gives back the database as it was before the join.
    A caller who is not a student is refused with 403, and a student who is
    not enrolled in the classroom with 404. *)
Theorem join_then_leave (db db1 : DB) (code : string) (user : User)
  (enrollment_id : string) (now : timestamp) (c : Classroom) :
  (join_classroom db code user enrollment_id now = Ok (db1, c) ->
   leave_classroom db1 (c_id c) user = Ok (db, "Left classroom"))
  /\ (forall id,
        u_role user <> STUDENT ->
        leave_classroom db id user
        = Err (HTTPException 403 "Only students can leave classrooms"))
  /\ (forall id,
        u_role user = STUDENT ->
        (forall e, In e (enrollments db) ->
           ~ (e_studentId e = u_id user /\ e_classroomId e = id)) ->
        leave_classroom db id user
        = Err (HTTPException 404 "Not enrolled in this classroom")).
Proof.
  split; [|split].
  - unfold join_classroom. cbv zeta. intros H. inv_ok.
    apply negb_false_iff in E.
    destruct (find_one (enrollment_of (u_id user) (c_id c)) (enrollments db))
      eqn:Hnone; [discriminate|].
    set (e := mkEnrollment enrollment_id (u_id user) (c_id c) now).
    assert (Hq : enrollment_of (u_id user) (c_id c) e = true)
      by (unfold enrollment_of; cbn; now rewrite !String.eqb_refl).
    unfold leave_classroom. rewrite E. handler. cbv zeta.
    cbn [enrollments with_enrollments]. unfold deleted_count.
    rewrite (existsb_app_new _ _ e Hq). handler.
    rewrite (delete_one_app_new _ _ e Hnone Hq).
    destruct db. reflexivity.
  - intros id Hrole. unfold leave_classroom.
    apply String.eqb_neq in Hrole. now rewrite Hrole.
  - intros id Hrole Hnot. unfold leave_classroom.
    rewrite Hrole, String.eqb_refl. handler. cbv zeta. unfold deleted_count.
    replace (existsb (enrollment_of (u_id user) id) (enrollments db))
      with false; [reflexivity|].
    symmetry. apply not_true_is_false. intros H.
    apply existsb_exists in H. destruct H as (e & He & Hq).
    apply (Hnot e He). unfold enrollment_of in Hq.
    apply andb_true_iff in Hq. destruct Hq as [H1 H2].
    apply String.eqb_eq in H1, H2. auto.
Qed.

Lemma join_then_leave_witness :
  join_classroom Scenario.founded "abcdef" Scenario.sam "e-sam" 1020
  = Ok (Scenario.opened, Scenario.bio)
  /\ leave_classroom Scenario.opened "c-bio" Scenario.sam
     = Ok (Scenario.founded, "Left classroom").
Proof.
  assert (Hjoin : join_classroom Scenario.founded "abcdef" Scenario.sam
                    "e-sam" 1020
                  = Ok (Scenario.opened, Scenario.bio))
    by (vm_compute; reflexivity).
  split; [exact Hjoin|].
  exact (proj1 (join_then_leave Scenario.founded Scenario.opened "abcdef"
                  Scenario.sam "e-sam" 1020 Scenario.bio) Hjoin).
Defined.

Lemma enrollment_of_key (sid cid : string) (a b : Enrollment) :
  enrollment_of sid cid a = true -> enrollment_of sid cid b = true ->
  student_classroom a = student_classroom b.
Proof.
  unfold enrollment_of, student_classroom. rewrite !andb_true_iff.
  rewrite !String.eqb_eq. intros [-> ->] [-> ->]. reflexivity.
Qed.

(** X13: leaving revokes access. After a student has left a classroom
    (enrollments being unique per student and classroom), no enrollment of
    the student in it remains, [get_classroom], [get_materials] and
    [get_material] on its materials no longer answer the student, and the
    enrollments of everybody else are untouched. *)
Theorem leave_revokes_access (db db' : DB) (id : string) (user : User)
  (message : string) :
  NoDup (map student_classroom (enrollments db)) ->
  NoDup (map m_id (materials db)) ->
  leave_classroom db id user = Ok (db', message) ->
  (forall e, In e (enrollments db') ->
     ~ (e_studentId e = u_id user /\ e_classroomId e = id))
  /\ (forall e, In e (enrollments db) ->
        ~ (e_studentId e = u_id user /\ e_classroomId e = id) ->
        In e (enrollments db'))
  /\ (forall view, get_classroom db' id user <> Ok view)
  /\ (forall views, get_materials db' id user <> Ok views)
  /\ (forall m view,
        In m (materials db') -> m_classroomId m = id ->
        get_material db' (m_id m) user <> Ok view).
Proof.
  intros Hpairs Hms H. unfold leave_classroom in H. cbv zeta in H. inv_ok.
  apply negb_false_iff, String.eqb_eq in E.
  assert (Hrole : String.eqb (u_role user) TEACHER = false)
    by (rewrite E; reflexivity).
  assert (Hnone : find_one (enrollment_of (u_id user) id)
                    (delete_one (enrollment_of (u_id user) id)
                       (enrollments db)) = None).
  { apply (find_one_delete_one_none student_classroom); [assumption|].
    apply enrollment_of_key. }
  split; [|split; [|split; [|split]]].
  - intros e He [Hs Hc]. cbn [enrollments with_enrollments] in He.
    pose proof (find_one_none _ _ Hnone e He) as Hq.
    unfold enrollment_of in Hq. now rewrite Hs, Hc, !String.eqb_refl in Hq.
  - intros e He Hnot. cbn [enrollments with_enrollments].
    apply in_delete_one_other; [assumption|].
    unfold enrollment_of.
    destruct (String.eqb_spec (e_studentId e) (u_id user)) as [Es|_];
      [|reflexivity].
    destruct (String.eqb_spec (e_classroomId e) id) as [Ec|_];
      [|reflexivity].
    exfalso. apply Hnot. auto.
  - intros view. unfold get_classroom.
    cbn [classrooms enrollments with_enrollments].
    destruct (find_one (classroom_by_id id) (classrooms db));
      handler; [|discriminate].
    rewrite Hrole, Hnone. handler. discriminate.
  - intros views. unfold get_materials.
    cbn [classrooms enrollments with_enrollments].
    destruct (find_one (classroom_by_id id) (classrooms db));
      handler; [|discriminate].
    rewrite Hrole, Hnone. handler. discriminate.
  - intros m view Hm Hcid. unfold get_material.
    cbn [materials with_enrollments] in Hm.
    cbn [materials classrooms enrollments with_enrollments].
    rewrite (find_material db m Hms Hm). handler.
    rewrite Hrole, Hcid, Hnone. handler. discriminate.
Qed.

Lemma leave_revokes_access_witness :
  NoDup (map student_classroom (enrollments Scenario.taught))
  /\ exists db',
       leave_classroom Scenario.taught "c-bio" Scenario.sam
       = Ok (db', "Left classroom")
       /\ enrollments db' = []
       /\ forall views, get_materials db' "c-bio" Scenario.sam <> Ok views.
Proof.
  assert (Hpairs : NoDup (map student_classroom (enrollments Scenario.taught)))
    by concrete_nodup.
  assert (Hms : NoDup (map m_id (materials Scenario.taught)))
    by concrete_nodup.
  assert (Hleave : exists db',
            leave_classroom Scenario.taught "c-bio" Scenario.sam
            = Ok (db', "Left classroom") /\ enrollments db' = [])
    by (eexists; split; vm_compute; reflexivity).
  destruct Hleave as (db' & Hleave & Hnone).
  split; [exact Hpairs|]. exists db'. split; [exact Hleave|].
  split; [exact Hnone|].
  exact (proj1 (proj2 (proj2 (proj2
           (leave_revokes_access Scenario.taught db' "c-bio" Scenario.sam
              "Left classroom" Hpairs Hms Hleave))))).
Defined.

(** ** Writing is the owner's *)

(** X14: a caller who is not the teacher of a classroom cannot write to
    it through its own routes: [update_classroom], [delete_classroom],
    [create_material] and [reorder_materials] on the classroom, and
    [update_material] and [delete_material] on each of its materials, all
    answer 403 "Not authorized" and leave the database as it is. *)
Theorem only_owner_writes (db : DB) (c : Classroom) (user : User) :
  NoDup (map c_id (classrooms db)) ->
  NoDup (map m_id (materials db)) ->
  In c (classrooms db) ->
  c_teacherId c <> u_id user ->
  let refused := HTTPException 403 "Not authorized" in
  (forall data now, update_classroom db (c_id c) data user now = Err refused)
  /\ delete_classroom db (c_id c) user = Err refused
  /\ (forall data material_id now,
        create_material db (c_id c) data user material_id now = Err refused)
  /\ (forall materialIds,
        reorder_materials db (c_id c) materialIds user = Err refused)
  /\ (forall m,
        In m (materials db) -> m_classroomId m = c_id c ->
        (forall data now,
           update_material db (m_id m) data user now = Err refused)
        /\ delete_material db (m_id m) user = Err refused).
Proof.
  intros Hcs Hms Hc Hother refused.
  pose proof (find_classroom db c Hcs Hc) as Fc.
  apply String.eqb_neq in Hother.
  split; [|split; [|split; [|split]]].
  - intros data now. unfold update_classroom. rewrite Fc. handler.
    now rewrite Hother.
  - unfold delete_classroom. rewrite Fc. handler. now rewrite Hother.
  - intros data material_id now. unfold create_material. rewrite Fc. handler.
    now rewrite Hother.
  - intros materialIds. unfold reorder_materials. rewrite Fc. handler.
    now rewrite Hother.
  - intros m Hm Hcid. pose proof (find_material db m Hms Hm) as Fm. split.
    + intros data now. unfold update_material. rewrite Fm. handler.
      rewrite Hcid, Fc. handler. now rewrite Hother.
    + unfold delete_material. rewrite Fm. handler.
      rewrite Hcid, Fc. handler. now rewrite Hother.
Qed.

Lemma only_owner_writes_witness :
  In Scenario.bio (classrooms Scenario.taught)
  /\ c_teacherId Scenario.bio <> u_id Scenario.sam
  /\ delete_classroom Scenario.taught "c-bio" Scenario.sam
     = Err (HTTPException 403 "Not authorized")
  /\ delete_material Scenario.taught "m-2" Scenario.sam
     = Err (HTTPException 403 "Not authorized").
Proof.
  assert (Hc : In Scenario.bio (classrooms Scenario.taught))
    by (apply nth_error_In with (n := 0%nat); vm_compute; reflexivity).
  assert (Hm : In Scenario.draft (materials Scenario.taught))
    by (apply nth_error_In with (n := 1%nat); vm_compute; reflexivity).
  assert (Hcs : NoDup (map c_id (classrooms Scenario.taught)))
    by concrete_nodup.
  assert (Hms : NoDup (map m_id (materials Scenario.taught)))
    by concrete_nodup.
  assert (Hother : c_teacherId Scenario.bio <> u_id Scenario.sam)
    by discriminate.
  destruct (only_owner_writes Scenario.taught Scenario.bio Scenario.sam
              Hcs Hms Hc Hother) as (_ & Hdel & _ & _ & Hmat).
  split; [exact Hc|]. split; [exact Hother|]. split; [exact Hdel|].
  exact (proj2 (Hmat Scenario.draft Hm eq_refl)).
Defined.

(** X15: the cascade of [delete_classroom] stays within the classroom: it
    touches no user, keeps every other classroom, and keeps every enrollment
    and every material of every other classroom. *)
Theorem delete_classroom_spares_others (db db' : DB) (id : string)
  (user : User) (message : string) :
  delete_classroom db id user = Ok (db', message) ->
  users db' = users db
  /\ (forall c, In c (classrooms db) -> c_id c <> id ->
        In c (classrooms db'))
  /\ (forall e, In e (enrollments db) -> e_classroomId e <> id ->
        In e (enrollments db'))
  /\ (forall m, In m (materials db) -> m_classroomId m <> id ->
        In m (materials db'))
  /\ (forall c, In c (classrooms db') -> In c (classrooms db))
  /\ (forall e, In e (enrollments db') -> In e (enrollments db))
  /\ (forall m, In m (materials db') -> In m (materials db)).
Proof.
  unfold delete_classroom. intros H. inv_ok. cbn.
  split; [reflexivity|]. repeat split.
  - intros c Hc Hne. apply in_delete_one_other; [assumption|].
    unfold classroom_by_id. now apply String.eqb_neq.
  - intros e He Hne. unfold delete_many. apply filter_In.
    split; [assumption|]. unfold enrollment_by_classroom.
    apply negb_true_iff. now apply String.eqb_neq.
  - intros m Hm Hne. unfold delete_many. apply filter_In.
    split; [assumption|]. unfold material_by_classroom.
    apply negb_true_iff. now apply String.eqb_neq.
  - intros c Hc. eapply in_delete_one; eassumption.
  - intros e He. unfold delete_many in He. apply filter_In in He. tauto.
  - intros m Hm. unfold delete_many in Hm. apply filter_In in Hm. tauto.
Qed.

Lemma delete_classroom_spares_others_witness :
  exists db',
    delete_classroom Scenario.taught "c-bio" Scenario.tina
    = Ok (db', "Classroom deleted")
    /\ users db' = users Scenario.taught.
Proof.
  assert (H : exists db',
            delete_classroom Scenario.taught "c-bio" Scenario.tina
            = Ok (db', "Classroom deleted"))
    by (eexists; vm_compute; reflexivity).
  destruct H as (db' & Hdel). exists db'. split; [exact Hdel|].
  exact (proj1 (delete_classroom_spares_others Scenario.taught db' "c-bio"
                  Scenario.tina "Classroom deleted" Hdel)).
Defined.

(** X16: [delete_material] by the classroom's teacher removes that material
    and nothing else: afterwards [get_material] on its id answers 404 to
    everyone, every other material is still there, and users, classrooms and
    enrollments are as before. A missing material is answered with 404. *)
Theorem delete_material_removes_one (db : DB) (id : string) (user : User) :
  NoDup (map m_id (materials db)) ->
  ((forall m, In m (materials db) -> m_id m <> id) ->
   delete_material db id user = Err (HTTPException 404 "Material not found"))
  /\ (forall db' message,
        delete_material db id user = Ok (db', message) ->
        (forall caller,
           get_material db' id caller
           = Err (HTTPException 404 "Material not found"))
        /\ (forall m, In m (materials db) -> m_id m <> id ->
              In m (materials db'))
        /\ (forall m, In m (materials db') ->
              In m (materials db) /\ m_id m <> id)
        /\ users db' = users db
        /\ classrooms db' = classrooms db
        /\ enrollments db' = enrollments db).
Proof.
  intros Hms. split.
  - intros Hnone. unfold delete_material.
    rewrite find_one_none_intro; [reflexivity|].
    intros m Hm. unfold material_by_id. apply String.eqb_neq. now apply Hnone.
  - intros db' message H. unfold delete_material in H. inv_ok.
    assert (Hgone : find_one (material_by_id id)
                      (delete_one (material_by_id id) (materials db)) = None).
    { apply (find_one_delete_one_none m_id); [assumption|].
      apply material_by_id_key. }
    cbn [users classrooms enrollments materials with_materials].
    split; [|split; [|split]]; [| | |auto].
    + intros caller. unfold get_material.
      cbn [materials with_materials]. now rewrite Hgone.
    + intros m Hm Hne. apply in_delete_one_other; [assumption|].
      unfold material_by_id. now apply String.eqb_neq.
    + intros m Hm. split; [eapply in_delete_one; eassumption|].
      intros Hid. pose proof (find_one_none _ _ Hgone m Hm) as Hq.
      unfold material_by_id in Hq. rewrite Hid, String.eqb_refl in Hq.
      discriminate.
Qed.

Lemma delete_material_removes_one_witness :
  NoDup (map m_id (materials Scenario.taught))
  /\ delete_material Scenario.taught "m-2" Scenario.tina
     = Ok (Scenario.pruned, "Material deleted")
  /\ get_material Scenario.pruned "m-2" Scenario.tina
     = Err (HTTPException 404 "Material not found").
Proof.
  assert (Hms : NoDup (map m_id (materials Scenario.taught)))
    by concrete_nodup.
  assert (Hdel : delete_material Scenario.taught "m-2" Scenario.tina
                 = Ok (Scenario.pruned, "Material deleted"))
    by (vm_compute; reflexivity).
  split; [exact Hms|]. split; [exact Hdel|].
  exact (proj1 (proj2 (delete_material_removes_one Scenario.taught "m-2"
                         Scenario.tina Hms) _ _ Hdel) Scenario.tina).
Defined.

(** ** Updating a material *)

Lemma provided_block_other {V X : Type} (get : Material -> X)
  (mk : V -> material_field) (o : option V) (m : Material) :
  (forall v m0, get (set_material_field m0 (mk v)) = get m0) ->
  get (fold_left set_material_field (provided mk o) m) = get m.
Proof. intros H. destruct o; simpl; [apply H | reflexivity]. Qed.

Lemma provided_block_same {V : Type} (get : Material -> V)
  (mk : V -> material_field) (o : option V) (m : Material) :
  (forall v m0, get (set_material_field m0 (mk v)) = v) ->
  get (fold_left set_material_field (provided mk o) m) = or_default o (get m).
Proof. intros H. destruct o; simpl; [apply H | reflexivity]. Qed.

Lemma provided_block_same_opt {V : Type} (get : Material -> option V)
  (mk : V -> material_field) (o : option V) (m : Material) :
  (forall v m0, get (set_material_field m0 (mk v)) = Some v) ->
  get (fold_left set_material_field (provided mk o) m)
  = match o with
    | Some v => Some v
    | None => get m
    end.
Proof. intros H. destruct o; simpl; [apply H | reflexivity]. Qed.

(** Reading one field of a material after the [$set] of an update: the
    block of that field decides, the others pass it on. *)
Ltac read_field g :=
  unfold material_update_data, apply_set; rewrite !fold_left_app;
  repeat first
    [ rewrite (provided_block_same g) by (intros; reflexivity)
    | rewrite (provided_block_same_opt g) by (intros; reflexivity)
    | rewrite (provided_block_other g) by (intros; reflexivity) ];
  reflexivity.

Lemma updated_title (data : MaterialUpdate) (m : Material) :
  m_title (apply_set set_material_field (material_update_data data) m)
  = or_default (mu_title data) (m_title m).
Proof. read_field m_title. Qed.

Lemma updated_description (data : MaterialUpdate) (m : Material) :
  m_description (apply_set set_material_field (material_update_data data) m)
  = match mu_description data with
    | Some v => Some v
    | None => m_description m
    end.
Proof. read_field m_description. Qed.

Lemma updated_type (data : MaterialUpdate) (m : Material) :
  m_type (apply_set set_material_field (material_update_data data) m)
  = or_default (mu_type data) (m_type m).
Proof. read_field m_type. Qed.

Lemma updated_content (data : MaterialUpdate) (m : Material) :
  m_content (apply_set set_material_field (material_update_data data) m)
  = match mu_content data with
    | Some v => Some v
    | None => m_content m
    end.
Proof. read_field m_content. Qed.

Lemma updated_fileUrl (data : MaterialUpdate) (m : Material) :
  m_fileUrl (apply_set set_material_field (material_update_data data) m)
  = match mu_fileUrl data with
    | Some v => Some v
    | None => m_fileUrl m
    end.
Proof. read_field m_fileUrl. Qed.

Lemma updated_fileName (data : MaterialUpdate) (m : Material) :
  m_fileName (apply_set set_material_field (material_update_data data) m)
  = match mu_fileName data with
    | Some v => Some v
    | None => m_fileName m
    end.
Proof. read_field m_fileName. Qed.

Lemma updated_videoUrl (data : MaterialUpdate) (m : Material) :
  m_videoUrl (apply_set set_material_field (material_update_data data) m)
  = match mu_videoUrl data with
    | Some v => Some v
    | None => m_videoUrl m
    end.
Proof. read_field m_videoUrl. Qed.

Lemma updated_modelUrl (data : MaterialUpdate) (m : Material) :
  m_modelUrl (apply_set set_material_field (material_update_data data) m)
  = match mu_modelUrl data with
    | Some v => Some v
    | None => m_modelUrl m
    end.
Proof. read_field m_modelUrl. Qed.

Lemma updated_arEnabled (data : MaterialUpdate) (m : Material) :
  m_arEnabled (apply_set set_material_field (material_update_data data) m)
  = or_default (mu_arEnabled data) (m_arEnabled m).
Proof. read_field m_arEnabled. Qed.

Lemma updated_modelScale (data : MaterialUpdate) (m : Material) :
  m_modelScale (apply_set set_material_field (material_update_data data) m)
  = or_default (mu_modelScale data) (m_modelScale m).
Proof. read_field m_modelScale. Qed.

Lemma updated_isPublished (data : MaterialUpdate) (m : Material) :
  m_isPublished (apply_set set_material_field (material_update_data data) m)
  = or_default (mu_isPublished data) (m_isPublished m).
Proof. read_field m_isPublished. Qed.

Lemma updated_order (data : MaterialUpdate) (m : Material) :
  m_order (apply_set set_material_field (material_update_data data) m)
  = or_default (mu_order data) (m_order m).
Proof. read_field m_order. Qed.

Lemma updated_createdAt (data : MaterialUpdate) (m : Material) :
  m_createdAt (apply_set set_material_field (material_update_data data) m)
  = m_createdAt m.
Proof. read_field m_createdAt. Qed.

Lemma updated_updatedAt (data : MaterialUpdate) (m : Material) :
  m_updatedAt (apply_set set_material_field (material_update_data data) m)
  = m_updatedAt m.
Proof. read_field m_updatedAt. Qed.

Lemma apply_set_stamp (fs : list material_field) (now : timestamp)
  (m : Material) :
  apply_set set_material_field (fs ++ [SetUpdatedAt now]) m
  = set_material_field (apply_set set_material_field fs m) (SetUpdatedAt now).
Proof. unfold apply_set. now rewrite fold_left_app. Qed.

Lemma is_empty_nil {F : Type} (l : list F) : is_empty l = true -> l = [].
Proof. destruct l; [reflexivity | discriminate]. Qed.

(** What [update_material] answers its owner, and the database it
    leaves. *)
Lemma update_material_by_owner (db : DB) (m : Material) (c : Classroom)
  (data : MaterialUpdate) (user : User) (now : timestamp) :
  NoDup (map c_id (classrooms db)) ->
  NoDup (map m_id (materials db)) ->
  In m (materials db) -> In c (classrooms db) ->
  c_id c = m_classroomId m -> c_teacherId c = u_id user ->
  let update_data := material_update_data data in
  let m' :=
    if is_empty update_data then m
    else set_material_field (apply_set set_material_field update_data m)
           (SetUpdatedAt now) in
  let db' :=
    if is_empty update_data then db
    else with_materials db
           (update_one (material_by_id (m_id m))
              (apply_set set_material_field
                 (update_data ++ [SetUpdatedAt now]))
              (materials db)) in
  update_material db (m_id m) data user now = Ok (db', material_view db' m')
  /\ find_one (material_by_id (m_id m)) (materials db') = Some m'.
Proof.
  intros Hcs Hms Hm Hc Hcid Howner update_data m' db'.
  pose proof (find_material db m Hms Hm) as Fm.
  pose proof (find_classroom db c Hcs Hc) as Fc. rewrite Hcid in Fc.
  assert (Hfind : find_one (material_by_id (m_id m)) (materials db')
                  = Some m').
  { subst db' m'. destruct (is_empty update_data); [exact Fm|].
    cbn [materials with_materials]. rewrite <- apply_set_stamp.
    apply find_one_update_one; [|exact Fm].
    intros x. apply material_by_id_set. }
  split; [|exact Hfind].
  unfold update_material. rewrite Fm. handler. rewrite Fc. handler.
  rewrite Howner, String.eqb_refl. handler. cbv zeta.
  fold update_data. fold db'. rewrite Hfind. reflexivity.
Qed.

(** X17: [update_material] by the classroom's teacher is a partial update:
    each of the twelve updatable fields takes the value given for it and
    keeps its own when none is given; id, classroom, creator and createdAt
    never change; updatedAt becomes the time of the request when at least
    one field is given and stays otherwise; no other material, and no user,
    classroom or enrollment, is touched. The type is stored as given, with
    no check against the four kinds. *)
Theorem update_material_patches (db : DB) (m : Material) (c : Classroom)
  (data : MaterialUpdate) (user : User) (now : timestamp) :
  NoDup (map c_id (classrooms db)) ->
  NoDup (map m_id (materials db)) ->
  In m (materials db) -> In c (classrooms db) ->
  c_id c = m_classroomId m -> c_teacherId c = u_id user ->
  exists db' m',
    update_material db (m_id m) data user now = Ok (db', material_view db' m')
    /\ find_one (material_by_id (m_id m)) (materials db') = Some m'
    /\ (forall x, In x (materials db) -> m_id x <> m_id m ->
          In x (materials db'))
    /\ users db' = users db
    /\ classrooms db' = classrooms db
    /\ enrollments db' = enrollments db
    /\ m_id m' = m_id m
    /\ m_classroomId m' = m_classroomId m
    /\ m_createdById m' = m_createdById m
    /\ m_createdAt m' = m_createdAt m
    /\ m_title m' = or_default (mu_title data) (m_title m)
    /\ m_description m'
       = match mu_description data with
         | Some v => Some v
         | None => m_description m
         end
    /\ m_type m' = or_default (mu_type data) (m_type m)
    /\ m_content m'
       = match mu_content data with
         | Some v => Some v
         | None => m_content m
         end
    /\ m_fileUrl m'
       = match mu_fileUrl data with
         | Some v => Some v
         | None => m_fileUrl m
         end
    /\ m_fileName m'
       = match mu_fileName data with
         | Some v => Some v
         | None => m_fileName m
         end
    /\ m_videoUrl m'
       = match mu_videoUrl data with
         | Some v => Some v
         | None => m_videoUrl m
         end
    /\ m_modelUrl m'
       = match mu_modelUrl data with
         | Some v => Some v
         | None => m_modelUrl m
         end
    /\ m_arEnabled m' = or_default (mu_arEnabled data) (m_arEnabled m)
    /\ m_modelScale m' = or_default (mu_modelScale data) (m_modelScale m)
    /\ m_isPublished m' = or_default (mu_isPublished data) (m_isPublished m)
    /\ m_order m' = or_default (mu_order data) (m_order m)
    /\ m_updatedAt m'
       = if is_empty (material_update_data data) then m_updatedAt m else now.
Proof.
  intros Hcs Hms Hm Hc Hcid Howner.
  destruct (update_material_by_owner db m c data user now
              Hcs Hms Hm Hc Hcid Howner) as [Hupdate Hfind].
  cbv zeta in Hupdate, Hfind.
  eexists. eexists. split; [exact Hupdate|]. split; [exact Hfind|].
  pose proof (apply_set_material_keys (material_update_data data) m)
    as [Kid Kcid].
  pose proof (apply_set_material_creator (material_update_data data) m)
    as Kcreator.
  unfold creator_classroom in Kcreator.
  destruct (is_empty (material_update_data data)) eqn:Hempty.
  - apply is_empty_nil in Hempty.
    pose proof (updated_title data m) as F1.
    pose proof (updated_description data m) as F2.
    pose proof (updated_type data m) as F3.
    pose proof (updated_content data m) as F4.
    pose proof (updated_fileUrl data m) as F5.
    pose proof (updated_fileName data m) as F6.
    pose proof (updated_videoUrl data m) as F7.
    pose proof (updated_modelUrl data m) as F8.
    pose proof (updated_arEnabled data m) as F9.
    pose proof (updated_modelScale data m) as F10.
    pose proof (updated_isPublished data m) as F11.
    pose proof (updated_order data m) as F12.
    rewrite Hempty in F1, F2, F3, F4, F5, F6, F7, F8, F9, F10, F11, F12.
    cbn [apply_set fold_left] in *.
    repeat split; auto.
  - cbn [users classrooms enrollments materials with_materials m_id
         m_classroomId m_createdById m_createdAt m_title m_description m_type
         m_content m_fileUrl m_fileName m_videoUrl m_modelUrl m_arEnabled
         m_modelScale m_isPublished m_order m_updatedAt set_material_field].
    split.
    { intros x Hx Hne. apply in_update_one_other; [assumption|].
      unfold material_by_id. now apply String.eqb_neq. }
    repeat split; auto; try congruence.
    + apply updated_createdAt.
    + apply updated_title.
    + apply updated_description.
    + apply updated_type.
    + apply updated_content.
    + apply updated_fileUrl.
    + apply updated_fileName.
    + apply updated_videoUrl.
    + apply updated_modelUrl.
    + apply updated_arEnabled.
    + apply updated_modelScale.
    + apply updated_isPublished.
    + apply updated_order.
Qed.

Lemma update_material_patches_witness :
  In Scenario.first_material (materials Scenario.taught)
  /\ In Scenario.bio (classrooms Scenario.taught)
  /\ c_teacherId Scenario.bio = u_id Scenario.tina
  /\ exists db' m',
       update_material Scenario.taught "m-1" Scenario.moved_away
         Scenario.tina 1040
       = Ok (db', material_view db' m')
       /\ m_order m' = 7
       /\ m_title m' = "Skeleton"
       /\ m_updatedAt m' = 1040.
Proof.
  assert (Hm : In Scenario.first_material (materials Scenario.taught))
    by (apply nth_error_In with (n := 0%nat); vm_compute; reflexivity).
  assert (Hc : In Scenario.bio (classrooms Scenario.taught))
    by (apply nth_error_In with (n := 0%nat); vm_compute; reflexivity).
  assert (Hcs : NoDup (map c_id (classrooms Scenario.taught)))
    by concrete_nodup.
  assert (Hms : NoDup (map m_id (materials Scenario.taught)))
    by concrete_nodup.
  destruct (update_material_patches Scenario.taught Scenario.first_material
              Scenario.bio Scenario.moved_away Scenario.tina 1040
              Hcs Hms Hm Hc eq_refl eq_refl)
    as (db' & m' & Hupdate & _ & _ & _ & _ & _ & _ & _ & _ & _ & Htitle
        & _ & _ & _ & _ & _ & _ & _ & _ & _ & _ & Horder & Hstamp).
  split; [exact Hm|]. split; [exact Hc|]. split; [reflexivity|].
  exists db', m'. repeat split; assumption.
Defined.

(** The list behind an answer of [get_materials]. *)
Lemma get_materials_answer (db : DB) (classroomId : string) (user : User)
  (views : list MaterialView) :
  get_materials db classroomId user = Ok views ->
  views
  = map (material_view db)
      (to_list 100
         (sort_by order_asc
            (find_many
               (if String.eqb (u_role user) STUDENT
                then published_in_classroom classroomId
                else material_by_classroom classroomId)
               (materials db)))).
Proof.
  unfold get_materials.
  destruct (find_one (classroom_by_id classroomId) (classrooms db));
    handler; [|discriminate].
  match goal with
  | |- bind ?check _ = _ -> _ => destruct check as [[]|e]
  end; handler; [|discriminate].
  intros H. injection H as H. symmetry. exact H.
Qed.

(** X18: unpublishing hides. After the classroom's teacher has updated a
    material with isPublished false, [get_material] refuses it with 403 to
    every caller whose role is not TEACHER, enrolled or not, and no
    [get_materials] answer to a student holds it. *)
Theorem unpublishing_hides (db : DB) (m : Material) (c : Classroom)
  (data : MaterialUpdate) (user : User) (now : timestamp) :
  NoDup (map c_id (classrooms db)) ->
  NoDup (map m_id (materials db)) ->
  In m (materials db) -> In c (classrooms db) ->
  c_id c = m_classroomId m -> c_teacherId c = u_id user ->
  mu_isPublished data = Some false ->
  exists db' view,
    update_material db (m_id m) data user now = Ok (db', view)
    /\ m_isPublished (mv_material view) = false
    /\ (forall caller,
          u_role caller <> TEACHER ->
          get_material db' (m_id m) caller
          = Err (HTTPException 403 "Not authorized"))
    /\ (forall caller classroomId views,
          u_role caller = STUDENT ->
          get_materials db' classroomId caller = Ok views ->
          forall v, In v views -> m_id (mv_material v) <> m_id m).
Proof.
  intros Hcs Hms Hm Hc Hcid Howner Hunpub.
  destruct (update_material_by_owner db m c data user now
              Hcs Hms Hm Hc Hcid Howner) as [Hupdate Hfind].
  cbv zeta in Hupdate, Hfind.
  set (db' := if is_empty (material_update_data data) then db
              else with_materials db
                     (update_one (material_by_id (m_id m))
                        (apply_set set_material_field
                           (material_update_data data ++ [SetUpdatedAt now]))
                        (materials db))) in *.
  set (m' := if is_empty (material_update_data data) then m
             else set_material_field
                    (apply_set set_material_field (material_update_data data)
                       m)
                    (SetUpdatedAt now)) in *.
  assert (Hhidden : m_isPublished m' = false).
  { pose proof (updated_isPublished data m) as F. rewrite Hunpub in F.
    subst m'. destruct (is_empty (material_update_data data)) eqn:Hempty.
    - apply is_empty_nil in Hempty. rewrite Hempty in F. exact F.
    - exact F. }
  assert (Hms' : NoDup (map m_id (materials db'))).
  { subst db'. destruct (is_empty (material_update_data data));
      [assumption|]. cbn [materials with_materials].
    rewrite map_update_one; [assumption|].
    intros d. apply apply_set_material_keys. }
  exists db', (material_view db' m').
  split; [exact Hupdate|]. split; [exact Hhidden|]. split.
  - intros caller Hrole. unfold get_material. rewrite Hfind. handler.
    rewrite (student_is_no_teacher caller Hrole), Hhidden.
    now rewrite orb_true_r.
  - intros caller classroomId views Hrole Hlist v Hv Hid.
    apply get_materials_answer in Hlist. subst views.
    rewrite Hrole, String.eqb_refl in Hv.
    apply in_map_iff in Hv. destruct Hv as (x & <- & Hx).
    apply in_firstn in Hx. apply sort_by_in in Hx.
    apply filter_In in Hx. destruct Hx as [Hx Hq].
    unfold published_in_classroom in Hq. apply andb_true_iff in Hq.
    destruct Hq as [_ Hpub]. apply Bool.eqb_prop in Hpub.
    cbn [mv_material material_view] in Hid.
    apply find_one_some in Hfind. destruct Hfind as [Hin' Hq'].
    unfold material_by_id in Hq'. apply String.eqb_eq in Hq'.
    assert (x = m')
      by (eapply (NoDup_map_inj m_id); eauto; congruence).
    congruence.
Qed.

Lemma unpublishing_hides_witness :
  In Scenario.first_material (materials Scenario.taught)
  /\ get_material Scenario.taught "m-1" Scenario.sam
     = Ok (material_view Scenario.taught Scenario.first_material)
  /\ exists db' view,
       update_material Scenario.taught "m-1"
         (mkMaterialUpdate None None None None None None None None None None
            (Some false) None)
         Scenario.tina 1040
       = Ok (db', view)
       /\ get_material db' "m-1" Scenario.sam
          = Err (HTTPException 403 "Not authorized").
Proof.
  assert (Hm : In Scenario.first_material (materials Scenario.taught))
    by (apply nth_error_In with (n := 0%nat); vm_compute; reflexivity).
  assert (Hc : In Scenario.bio (classrooms Scenario.taught))
    by (apply nth_error_In with (n := 0%nat); vm_compute; reflexivity).
  assert (Hcs : NoDup (map c_id (classrooms Scenario.taught)))
    by concrete_nodup.
  assert (Hms : NoDup (map m_id (materials Scenario.taught)))
    by concrete_nodup.
  destruct (unpublishing_hides Scenario.taught Scenario.first_material
              Scenario.bio
              (mkMaterialUpdate None None None None None None None None None
                 None (Some false) None)
              Scenario.tina 1040 Hcs Hms Hm Hc eq_refl eq_refl eq_refl)
    as (db' & view & Hupdate & _ & Hget & _).
  split; [exact Hm|]. split; [vm_compute; reflexivity|].
  exists db', view. split; [exact Hupdate|].
  apply (Hget Scenario.sam). discriminate.
Defined.

(** ** Updating a classroom *)

Lemma classroom_block_other {V X : Type} (get : Classroom -> X)
  (mk : V -> classroom_field) (o : option V) (c : Classroom) :
  (forall v c0, get (set_classroom_field c0 (mk v)) = get c0) ->
  get (fold_left set_classroom_field (provided mk o) c) = get c.
Proof. intros H. destruct o; simpl; [apply H | reflexivity]. Qed.

Lemma classroom_block_same {V : Type} (get : Classroom -> V)
  (mk : V -> classroom_field) (o : option V) (c : Classroom) :
  (forall v c0, get (set_classroom_field c0 (mk v)) = v) ->
  get (fold_left set_classroom_field (provided mk o) c) = or_default o (get c).
Proof. intros H. destruct o; simpl; [apply H | reflexivity]. Qed.

Lemma classroom_block_same_opt {V : Type} (get : Classroom -> option V)
  (mk : V -> classroom_field) (o : option V) (c : Classroom) :
  (forall v c0, get (set_classroom_field c0 (mk v)) = Some v) ->
  get (fold_left set_classroom_field (provided mk o) c)
  = match o with
    | Some v => Some v
    | None => get c
    end.
Proof. intros H. destruct o; simpl; [apply H | reflexivity]. Qed.

Ltac read_classroom_field g :=
  unfold classroom_update_data, apply_set; rewrite !fold_left_app;
  repeat first
    [ rewrite (classroom_block_same g) by (intros; reflexivity)
    | rewrite (classroom_block_same_opt g) by (intros; reflexivity)
    | rewrite (classroom_block_other g) by (intros; reflexivity) ];
  reflexivity.

Lemma updated_classroom_name (data : ClassroomUpdate) (c : Classroom) :
  c_name (apply_set set_classroom_field (classroom_update_data data) c)
  = or_default (cu_name data) (c_name c).
Proof. read_classroom_field c_name. Qed.

Lemma updated_classroom_description (data : ClassroomUpdate) (c : Classroom) :
  c_description (apply_set set_classroom_field (classroom_update_data data) c)
  = match cu_description data with
    | Some v => Some v
    | None => c_description c
    end.
Proof. read_classroom_field c_description. Qed.

Lemma updated_classroom_subject (data : ClassroomUpdate) (c : Classroom) :
  c_subject (apply_set set_classroom_field (classroom_update_data data) c)
  = or_default (cu_subject data) (c_subject c).
Proof. read_classroom_field c_subject. Qed.

Lemma updated_classroom_coverImage (data : ClassroomUpdate) (c : Classroom) :
  c_coverImage (apply_set set_classroom_field (classroom_update_data data) c)
  = match cu_coverImage data with
    | Some v => Some v
    | None => c_coverImage c
    end.
Proof. read_classroom_field c_coverImage. Qed.

Lemma updated_classroom_isActive (data : ClassroomUpdate) (c : Classroom) :
  c_isActive (apply_set set_classroom_field (classroom_update_data data) c)
  = or_default (cu_isActive data) (c_isActive c).
Proof. read_classroom_field c_isActive. Qed.

Lemma updated_classroom_createdAt (data : ClassroomUpdate) (c : Classroom) :
  c_createdAt (apply_set set_classroom_field (classroom_update_data data) c)
  = c_createdAt c.
Proof. read_classroom_field c_createdAt. Qed.

Lemma classroom_by_id_set (id : string) (fs : list classroom_field)
  (c : Classroom) :
  classroom_by_id id (apply_set set_classroom_field fs c)
  = classroom_by_id id c.
Proof.
  unfold classroom_by_id.
  now destruct (apply_set_classroom_keys fs c) as (-> & _).
Qed.

Lemma apply_set_classroom_stamp (fs : list classroom_field) (now : timestamp)
  (c : Classroom) :
  apply_set set_classroom_field (fs ++ [SetClassroomUpdatedAt now]) c
  = set_classroom_field (apply_set set_classroom_field fs c)
      (SetClassroomUpdatedAt now).
Proof. unfold apply_set. now rewrite fold_left_app. Qed.

(** What [update_classroom] answers its teacher, and the database it
    leaves. *)
Lemma update_classroom_by_owner (db : DB) (c : Classroom)
  (data : ClassroomUpdate) (user : User) (now : timestamp) :
  NoDup (map c_id (classrooms db)) ->
  In c (classrooms db) -> c_teacherId c = u_id user ->
  let update_data := classroom_update_data data in
  let c' :=
    if is_empty update_data then c
    else set_classroom_field (apply_set set_classroom_field update_data c)
           (SetClassroomUpdatedAt now) in
  let db' :=
    if is_empty update_data then db
    else with_classrooms db
           (update_one (classroom_by_id (c_id c))
              (apply_set set_classroom_field
                 (update_data ++ [SetClassroomUpdatedAt now]))
              (classrooms db)) in
  update_classroom db (c_id c) data user now = Ok (db', c')
  /\ find_one (classroom_by_id (c_id c)) (classrooms db') = Some c'.
Proof.
  intros Hcs Hc Howner update_data c' db'.
  pose proof (find_classroom db c Hcs Hc) as Fc.
  assert (Hfind : find_one (classroom_by_id (c_id c)) (classrooms db')
                  = Some c').
  { subst db' c'. destruct (is_empty update_data); [exact Fc|].
    cbn [classrooms with_classrooms]. rewrite <- apply_set_classroom_stamp.
    apply find_one_update_one; [|exact Fc].
    intros x. apply classroom_by_id_set. }
  split; [|exact Hfind].
  unfold update_classroom. rewrite Fc. handler.
  rewrite Howner, String.eqb_refl. handler. cbv zeta.
  fold update_data. fold db'. rewrite Hfind. reflexivity.
Qed.

(** X19: [update_classroom] by the classroom's teacher is a partial
    update: name, description, subject, coverImage and isActive each take
    the value given and keep their own when none is given; id, code, teacher
    and createdAt never change; updatedAt becomes the time of the request
    when at least one field is given and stays otherwise; no other
    classroom, and no user, enrollment or material, is touched. A classroom
    that does not exist is answered with 404. *)
Theorem update_classroom_patches (db : DB) (data : ClassroomUpdate)
  (user : User) (now : timestamp) :
  NoDup (map c_id (classrooms db)) ->
  (forall id,
     (forall c, In c (classrooms db) -> c_id c <> id) ->
     update_classroom db id data user now
     = Err (HTTPException 404 "Classroom not found"))
  /\ (forall c,
        In c (classrooms db) -> c_teacherId c = u_id user ->
        exists db' c',
          update_classroom db (c_id c) data user now = Ok (db', c')
          /\ find_one (classroom_by_id (c_id c)) (classrooms db') = Some c'
          /\ (forall x, In x (classrooms db) -> c_id x <> c_id c ->
                In x (classrooms db'))
          /\ users db' = users db
          /\ enrollments db' = enrollments db
          /\ materials db' = materials db
          /\ c_id c' = c_id c
          /\ c_code c' = c_code c
          /\ c_teacherId c' = c_teacherId c
          /\ c_createdAt c' = c_createdAt c
          /\ c_name c' = or_default (cu_name data) (c_name c)
          /\ c_description c'
             = match cu_description data with
               | Some v => Some v
               | None => c_description c
               end
          /\ c_subject c' = or_default (cu_subject data) (c_subject c)
          /\ c_coverImage c'
             = match cu_coverImage data with
               | Some v => Some v
               | None => c_coverImage c
               end
          /\ c_isActive c' = or_default (cu_isActive data) (c_isActive c)
          /\ c_updatedAt c'
             = if is_empty (classroom_update_data data)
               then c_updatedAt c else now).
Proof.
  intros Hcs. split.
  - intros id Hnone. unfold update_classroom.
    now rewrite (find_no_classroom db id Hnone).
  - intros c Hc Howner.
    destruct (update_classroom_by_owner db c data user now Hcs Hc Howner)
      as [Hupdate Hfind].
    cbv zeta in Hupdate, Hfind.
    eexists. eexists. split; [exact Hupdate|]. split; [exact Hfind|].
    pose proof (apply_set_classroom_keys (classroom_update_data data) c)
      as (Kid & Kcode & Kteacher).
    destruct (is_empty (classroom_update_data data)) eqn:Hempty.
    + apply is_empty_nil in Hempty.
      pose proof (updated_classroom_name data c) as F1.
      pose proof (updated_classroom_description data c) as F2.
      pose proof (updated_classroom_subject data c) as F3.
      pose proof (updated_classroom_coverImage data c) as F4.
      pose proof (updated_classroom_isActive data c) as F5.
      rewrite Hempty in F1, F2, F3, F4, F5.
      cbn [apply_set fold_left] in *.
      repeat split; auto.
    + cbn [users classrooms enrollments materials with_classrooms c_id c_code
           c_teacherId c_createdAt c_name c_description c_subject c_coverImage
           c_isActive c_updatedAt set_classroom_field].
      split.
      { intros x Hx Hne. apply in_update_one_other; [assumption|].
        unfold classroom_by_id. now apply String.eqb_neq. }
      repeat split; auto.
      * apply updated_classroom_createdAt.
      * apply updated_classroom_name.
      * apply updated_classroom_description.
      * apply updated_classroom_subject.
      * apply updated_classroom_coverImage.
      * apply updated_classroom_isActive.
Qed.

Lemma update_classroom_patches_witness :
  NoDup (map c_id (classrooms Scenario.taught))
  /\ In Scenario.bio (classrooms Scenario.taught)
  /\ exists db' c',
       update_classroom Scenario.taught "c-bio"
         (mkClassroomUpdate (Some "Biology 102") None None None None)
         Scenario.tina 1100
       = Ok (db', c')
       /\ c_name c' = "Biology 102"
       /\ c_code c' = "ABCDEF"
       /\ c_subject c' = "Science".
Proof.
  assert (Hc : In Scenario.bio (classrooms Scenario.taught))
    by (apply nth_error_In with (n := 0%nat); vm_compute; reflexivity).
  assert (Hcs : NoDup (map c_id (classrooms Scenario.taught)))
    by concrete_nodup.
  destruct (proj2 (update_classroom_patches Scenario.taught
                     (mkClassroomUpdate (Some "Biology 102") None None None
                        None)
                     Scenario.tina 1100 Hcs) Scenario.bio Hc eq_refl)
    as (db' & c' & Hupdate & _ & _ & _ & _ & _ & _ & Hcode & _ & _ & Hname
        & _ & Hsubject & _).
  split; [exact Hcs|]. split; [exact Hc|].
  exists db', c'. repeat split; assumption.
Defined.

(** X20: deactivating closes the door. After the classroom's teacher has
    updated it with isActive false, every student's [join_classroom] with
    its code, in any case, is refused with 400 "Classroom is not active",
    whether or not the student is already enrolled. *)
Theorem deactivating_blocks_join (db : DB) (c : Classroom)
  (data : ClassroomUpdate) (user : User) (now : timestamp) :
  NoDup (map c_id (classrooms db)) ->
  NoDup (map c_code (classrooms db)) ->
  In c (classrooms db) -> c_teacherId c = u_id user ->
  cu_isActive data = Some false ->
  exists db' c',
    update_classroom db (c_id c) data user now = Ok (db', c')
    /\ c_isActive c' = false
    /\ forall student code enrollment_id now',
         u_role student = STUDENT ->
         upper code = c_code c ->
         join_classroom db' code student enrollment_id now'
         = Err (HTTPException 400 "Classroom is not active").
Proof.
  intros Hcs Hcodes Hc Howner Hoff.
  destruct (update_classroom_by_owner db c data user now Hcs Hc Howner)
    as [Hupdate Hfind].
  cbv zeta in Hupdate, Hfind.
  set (db' := if is_empty (classroom_update_data data) then db
              else with_classrooms db
                     (update_one (classroom_by_id (c_id c))
                        (apply_set set_classroom_field
                           (classroom_update_data data
                            ++ [SetClassroomUpdatedAt now]))
                        (classrooms db))) in *.
  set (c' := if is_empty (classroom_update_data data) then c
             else set_classroom_field
                    (apply_set set_classroom_field
                       (classroom_update_data data) c)
                    (SetClassroomUpdatedAt now)) in *.
  assert (Hinactive : c_isActive c' = false).
  { pose proof (updated_classroom_isActive data c) as F. rewrite Hoff in F.
    subst c'. destruct (is_empty (classroom_update_data data)) eqn:Hempty.
    - apply is_empty_nil in Hempty. rewrite Hempty in F. exact F.
    - exact F. }
  assert (Hcode' : c_code c' = c_code c).
  { subst c'. destruct (is_empty (classroom_update_data data));
      [reflexivity|]. cbn [c_code set_classroom_field].
    apply apply_set_classroom_keys. }
  assert (Hcodes' : NoDup (map c_code (classrooms db'))).
  { subst db'. destruct (is_empty (classroom_update_data data));
      [assumption|]. cbn [classrooms with_classrooms].
    rewrite map_update_one; [assumption|].
    intros d. apply apply_set_classroom_keys. }
  exists db', c'. split; [exact Hupdate|]. split; [exact Hinactive|].
  intros student code enrollment_id now' Hrole Hupper.
  apply find_one_some in Hfind. destruct Hfind as [Hin' _].
  unfold join_classroom. rewrite Hrole, String.eqb_refl. handler.
  rewrite (find_classroom_by_code db' c' (upper code) Hcodes' Hin')
    by congruence.
  handler. now rewrite Hinactive.
Qed.

Lemma deactivating_blocks_join_witness :
  In Scenario.bio (classrooms Scenario.taught)
  /\ cu_isActive (mkClassroomUpdate None None None None (Some false))
     = Some false
  /\ exists db' c',
       update_classroom Scenario.taught "c-bio"
         (mkClassroomUpdate None None None None (Some false))
         Scenario.tina 1100
       = Ok (db', c')
       /\ join_classroom db' "abcdef" Scenario.bea "e-bea" 1101
          = Err (HTTPException 400 "Classroom is not active").
Proof.
  assert (Hc : In Scenario.bio (classrooms Scenario.taught))
    by (apply nth_error_In with (n := 0%nat); vm_compute; reflexivity).
  assert (Hcs : NoDup (map c_id (classrooms Scenario.taught)))
    by concrete_nodup.
  assert (Hcodes : NoDup (map c_code (classrooms Scenario.taught)))
    by concrete_nodup.
  destruct (deactivating_blocks_join Scenario.taught Scenario.bio
              (mkClassroomUpdate None None None None (Some false))
              Scenario.tina 1100 Hcs Hcodes Hc eq_refl eq_refl)
    as (db' & c' & Hupdate & _ & Hjoin).
  split; [exact Hc|]. split; [reflexivity|].
  exists db', c'. split; [exact Hupdate|].
  apply Hjoin; reflexivity.
Defined.

(** ** New classrooms *)

Lemma code_alphabet_upper :
  forallb (fun ch => Ascii.eqb (upper_ascii ch) ch) code_alphabet = true.
Proof. reflexivity. Qed.

Lemma upper_string_of_list (l : list ascii) :
  (forall ch, In ch l -> upper_ascii ch = ch) ->
  upper (string_of_list_ascii l) = string_of_list_ascii l.
Proof.
  induction l as [|ch l IH]; intros H; simpl; [reflexivity|].
  rewrite (H ch (or_introl eq_refl)), IH; [reflexivity|].
  intros x Hx. apply H. now right.
Qed.

(** X21: [generate_code] returns a code of exactly the asked length, made
    of uppercase letters and digits only, whatever the generator draws; so
    uppercasing leaves it as it is, and the code a classroom was given is
    the code that [join_classroom] looks up. *)
Theorem generate_code_shape (length : nat) (g : rng) (pos : nat) :
  String.length (generate_code length g pos) = length
  /\ forallb is_upper_alnum (list_ascii_of_string (generate_code length g pos))
     = true
  /\ upper (generate_code length g pos) = generate_code length g pos.
Proof.
  unfold generate_code, choices. split; [|split].
  - rewrite length_string_of_list, length_map, length_seq. reflexivity.
  - rewrite list_ascii_of_string_of_list_ascii. apply forallb_forall.
    intros ch Hch. apply in_map_iff in Hch. destruct Hch as (i & <- & _).
    apply choice_alnum.
  - apply upper_string_of_list. intros ch Hch.
    apply in_map_iff in Hch. destruct Hch as (i & <- & _).
    pose proof code_alphabet_upper as H. rewrite forallb_forall in H.
    apply Ascii.eqb_eq. apply H. unfold choice. apply nth_In.
    apply Nat.mod_upper_bound. discriminate.
Qed.

Lemma find_one_app_new {A : Type} (q : A -> bool) (coll : list A) (d : A) :
  find_one q coll = None -> q d = true -> find_one q (coll ++ [d]) = Some d.
Proof.
  unfold find_one. induction coll as [|x rest IH]; simpl; intros Hnone Hq.
  - now rewrite Hq.
  - destruct (q x); [discriminate | now apply IH].
Qed.

Lemma filter_none {A : Type} (q : A -> bool) (l : list A) :
  (forall x, In x l -> q x = false) -> filter q l = [].
Proof.
  induction l as [|x l IH]; intros H; simpl; [reflexivity|].
  rewrite (H x (or_introl eq_refl)). apply IH. intros y Hy. apply H.
  now right.
Qed.

(** What a successful [create_classroom] stored. *)
Lemma create_classroom_inv (db db' : DB) (data : ClassroomCreate)
  (user : User) (classroom_id : string) (now : timestamp) (g : rng)
  (fuel : nat) (view : ClassroomView) :
  create_classroom db data user classroom_id now g fuel
  = Some (Ok (db', view)) ->
  exists code,
    let c := mkClassroom classroom_id (cc_name data) (cc_description data)
               (cc_subject data) code (cc_coverImage data) true (u_id user)
               now now in
    u_role user = TEACHER
    /\ unique_code fuel g 0 (classrooms db) = Some code
    /\ db' = with_classrooms db (classrooms db ++ [c])
    /\ view = mkClassroomView c 0 0
                (Some (u_id user, u_name user, u_email user))
    /\ ~ In classroom_id (map c_id (classrooms db))
    /\ ~ In code (map c_code (classrooms db)).
Proof.
  unfold create_classroom.
  destruct (String.eqb_spec (u_role user) TEACHER) as [Hrole|_];
    [|discriminate]. cbn [negb].
  destruct (unique_code fuel g 0 (classrooms db)) as [code|];
    [|discriminate].
  intros H. inversion H as [H']. clear H. inv_ok.
  apply classroom_clash_fresh in Hfresh. cbn [c_id c_code] in Hfresh.
  exists code. cbv zeta. repeat split; tauto.
Qed.

(** X22: [create_classroom] refuses every caller who is not a TEACHER with
    403. When it succeeds in a state the service has reached, the new
    classroom is active, belongs to the caller and is empty: [get_classroom]
    returns to the caller exactly the view that [create_classroom] returned,
    with zero enrollments and zero materials, [get_materials] returns the
    empty list, and every student who presents the classroom's code, in any
    case, with a fresh enrollment id, is enrolled. *)
Theorem created_classroom_is_open (secret : string) (db : DB)
  (data : ClassroomCreate) (user : User) (classroom_id : string)
  (now : timestamp) (g : rng) (fuel : nat) :
  (u_role user <> TEACHER ->
   create_classroom db data user classroom_id now g fuel
   = Some (Err (HTTPException 403 "Only teachers can create classrooms")))
  /\ (forall db' view,
        reachable secret db -> In user (users db) ->
        create_classroom db data user classroom_id now g fuel
        = Some (Ok (db', view)) ->
        let c := cv_classroom view in
        c_id c = classroom_id
        /\ c_isActive c = true
        /\ c_teacherId c = u_id user
        /\ cv_enrollments view = 0%nat
        /\ cv_materials view = 0%nat
        /\ get_classroom db' classroom_id user = Ok view
        /\ get_materials db' classroom_id user = Ok []
        /\ (forall student code enrollment_id now',
              u_role student = STUDENT ->
              upper code = c_code c ->
              ~ In enrollment_id (map e_id (enrollments db)) ->
              join_classroom db' code student enrollment_id now'
              = Ok (with_enrollments db'
                      (enrollments db'
                       ++ [mkEnrollment enrollment_id (u_id student)
                             classroom_id now']),
                    c))).
Proof.
  split.
  - intros Hrole. unfold create_classroom.
    apply String.eqb_neq in Hrole. now rewrite Hrole.
  - intros db' view Hreach Huser Hcreate.
    destruct (create_classroom_inv _ _ _ _ _ _ _ _ _ Hcreate)
      as (code & Hrole & Hcode & -> & -> & Hid & Hcd).
    cbv zeta. cbn [cv_classroom cv_enrollments cv_materials c_id c_isActive
                   c_teacherId c_code].
    set (c := mkClassroom classroom_id (cc_name data) (cc_description data)
                (cc_subject data) code (cc_coverImage data) true (u_id user)
                now now).
    pose proof (reachable_consistent secret db Hreach) as [_ _ _ _ Hmat].
    pose proof (reachable_referential secret db Hreach)
      as [Hids _ _ _ _ Henr _ _ _].
    assert (Fid : find_one (classroom_by_id classroom_id)
                    (classrooms db ++ [c]) = Some c).
    { apply find_one_app_new.
      - apply find_one_none_intro. intros x Hx. unfold classroom_by_id.
        apply String.eqb_neq. intros E. apply Hid. rewrite <- E.
        now apply in_map.
      - apply String.eqb_refl. }
    assert (Fcode : find_one (classroom_by_code code) (classrooms db ++ [c])
                    = Some c).
    { apply find_one_app_new.
      - apply find_one_none_intro. intros x Hx. unfold classroom_by_code.
        apply String.eqb_neq. intros E. apply Hcd. rewrite <- E.
        now apply in_map.
      - apply String.eqb_refl. }
    assert (Hno_enr : forall e, In e (enrollments db) ->
              enrollment_by_classroom classroom_id e = false).
    { intros e He. unfold enrollment_by_classroom. apply String.eqb_neq.
      intros E. apply Hid. rewrite <- E. apply Henr. now apply in_map. }
    assert (Hno_mat : forall m, In m (materials db) ->
              material_by_classroom classroom_id m = false).
    { intros m Hm. unfold material_by_classroom. apply String.eqb_neq.
      intros E. apply Hid. rewrite <- E. apply Hmat. now apply in_map. }
    repeat split.
    + unfold get_classroom. cbn [classrooms with_classrooms].
      rewrite Fid. handler. rewrite Hrole, String.eqb_refl.
      cbn [c c_teacherId]. rewrite String.eqb_refl. handler.
      unfold count_documents. cbn [enrollments materials with_classrooms].
      rewrite (filter_none _ _ Hno_enr), (filter_none _ _ Hno_mat).
      unfold teacher_summary. cbn [users with_classrooms].
      rewrite (find_user db user Hids Huser). reflexivity.
    + unfold get_materials. cbn [classrooms with_classrooms].
      rewrite Fid. handler. rewrite Hrole, String.eqb_refl.
      cbn [c c_teacherId]. rewrite String.eqb_refl. handler.
      rewrite teacher_not_student. unfold find_many.
      cbn [materials with_classrooms].
      rewrite (filter_none _ _ Hno_mat). reflexivity.
    + intros student code' enrollment_id now' Hstudent Hupper Hfresh.
      rewrite (join_classroom_enrolls
                 (with_classrooms db (classrooms db ++ [c])) code' student c
                 enrollment_id now'); auto.
      * cbn [classrooms with_classrooms]. now rewrite Hupper.
      * cbn [enrollments with_classrooms c c_id].
        apply find_one_none_intro. intros e He. unfold enrollment_of.
        specialize (Hno_enr e He). unfold enrollment_by_classroom in Hno_enr.
        rewrite Hno_enr. apply andb_false_r.
Qed.

Lemma created_classroom_is_open_witness :
  reachable Scenario.secret Scenario.registered
  /\ In Scenario.tina (users Scenario.registered)
  /\ exists db' view,
       create_classroom Scenario.registered Scenario.biology Scenario.tina
         "c-bio" 1010 Scenario.draws 1
       = Some (Ok (db', view))
       /\ get_classroom db' "c-bio" Scenario.tina = Ok view
       /\ cv_enrollments view = 0%nat.
Proof.
  assert (Hreach : reachable Scenario.secret Scenario.registered)
    by (apply (reachable_run _ Scenario.signups empty_db);
        [constructor | vm_compute; reflexivity]).
  assert (Huser : In Scenario.tina (users Scenario.registered))
    by (apply nth_error_In with (n := 0%nat); vm_compute; reflexivity).
  assert (Hcreate : exists db' view,
            create_classroom Scenario.registered Scenario.biology
              Scenario.tina "c-bio" 1010 Scenario.draws 1
            = Some (Ok (db', view)))
    by (eexists; eexists; vm_compute; reflexivity).
  destruct Hcreate as (db' & view & Hcreate).
  destruct (proj2 (created_classroom_is_open Scenario.secret
                     Scenario.registered Scenario.biology Scenario.tina
                     "c-bio" 1010 Scenario.draws 1)
              db' view Hreach Huser Hcreate)
    as (_ & _ & _ & Hzero & _ & Hget & _).
  split; [exact Hreach|]. split; [exact Huser|].
  exists db', view. repeat split; assumption.
Defined.

(** ** Listing materials *)

(** X23: an answer of [get_materials] is given only to the classroom's
    teacher or to an enrolled caller of another role; it holds at most 100
    materials, all of that classroom, in ascending order, each with the
    summary of its creator, and for a student only published ones. A
    classroom that does not exist is answered with 404. *)
Theorem get_materials_sound (db : DB) (classroomId : string) (user : User) :
  ((forall c, In c (classrooms db) -> c_id c <> classroomId) ->
   get_materials db classroomId user
   = Err (HTTPException 404 "Classroom not found"))
  /\ (forall views,
        get_materials db classroomId user = Ok views ->
        (exists c,
           In c (classrooms db) /\ c_id c = classroomId
           /\ ((u_role user = TEACHER /\ c_teacherId c = u_id user)
               \/ (u_role user <> TEACHER
                   /\ exists e, In e (enrollments db)
                                /\ e_studentId e = u_id user
                                /\ e_classroomId e = classroomId)))
        /\ (List.length views <= 100)%nat
        /\ StronglySorted Z.le (map (fun v => m_order (mv_material v)) views)
        /\ (forall v, In v views ->
              In (mv_material v) (materials db)
              /\ m_classroomId (mv_material v) = classroomId
              /\ (u_role user = STUDENT ->
                  m_isPublished (mv_material v) = true)
              /\ mv_createdBy v
                 = creator_summary db (m_createdById (mv_material v)))).
Proof.
  split.
  - intros Hnone. unfold get_materials.
    now rewrite (find_no_classroom db classroomId Hnone).
  - intros views Hlist.
    pose proof (get_materials_answer db classroomId user views Hlist) as Hv.
    split; [|split; [|split]].
    + revert Hlist. unfold get_materials.
      destruct (find_one (classroom_by_id classroomId) (classrooms db))
        as [c|] eqn:Fc; handler; [|discriminate].
      apply find_one_some in Fc. destruct Fc as [Hc Hq].
      unfold classroom_by_id in Hq. apply String.eqb_eq in Hq.
      intros Hlist. exists c. split; [assumption|]. split; [assumption|].
      revert Hlist.
      destruct (String.eqb_spec (u_role user) TEACHER) as [Hrole|Hrole].
      * intros Hlist. left. split; [assumption|]. revert Hlist.
        destruct (String.eqb_spec (c_teacherId c) (u_id user)) as [E|_];
          handler; [auto | discriminate].
      * intros Hlist. right. split; [assumption|]. apply enrolled_iff.
        revert Hlist.
        destruct (is_some (find_one (enrollment_of (u_id user) classroomId)
                             (enrollments db)));
          handler; [reflexivity | discriminate].
    + subst views. rewrite length_map. unfold to_list.
      apply firstn_le_length.
    + subst views. rewrite map_map. apply StronglySorted_map.
      unfold to_list. apply StronglySorted_firstn.
      eapply StronglySorted_impl;
        [|apply (sort_by_sorted order_asc order_asc_total order_asc_trans)].
      intros a b Hab. unfold order_asc in Hab. unfold material_view. simpl.
      now apply Z.leb_le.
    + intros v Hin. subst views. apply in_map_iff in Hin.
      destruct Hin as (x & <- & Hx). apply in_firstn in Hx.
      apply sort_by_in in Hx. apply filter_In in Hx. destruct Hx as [Hx Hq].
      cbn [mv_material mv_createdBy material_view].
      destruct (String.eqb_spec (u_role user) STUDENT) as [Hrole|Hrole].
      * unfold published_in_classroom in Hq. apply andb_true_iff in Hq.
        destruct Hq as [Hq1 Hq2]. apply String.eqb_eq in Hq1.
        apply Bool.eqb_prop in Hq2. repeat split; auto.
      * unfold material_by_classroom in Hq. apply String.eqb_eq in Hq.
        repeat split; auto; try contradiction.
Qed.

Lemma get_materials_sound_witness :
  exists views,
    get_materials Scenario.taught "c-bio" Scenario.tina = Ok views
    /\ map (fun v => m_order (mv_material v)) views = [1; 2; 3]
    /\ (List.length views <= 100)%nat.
Proof.
  assert (H : exists views,
            get_materials Scenario.taught "c-bio" Scenario.tina = Ok views
            /\ map (fun v => m_order (mv_material v)) views = [1; 2; 3])
    by (eexists; split; vm_compute; reflexivity).
  destruct H as (views & Hlist & Horders).
  exists views. split; [exact Hlist|]. split; [exact Horders|].
  exact (proj1 (proj2 (proj2 (get_materials_sound Scenario.taught "c-bio"
                                Scenario.tina) views Hlist))).
Defined.

(** ** Across classrooms *)

(** X24: [reorder_materials] checks that the caller owns the classroom in
    the path and nothing about the ids in the body: a teacher who owns any
    classroom can give any material of the database, whatever classroom it
    belongs to, the order of its position in the list, while the material
    stays in its own classroom and every material not named stays as it
    is. *)
Theorem reorder_reaches_any_material (db : DB) (c : Classroom) (user : User)
  (m : Material) :
  NoDup (map c_id (classrooms db)) ->
  NoDup (map m_id (materials db)) ->
  In c (classrooms db) -> c_teacherId c = u_id user ->
  In m (materials db) ->
  exists db' m',
    reorder_materials db (c_id c) [m_id m] user
    = Ok (db', "Materials reordered")
    /\ find_one (material_by_id (m_id m)) (materials db') = Some m'
    /\ m_order m' = 1
    /\ m_classroomId m' = m_classroomId m
    /\ (forall x, In x (materials db) -> m_id x <> m_id m ->
          In x (materials db')).
Proof.
  intros Hcs Hms Hc Howner Hm.
  pose proof (find_classroom db c Hcs Hc) as Fc.
  pose proof (find_material db m Hms Hm) as Fm.
  set (m' := apply_set set_material_field [SetOrder (Z.of_nat 0 + 1)] m).
  exists (with_materials db
            (update_one (material_by_id (m_id m))
               (apply_set set_material_field [SetOrder (Z.of_nat 0 + 1)])
               (materials db))), m'.
  split; [|split; [|split; [|split]]].
  - unfold reorder_materials. rewrite Fc. handler.
    rewrite Howner, String.eqb_refl. reflexivity.
  - cbn [materials with_materials].
    apply find_one_update_one; [|exact Fm].
    intros x. apply material_by_id_set.
  - reflexivity.
  - reflexivity.
  - intros x Hx Hne. cbn [materials with_materials].
    apply in_update_one_other; [assumption|].
    unfold material_by_id. now apply String.eqb_neq.
Qed.

Lemma reorder_reaches_any_material_witness :
  In Scenario.bio (classrooms Scenario.taught)
  /\ In Scenario.draft (materials Scenario.taught)
  /\ m_order Scenario.draft = 2
  /\ exists db' m',
       reorder_materials Scenario.taught "c-bio" ["m-2"] Scenario.tina
       = Ok (db', "Materials reordered")
       /\ find_one (material_by_id "m-2") (materials db') = Some m'
       /\ m_order m' = 1.
Proof.
  assert (Hc : In Scenario.bio (classrooms Scenario.taught))
    by (apply nth_error_In with (n := 0%nat); vm_compute; reflexivity).
  assert (Hm : In Scenario.draft (materials Scenario.taught))
    by (apply nth_error_In with (n := 1%nat); vm_compute; reflexivity).
  assert (Hcs : NoDup (map c_id (classrooms Scenario.taught)))
    by concrete_nodup.
  assert (Hms : NoDup (map m_id (materials Scenario.taught)))
    by concrete_nodup.
  destruct (reorder_reaches_any_material Scenario.taught Scenario.bio
              Scenario.tina Scenario.draft Hcs Hms Hc eq_refl Hm)
    as (db' & m' & Hre & Hfind & Horder & _).
  split; [exact Hc|]. split; [exact Hm|]. split; [reflexivity|].
  exists db', m'. repeat split; assumption.
Defined.

(** ** New materials *)

(** X25: a material that [create_material] has stored is at once readable
    by the students of the classroom, unless it was created unpublished: for
    a caller of a role other than TEACHER who is enrolled in the classroom,
    [get_material] on the new id returns the stored material when
    isPublished was absent or true, and 403 when it was false; a caller who
    is not enrolled gets 403 either way. *)
Theorem created_material_visibility (db db' : DB) (classroomId : string)
  (data : MaterialCreate) (user : User) (material_id : string)
  (now : timestamp) (view : MaterialView) :
  create_material db classroomId data user material_id now = Ok (db', view) ->
  m_id (mv_material view) = material_id
  /\ m_classroomId (mv_material view) = classroomId
  /\ m_createdById (mv_material view) = u_id user
  /\ find_one (material_by_id material_id) (materials db')
     = Some (mv_material view)
  /\ (forall caller,
        u_role caller <> TEACHER ->
        (exists e, In e (enrollments db)
                   /\ e_studentId e = u_id caller
                   /\ e_classroomId e = classroomId) ->
        get_material db' material_id caller
        = if or_default (mc_isPublished data) true
          then Ok (material_view db' (mv_material view))
          else Err (HTTPException 403 "Not authorized"))
  /\ (forall caller,
        u_role caller <> TEACHER ->
        ~ (exists e, In e (enrollments db)
                     /\ e_studentId e = u_id caller
                     /\ e_classroomId e = classroomId) ->
        get_material db' material_id caller
        = Err (HTTPException 403 "Not authorized")).
Proof.
  unfold create_material. cbv zeta. intros H. inv_ok.
  cbn [mv_material m_id m_classroomId m_createdById].
  match goal with
  | |- context [with_materials db (materials db ++ [?d])] =>
      set (doc := d) in *
  end.
  assert (Hfind : find_one (material_by_id material_id)
                    (materials db ++ [doc]) = Some doc).
  { apply find_one_app_new; [|apply String.eqb_refl].
    apply find_one_none_intro. intros x Hx.
    apply not_true_is_false. intros Hq.
    assert (Hc : existsb (material_clash doc) (materials db) = true).
    { apply existsb_exists. exists x. split; [assumption|].
      unfold material_clash, material_by_id in *. cbn [doc m_id].
      now rewrite String.eqb_sym. }
    congruence. }
  repeat split; try exact Hfind.
  - intros caller Hrole Henrolled. unfold get_material.
    cbn [materials classrooms enrollments with_materials].
    rewrite Hfind. handler. rewrite (student_is_no_teacher caller Hrole).
    cbn [doc m_classroomId m_isPublished].
    rewrite (find_enrollment db _ _ Henrolled).
    destruct (or_default (mc_isPublished data) true); reflexivity.
  - intros caller Hrole Hnot. unfold get_material.
    cbn [materials classrooms enrollments with_materials].
    rewrite Hfind. handler. rewrite (student_is_no_teacher caller Hrole).
    cbn [doc m_classroomId].
    destruct (is_some (find_one (enrollment_of (u_id caller) classroomId)
                         (enrollments db))) eqn:Hen; [|reflexivity].
    apply enrolled_iff in Hen. contradiction.
Qed.

Lemma created_material_visibility_witness :
  exists db' view,
    create_material Scenario.taught "c-bio" Scenario.skeleton Scenario.tina
      "m-4" 1050
    = Ok (db', view)
    /\ get_material db' "m-4" Scenario.sam
       = Ok (material_view db' (mv_material view))
    /\ get_material db' "m-4" Scenario.bea
       = Err (HTTPException 403 "Not authorized").
Proof.
  assert (H : exists db' view,
            create_material Scenario.taught "c-bio" Scenario.skeleton
              Scenario.tina "m-4" 1050 = Ok (db', view))
    by (eexists; eexists; vm_compute; reflexivity).
  destruct H as (db' & view & Hcreate).
  destruct (created_material_visibility Scenario.taught db' "c-bio"
              Scenario.skeleton Scenario.tina "m-4" 1050 view Hcreate)
    as (_ & _ & _ & _ & Hin & Hout).
  exists db', view. split; [exact Hcreate|]. split.
  - apply (Hin Scenario.sam); [discriminate|].
    eexists. split; [apply nth_error_In with (n := 0%nat);
                     vm_compute; reflexivity|].
    split; reflexivity.
  - apply (Hout Scenario.bea); [discriminate|].
    intros (e & He & Hs & _). vm_compute in He.
    destruct He as [<-|[]]. discriminate.
Defined.

(** ** Profiles *)

(** X26: what [update_profile] stores for a user of the database: the name
    when one is given and is not empty, the avatar when one is given, and a
    new updatedAt when either was stored; id, email, role and password stay,
    every other user stays, and without anything to store the database is
    returned as it is. The answer shows the user as stored. *)
Theorem update_profile_patches (db : DB) (data : UserUpdate) (user : User)
  (now : timestamp) :
  NoDup (map u_id (users db)) ->
  In user (users db) ->
  exists db' user',
    update_profile db data user now = Ok (db', user_response user')
    /\ find_one (user_by_id (u_id user)) (users db') = Some user'
    /\ u_id user' = u_id user
    /\ u_email user' = u_email user
    /\ u_role user' = u_role user
    /\ u_password user' = u_password user
    /\ u_createdAt user' = u_createdAt user
    /\ u_name user'
       = match uu_name data with
         | Some name => if truthy name then name else u_name user
         | None => u_name user
         end
    /\ u_avatar user'
       = match uu_avatar data with
         | Some avatar => Some avatar
         | None => u_avatar user
         end
    /\ u_updatedAt user'
       = (if is_empty (profile_update_data data) then u_updatedAt user
          else now)
    /\ (is_empty (profile_update_data data) = true -> db' = db)
    /\ (forall u, In u (users db) -> u_id u <> u_id user -> In u (users db'))
    /\ classrooms db' = classrooms db
    /\ enrollments db' = enrollments db
    /\ materials db' = materials db.
Proof.
  intros Hids Huser. pose proof (find_user db user Hids Huser) as Fu.
  unfold update_profile. cbv zeta.
  destruct (is_empty (profile_update_data data)) eqn:Hempty.
  - rewrite Fu. handler. exists db, user.
    split; [reflexivity|]. split; [exact Fu|].
    apply is_empty_nil in Hempty. unfold profile_update_data in Hempty.
    destruct (uu_name data) as [name|]; destruct (uu_avatar data);
      try destruct (truthy name); try discriminate; repeat split; auto.
  - set (fs := profile_update_data data ++ [SetUserUpdatedAt now]).
    set (us' := update_one (user_by_id (u_id user))
                  (apply_set set_user_field fs) (users db)).
    assert (Hfind : find_one (user_by_id (u_id user)) us'
                    = Some (apply_set set_user_field fs user)).
    { apply find_one_update_one; [|exact Fu]. intros x.
      unfold user_by_id. now destruct (apply_set_user_keys fs x) as (-> & _). }
    cbn [users with_users]. fold us'. rewrite Hfind. handler.
    exists (with_users db us'), (apply_set set_user_field fs user).
    split; [reflexivity|]. split; [exact Hfind|].
    assert (Hother : forall u, In u (users db) -> u_id u <> u_id user ->
                       In u us').
    { intros u Hu Hne. apply in_update_one_other; [assumption|].
      unfold user_by_id. now apply String.eqb_neq. }
    subst fs. unfold profile_update_data.
    destruct (uu_name data) as [name|]; destruct (uu_avatar data);
      try destruct (truthy name);
      cbn; repeat split; auto; discriminate.
Qed.

Lemma update_profile_patches_witness :
  In Scenario.sam (users Scenario.taught)
  /\ exists db' user',
       update_profile Scenario.taught
         (mkUserUpdate (Some "Samuel") (Some "sam.png")) Scenario.sam 7000
       = Ok (db', user_response user')
       /\ u_name user' = "Samuel"
       /\ u_avatar user' = Some "sam.png"
       /\ u_email user' = "sam@school.org".
Proof.
  assert (Hsam : In Scenario.sam (users Scenario.taught))
    by (apply nth_error_In with (n := 1%nat); vm_compute; reflexivity).
  assert (Hids : NoDup (map u_id (users Scenario.taught)))
    by concrete_nodup.
  destruct (update_profile_patches Scenario.taught
              (mkUserUpdate (Some "Samuel") (Some "sam.png")) Scenario.sam
              7000 Hids Hsam)
    as (db' & user' & Hupdate & _ & _ & Hemail & _ & _ & _ & Hname & Havatar
        & _).
  split; [exact Hsam|]. exists db', user'.
  repeat split; assumption.
Defined.
